(** * QuizGenix: the generate -> parse -> grade -> feedback pipeline

    A shallow embedding of [quiz/ai_services.py], [quiz/models.py] and the
    quiz views of [views.py] ([create_quiz_from_topic], [create_quiz],
    [submit_quiz]), followed by the properties of the pipeline.  Beside
    the pipeline: [quiz/pdf_utils.py] and the views [upload_pdf],
    [take_quiz], [quiz_result], [quiz_detail], [delete_quiz] and
    [delete_pdf], and, over a state of their own, the login pages and
    the staff views with the signal receiver of [quiz/signals.py] they
    trigger.

    Conventions of the embedding
    - a Python [str] is the list of its code points ([N]);
    - a decoded JSON document is a [pyobj], the Python object [json.loads]
      builds;
    - views run in a state-and-exception monad over a [World] that holds
      the database tables, the flash messages, the log, standard output
      and the prompts sent to the model;
    - Python floats are binary64 primitive floats;
    - the model endpoint, the settings and the text of [str(v)] for
      values that are not strings are given by an [Env].

    Left out: the timestamp columns, the length limits of the text
    columns, and the limits of the interpreter (recursion depth, the cap
    on the digits of an integer literal); of PyPDF2, of the file
    storage and of the authentication backend only what they return. *)

From Stdlib Require Import Strings.String Strings.Ascii.
From Stdlib Require Import ZArith NArith List Bool Lia Sorted.
From Stdlib Require Import Floats Uint63.
Import ListNotations.

Set Warnings "-inexact-float".


(* ================================================================= *)
(** * Text *)

Definition char := N.
Definition str := list char.

(** A literal: the code points of an ASCII string. *)
Definition py (s : String.string) : str :=
  map Ascii.N_of_ascii (String.list_ascii_of_string s).
Arguments py s%_string.

(** A literal in which every apostrophe stands for a double quote, so
    that JSON text can be written down: [js "{'a': 1}"] is [{"a": 1}]. *)
Definition js (s : String.string) : str :=
  map (fun c => if (c =? 39)%N then 34%N else c) (py s).
Arguments js s%_string.

(** The code point of an ASCII character. *)
Definition ch (a : ascii) : char := N_of_ascii a.
Arguments ch a%_char.

Fixpoint str_eqb (a b : str) : bool :=
  match a, b with
  | [], [] => true
  | x :: a', y :: b' => (x =? y)%N && str_eqb a' b'
  | _, _ => false
  end.

(** [s[:n]] *)
Definition prefix (n : nat) (s : str) : str := firstn n s.

(** Decimal rendering of a non-negative [int], as [str(n)] gives it. *)
Fixpoint digits_of (fuel : nat) (n : N) (acc : str) : str :=
  match fuel with
  | O => acc
  | S fuel' =>
      let acc' := (48 + n mod 10)%N :: acc in
      if (n <? 10)%N then acc' else digits_of fuel' (n / 10)%N acc'
  end.

Definition str_of_int (z : Z) : str :=
  let n := Z.abs_N z in
  (if (z <? 0)%Z then [45%N] else []) ++ digits_of (S (N.to_nat (N.log2 n))) n [].

(* ================================================================= *)
(** * Python objects and [json.loads] *)

Module Json.

Local Open Scope N_scope.

(** Code points the scanner tests for: 9 tab, 10 line feed, 13 carriage
    return, 32 space, 34 double quote, 43 plus, 44 comma, 45 minus,
    46 dot, 47 slash, 48 to 57 the digits, 58 colon, 69 and 101 the
    letter e, 91 and 93 the brackets, 92 backslash, 117 the letter u,
    123 and 125 the braces. *)

(** What [json.loads] can build.  A float keeps the lexeme it was read
    from; a dict keeps its keys in insertion order, each at most once. *)
#[warnings="-register-all"]
Inductive pyobj : Type :=
| PyNone
| PyBool (b : bool)
| PyInt (z : Z)
| PyFloat (lexeme : str)
| PyStr (s : str)
| PyList (items : list pyobj)
| PyDict (items : list (str * pyobj)).

(** [d.get(k)] on the items of a dict. *)
Fixpoint dict_get (k : str) (d : list (str * pyobj)) : option pyobj :=
  match d with
  | [] => None
  | (k', v) :: d' => if str_eqb k k' then Some v else dict_get k d'
  end.

(** [d[k] = v]: an existing key keeps its place and takes the new value. *)
Fixpoint dict_set (k : str) (v : pyobj) (d : list (str * pyobj))
  : list (str * pyobj) :=
  match d with
  | [] => [(k, v)]
  | (k', v') :: d' =>
      if str_eqb k k' then (k', v) :: d' else (k', v') :: dict_set k v d'
  end.

(** Result of a scanning step: a value and the text left after it, a
    decode error, or recursion budget used up. *)
Inductive scan (A : Type) : Type :=
| Done (a : A) (rest : str)
| Stop
| Exhausted.
Arguments Done {A} a rest.
Arguments Stop {A}.
Arguments Exhausted {A}.

Definition is_ws (c : char) : bool :=
  (c =? 32) || (c =? 9) || (c =? 10) || (c =? 13).

Fixpoint skip_ws (s : str) : str :=
  match s with
  | c :: r => if is_ws c then skip_ws r else s
  | [] => []
  end.

Definition is_digit (c : char) : bool := (48 <=? c) && (c <=? 57).

Fixpoint span_digits (s : str) : str * str :=
  match s with
  | c :: r =>
      if is_digit c
      then let (d, r') := span_digits r in (c :: d, r')
      else ([], s)
  | [] => ([], [])
  end.

Definition decimal (ds : str) : Z :=
  fold_left (fun a c => (10 * a + Z.of_N (c - 48))%Z) ds 0%Z.

(** The integer part: a lone zero, or a non-zero digit and more digits. *)
Definition match_int_part (s : str) : option (str * str) :=
  match s with
  | c :: r =>
      if c =? 48 then Some ([c], r)
      else if is_digit c
           then let (d, r') := span_digits r in Some (c :: d, r')
           else None
  | [] => None
  end.

(** The optional fraction: a dot and at least one digit. *)
Definition match_frac (s : str) : str * str :=
  match s with
  | c :: (d :: _) as r =>
      if (c =? 46) && is_digit d
      then let (ds, r') := span_digits r in (c :: ds, r')
      else ([], s)
  | _ => ([], s)
  end.

(** The optional exponent: e or E, an optional sign, at least one digit. *)
Definition match_exp (s : str) : str * str :=
  match s with
  | e :: r =>
      if (e =? 101) || (e =? 69) then
        let (sign, r1) :=
          match r with
          | c :: r' => if (c =? 43) || (c =? 45) then ([c], r') else ([], r)
          | [] => ([], r)
          end in
        let (ds, r2) := span_digits r1 in
        match ds with
        | [] => ([], s)
        | _ => (e :: sign ++ ds, r2)
        end
      else ([], s)
  | [] => ([], s)
  end.

(** A number: an [int] when it has neither fraction nor exponent,
    otherwise a [float]. *)
Definition match_number (s : str) : option (pyobj * str) :=
  let (neg, s1) :=
    match s with
    | c :: r => if c =? 45 then (true, r) else (false, s)
    | [] => (false, s)
    end in
  match match_int_part s1 with
  | None => None
  | Some (ip, s2) =>
      let (fr, s3) := match_frac s2 in
      let (ex, s4) := match_exp s3 in
      match fr, ex with
      | [], [] => Some (PyInt (if neg then - decimal ip else decimal ip)%Z, s4)
      | _, _ =>
          Some (PyFloat ((if neg then [45] else []) ++ ip ++ fr ++ ex), s4)
      end
  end.

(** [starts_with p s] is the text after the prefix [p] of [s]. *)
Fixpoint starts_with (p s : str) : option str :=
  match p, s with
  | [], _ => Some s
  | x :: p', y :: s' => if x =? y then starts_with p' s' else None
  | _ :: _, [] => None
  end.

Definition hex_digit (c : char) : option N :=
  if (48 <=? c) && (c <=? 57) then Some (c - 48)
  else if (97 <=? c) && (c <=? 102) then Some (c - 87)
  else if (65 <=? c) && (c <=? 70) then Some (c - 55)
  else None.

Definition hex4 (a b c d : char) : option N :=
  match hex_digit a, hex_digit b, hex_digit c, hex_digit d with
  | Some x, Some y, Some z, Some w => Some (((x * 16 + y) * 16 + z) * 16 + w)
  | _, _, _, _ => None
  end.

Definition is_high_surrogate (u : N) : bool := (55296 <=? u) && (u <=? 56319).
Definition is_low_surrogate (u : N) : bool := (56320 <=? u) && (u <=? 57343).
Definition join_surrogates (hi lo : N) : N :=
  65536 + ((hi - 55296) * 1024 + (lo - 56320)).

(** The character a one-letter escape stands for. *)
Definition unescape (e : char) : option char :=
  if e =? 34 then Some 34
  else if e =? 92 then Some 92
  else if e =? 47 then Some 47
  else if e =? 98 then Some 8
  else if e =? 102 then Some 12
  else if e =? 110 then Some 10
  else if e =? 114 then Some 13
  else if e =? 116 then Some 9
  else None.

(** The body of a string literal, after its opening quote (strict mode:
    a control character inside the literal is an error). *)
Fixpoint scanstring (acc : str) (s : str) {struct s} : option (str * str) :=
  match s with
  | [] => None
  | c :: r =>
      if c =? 34 then Some (rev acc, r)
      else if c =? 92 then
        match r with
        | [] => None
        | e :: r1 =>
            if e =? 117 then
              match r1 with
              | h1 :: h2 :: h3 :: h4 :: r2 =>
                  match hex4 h1 h2 h3 h4 with
                  | None => None
                  | Some u =>
                      if is_high_surrogate u then
                        match r2 with
                        | b :: u' :: k1 :: k2 :: k3 :: k4 :: r3 =>
                            if (b =? 92) && (u' =? 117) then
                              match hex4 k1 k2 k3 k4 with
                              | None => None
                              | Some u2 =>
                                  if is_low_surrogate u2
                                  then scanstring (join_surrogates u u2 :: acc) r3
                                  else scanstring (u :: acc) r2
                              end
                            else scanstring (u :: acc) r2
                        | _ => scanstring (u :: acc) r2
                        end
                      else scanstring (u :: acc) r2
                  end
              | _ => None
              end
            else
              match unescape e with
              | Some x => scanstring (x :: acc) r1
              | None => None
              end
        end
      else if c <? 32 then None
      else scanstring (c :: acc) r
  end.

(** The scanner.  [scan_once] reads one value at the head of the text;
    [object_items] and [array_items] read the members that follow an
    opening brace or bracket.  [fuel] bounds the nesting of calls. *)
Fixpoint scan_once (fuel : nat) (s : str) {struct fuel} : scan pyobj :=
  match fuel with
  | O => Exhausted
  | S fuel' =>
      match s with
      | [] => Stop
      | c :: r =>
          if c =? 34 then
            match scanstring [] r with
            | Some (v, r') => Done (PyStr v) r'
            | None => Stop
            end
          else if c =? 123 then
            match skip_ws r with
            | c' :: r' =>
                if c' =? 125 then Done (PyDict []) r'
                else object_items fuel' [] (c' :: r')
            | [] => Stop
            end
          else if c =? 91 then
            match skip_ws r with
            | c' :: r' =>
                if c' =? 93 then Done (PyList []) r'
                else array_items fuel' [] (c' :: r')
            | [] => Stop
            end
          else
            match starts_with (py "null") s with
            | Some r' => Done PyNone r'
            | None =>
            match starts_with (py "true") s with
            | Some r' => Done (PyBool true) r'
            | None =>
            match starts_with (py "false") s with
            | Some r' => Done (PyBool false) r'
            | None =>
            match starts_with (py "NaN") s with
            | Some r' => Done (PyFloat (py "NaN")) r'
            | None =>
            match starts_with (py "Infinity") s with
            | Some r' => Done (PyFloat (py "Infinity")) r'
            | None =>
            match starts_with (py "-Infinity") s with
            | Some r' => Done (PyFloat (py "-Infinity")) r'
            | None =>
            match match_number s with
            | Some (v, r') => Done v r'
            | None => Stop
            end end end end end end end
      end
  end

with object_items (fuel : nat) (acc : list (str * pyobj)) (s : str)
  {struct fuel} : scan pyobj :=
  match fuel with
  | O => Exhausted
  | S fuel' =>
      match s with
      | c :: r =>
          if c =? 34 then
            match scanstring [] r with
            | Some (key, r1) =>
                match skip_ws r1 with
                | c1 :: r2 =>
                    if c1 =? 58 then
                      match scan_once fuel' (skip_ws r2) with
                      | Done v r3 =>
                          let acc' := dict_set key v acc in
                          match skip_ws r3 with
                          | c3 :: r4 =>
                              if c3 =? 125 then Done (PyDict acc') r4
                              else if c3 =? 44
                                   then object_items fuel' acc' (skip_ws r4)
                                   else Stop
                          | [] => Stop
                          end
                      | Stop => Stop
                      | Exhausted => Exhausted
                      end
                    else Stop
                | [] => Stop
                end
            | None => Stop
            end
          else Stop
      | [] => Stop
      end
  end

with array_items (fuel : nat) (acc : list pyobj) (s : str)
  {struct fuel} : scan pyobj :=
  match fuel with
  | O => Exhausted
  | S fuel' =>
      match scan_once fuel' s with
      | Done v r1 =>
          match skip_ws r1 with
          | c :: r2 =>
              if c =? 93 then Done (PyList (rev (v :: acc))) r2
              else if c =? 44 then array_items fuel' (v :: acc) (skip_ws r2)
              else Stop
          | [] => Stop
          end
      | Stop => Stop
      | Exhausted => Exhausted
      end
  end.

(** Nesting never exceeds twice the length of the text (see
    [scan_budget] below), so this budget is never used up. *)
Definition budget (s : str) : nat := 2 * length s + 1.

(** [json.loads(s)]: [None] stands for [json.JSONDecodeError].  Leading
    and trailing whitespace is skipped and anything else after the value
    is an error.  Limits of the interpreter (recursion depth, the cap on
    the digits of an integer literal) are outside this model. *)
Definition loads (s : str) : option pyobj :=
  match scan_once (budget s) (skip_ws s) with
  | Done v r =>
      match skip_ws r with
      | [] => Some v
      | _ :: _ => None
      end
  | Stop => None
  | Exhausted => None
  end.

End Json.
Export Json.

(* ================================================================= *)
(** * [re.search] for the two patterns of the parsers *)

Module Re.

Local Open Scope N_scope.

(** The greedy body of the pattern and its closing character: the
    longest prefix of [s] that ends in [close]. *)
Fixpoint upto_last (close : char) (s : str) : option str :=
  match s with
  | [] => None
  | x :: r =>
      match upto_last close r with
      | Some m => Some (x :: m)
      | None => if x =? close then Some [x] else None
      end
  end.

(** [re.search(open [\s\S]* close, s)]: the match at the leftmost
    position where one exists, as long as it can be; [None] when the
    pattern matches nowhere. *)
Fixpoint search (open close : char) (s : str) : option str :=
  match s with
  | [] => None
  | x :: r =>
      if x =? open then
        match upto_last close r with
        | Some m => Some (x :: m)
        | None => search open close r
        end
      else search open close r
  end.

End Re.

(* ================================================================= *)
(** * Numbers *)

Module Num.

Local Open Scope Z_scope.

(** [float(n)] for an [int] that a binary64 holds exactly. *)
Definition of_int (z : Z) : float :=
  if z <? 0 then PrimFloat.opp (PrimFloat.of_uint63 (Uint63.of_Z (- z)))
  else PrimFloat.of_uint63 (Uint63.of_Z z).

(** [a / b] on two such [int]s. *)
Definition truediv (a b : Z) : float := PrimFloat.div (of_int a) (of_int b).

(** The integer nearest to [100 * |x|], ties to the even one, computed
    on the exact value of [x]. *)
Definition nearest_hundredths (x : float) : option Z :=
  match Prim2SF x with
  | S754_zero _ => Some 0
  | S754_finite _ m e =>
      let num := 100 * Zpos m in
      if 0 <=? e then Some (num * 2 ^ e)
      else
        let d := 2 ^ (- e) in
        let q := num / d in
        let r := num mod d in
        Some (match 2 * r ?= d with
              | Lt => q
              | Gt => q + 1
              | Eq => if Z.even q then q else q + 1
              end)
  | S754_infinity _ => None
  | S754_nan => None
  end.

(** [round(x, 2)] on a float: the decimal with two places nearest to
    the exact value of [x] (ties to even), converted back to the nearest
    binary64.  Faithful while [100 * |x|] stays below [2 ^ 53]. *)
Definition round2 (x : float) : float :=
  match nearest_hundredths x with
  | Some n =>
      let y := PrimFloat.div (of_int n) (of_int 100) in
      if PrimFloat.get_sign x then PrimFloat.opp y else y
  | None => x
  end.

(** A Python number: the percentage is the [int] [0] or a [float]. *)
Inductive pynum : Type :=
| NumInt (z : Z)
| NumFloat (x : float).

(** [round(v, 2)]: an [int] is returned as it is. *)
Definition py_round2 (v : pynum) : pynum :=
  match v with
  | NumInt z => NumInt z
  | NumFloat x => NumFloat (round2 x)
  end.

(** [float(v)], as a [FloatField] stores it. *)
Definition to_float (v : pynum) : float :=
  match v with
  | NumInt z => of_int z
  | NumFloat x => x
  end.

End Num.

(* ================================================================= *)
(** * The database ([quiz/models.py]) *)

Local Open Scope Z_scope.

(** Rows carry their primary key and their foreign keys as integers.
    The timestamp columns are left out: nothing below reads them. *)

Record PDFDocument : Type := {
  pdf_id : Z;
  pdf_user : Z;
  pdf_title : str;
  pdf_file : option str;
  pdf_text_content : option str
}.

Record Quiz : Type := {
  quiz_id : Z;
  quiz_user : Z;
  quiz_pdf : Z;
  quiz_subject : str;
  quiz_difficulty : str;
  number_of_questions : Z;
  is_completed : bool
}.

Record Question : Type := {
  question_id : Z;
  question_quiz : Z;
  question_text : str;
  option_a : str;
  option_b : str;
  option_c : str;
  option_d : str;
  correct_answer : str;
  explanation : option str;
  order : Z
}.

Record UserAnswer : Type := {
  answer_id : Z;
  answer_user : Z;
  answer_quiz : Z;
  answer_question : Z;
  selected_answer : str;
  is_correct : bool
}.

Record Result : Type := {
  result_id : Z;
  result_user : Z;
  result_quiz : Z;
  score : Z;
  total_questions : Z;
  correct_answers : Z;
  wrong_answers : Z;
  percentage : float;
  strength_analysis : option str;
  weakness_analysis : option str;
  suggestions : option str
}.

Inductive level : Type := Success | Error.

(** Everything a view can read or change. *)
Record World : Type := {
  pdf_documents : list PDFDocument;
  quizzes : list Quiz;
  questions : list Question;
  user_answers : list UserAnswer;
  results : list Result;
  next_pk : Z;                         (* source of fresh primary keys *)
  flash : list (level * str);          (* django.contrib.messages *)
  logged : list str;                   (* logger.error *)
  stdout : list str;                   (* print *)
  llm_calls : list (str * str);        (* model name and prompt of each call *)
  last_result_id : option Z            (* request.session['last_result_id'] *)
}.

Definition set_documents (w : World) (x : list PDFDocument) : World :=
  {| pdf_documents := x; quizzes := quizzes w; questions := questions w;
     user_answers := user_answers w; results := results w;
     next_pk := next_pk w; flash := flash w; logged := logged w;
     stdout := stdout w; llm_calls := llm_calls w;
     last_result_id := last_result_id w |}.

Definition set_quizzes (w : World) (x : list Quiz) : World :=
  {| pdf_documents := pdf_documents w; quizzes := x; questions := questions w;
     user_answers := user_answers w; results := results w;
     next_pk := next_pk w; flash := flash w; logged := logged w;
     stdout := stdout w; llm_calls := llm_calls w;
     last_result_id := last_result_id w |}.

Definition set_questions (w : World) (x : list Question) : World :=
  {| pdf_documents := pdf_documents w; quizzes := quizzes w; questions := x;
     user_answers := user_answers w; results := results w;
     next_pk := next_pk w; flash := flash w; logged := logged w;
     stdout := stdout w; llm_calls := llm_calls w;
     last_result_id := last_result_id w |}.

Definition set_user_answers (w : World) (x : list UserAnswer) : World :=
  {| pdf_documents := pdf_documents w; quizzes := quizzes w;
     questions := questions w; user_answers := x; results := results w;
     next_pk := next_pk w; flash := flash w; logged := logged w;
     stdout := stdout w; llm_calls := llm_calls w;
     last_result_id := last_result_id w |}.

Definition set_results (w : World) (x : list Result) : World :=
  {| pdf_documents := pdf_documents w; quizzes := quizzes w;
     questions := questions w; user_answers := user_answers w; results := x;
     next_pk := next_pk w; flash := flash w; logged := logged w;
     stdout := stdout w; llm_calls := llm_calls w;
     last_result_id := last_result_id w |}.

Definition set_next_pk (w : World) (x : Z) : World :=
  {| pdf_documents := pdf_documents w; quizzes := quizzes w;
     questions := questions w; user_answers := user_answers w;
     results := results w; next_pk := x; flash := flash w;
     logged := logged w; stdout := stdout w; llm_calls := llm_calls w;
     last_result_id := last_result_id w |}.

Definition set_flash (w : World) (x : list (level * str)) : World :=
  {| pdf_documents := pdf_documents w; quizzes := quizzes w;
     questions := questions w; user_answers := user_answers w;
     results := results w; next_pk := next_pk w; flash := x;
     logged := logged w; stdout := stdout w; llm_calls := llm_calls w;
     last_result_id := last_result_id w |}.

Definition set_logged (w : World) (x : list str) : World :=
  {| pdf_documents := pdf_documents w; quizzes := quizzes w;
     questions := questions w; user_answers := user_answers w;
     results := results w; next_pk := next_pk w; flash := flash w;
     logged := x; stdout := stdout w; llm_calls := llm_calls w;
     last_result_id := last_result_id w |}.

Definition set_stdout (w : World) (x : list str) : World :=
  {| pdf_documents := pdf_documents w; quizzes := quizzes w;
     questions := questions w; user_answers := user_answers w;
     results := results w; next_pk := next_pk w; flash := flash w;
     logged := logged w; stdout := x; llm_calls := llm_calls w;
     last_result_id := last_result_id w |}.

Definition set_llm_calls (w : World) (x : list (str * str)) : World :=
  {| pdf_documents := pdf_documents w; quizzes := quizzes w;
     questions := questions w; user_answers := user_answers w;
     results := results w; next_pk := next_pk w; flash := flash w;
     logged := logged w; stdout := stdout w; llm_calls := x;
     last_result_id := last_result_id w |}.

Definition set_last_result_id (w : World) (x : option Z) : World :=
  {| pdf_documents := pdf_documents w; quizzes := quizzes w;
     questions := questions w; user_answers := user_answers w;
     results := results w; next_pk := next_pk w; flash := flash w;
     logged := logged w; stdout := stdout w; llm_calls := llm_calls w;
     last_result_id := x |}.

(** A database with nothing in it. *)
Definition empty_world : World :=
  {| pdf_documents := []; quizzes := []; questions := []; user_answers := [];
     results := []; next_pk := 1; flash := []; logged := []; stdout := [];
     llm_calls := []; last_result_id := None |}.

(* ================================================================= *)
(** * Exceptions and the monad of views *)

Inductive exn_kind : Type :=
| APIKeyError          (* ai_services.APIKeyError *)
| ValueError
| AttributeError
| TypeError
| IntegrityError       (* django.db.IntegrityError *)
| MultipleObjectsReturned
| Http404
| ModelCallError.      (* whatever the model client raises *)

Record exn : Type := Exn { kind : exn_kind; message : str }.

Inductive outcome (A : Type) : Type :=
| Returned (a : A)
| Raised (e : exn).
Arguments Returned {A} a.
Arguments Raised {A} e.

Definition M (A : Type) : Type := World -> outcome A * World.

Definition ret {A} (a : A) : M A := fun w => (Returned a, w).

Definition raise {A} (e : exn) : M A := fun w => (Raised e, w).

Definition bind {A B} (c : M A) (k : A -> M B) : M B :=
  fun w =>
    match c w with
    | (Returned a, w') => k a w'
    | (Raised e, w') => (Raised e, w')
    end.

(** [try: body  except ... as e: handler e].  What the body changed
    before it raised stays changed. *)
Definition try_except {A} (body : M A) (handler : exn -> M A) : M A :=
  fun w =>
    match body w with
    | (Returned a, w') => (Returned a, w')
    | (Raised e, w') => handler e w'
    end.

Definition get_world : M World := fun w => (Returned w, w).

Definition modify (f : World -> World) : M unit := fun w => (Returned tt, f w).

Declare Scope monad_scope.
Delimit Scope monad_scope with monad.
Notation "x <- c ;; k" := (bind c (fun x => k))
  (at level 61, c at next level, right associativity) : monad_scope.
Notation "c ;;; k" := (bind c (fun _ => k))
  (at level 61, right associativity) : monad_scope.
Local Open Scope monad_scope.

(** [for x in xs: body x] *)
Fixpoint for_each {A} (xs : list A) (body : A -> M unit) : M unit :=
  match xs with
  | [] => ret tt
  | x :: xs' => body x ;;; for_each xs' body
  end.

(** [enumerate(xs, start)] *)
Fixpoint enumerate {A} (xs : list A) (start : Z) : list (Z * A) :=
  match xs with
  | [] => []
  | x :: xs' => (start, x) :: enumerate xs' (start + 1)
  end.

Definition print (line : str) : M unit :=
  modify (fun w => set_stdout w (stdout w ++ [line])).

Definition logger_error (line : str) : M unit :=
  modify (fun w => set_logged w (logged w ++ [line])).

Definition messages_error (text : str) : M unit :=
  modify (fun w => set_flash w (flash w ++ [(Error, text)])).

Definition messages_success (text : str) : M unit :=
  modify (fun w => set_flash w (flash w ++ [(Success, text)])).

(** A fresh primary key. *)
Definition fresh_pk : M Z :=
  fun w => (Returned (next_pk w), set_next_pk w (next_pk w + 1)).

(* ================================================================= *)
(** * Python values at work *)

Definition type_name (v : pyobj) : str :=
  match v with
  | PyNone => py "NoneType"
  | PyBool _ => py "bool"
  | PyInt _ => py "int"
  | PyFloat _ => py "float"
  | PyStr _ => py "str"
  | PyList _ => py "list"
  | PyDict _ => py "dict"
  end.

(** [v.get(k, default)]: only a dict has the method. *)
Definition py_get (v : pyobj) (k : str) (default : pyobj) : M pyobj :=
  match v with
  | PyDict d =>
      ret (match dict_get k d with Some x => x | None => default end)
  | _ =>
      raise (Exn AttributeError
               (py "'" ++ type_name v ++ py "' object has no attribute 'get'"))
  end.

(** The items a [for] loop draws from [v]: the elements of a list, the
    keys of a dict, the characters of a str. *)
Definition py_iter (v : pyobj) : M (list pyobj) :=
  match v with
  | PyList l => ret l
  | PyDict d => ret (map (fun kv => PyStr (fst kv)) d)
  | PyStr s => ret (map (fun c => PyStr [c]) s)
  | _ =>
      raise (Exn TypeError
               (py "'" ++ type_name v ++ py "' object is not iterable"))
  end.

(** [len(v)] *)
Definition py_len (v : pyobj) : M Z :=
  match v with
  | PyList l => ret (Z.of_nat (length l))
  | PyDict d => ret (Z.of_nat (length d))
  | PyStr s => ret (Z.of_nat (length s))
  | _ =>
      raise (Exn TypeError
               (py "object of type '" ++ type_name v ++ py "' has no len()"))
  end.

(** Truth value of an optional str: [None] and the empty str are false. *)
Definition truthy (v : option str) : bool :=
  match v with
  | Some (_ :: _) => true
  | Some [] => false
  | None => false
  end.

(** [a or b] *)
Definition py_or (a b : option str) : option str :=
  if truthy a then a else b.

Definition join_lines (ls : list str) : str :=
  match ls with
  | [] => []
  | l :: ls' => fold_left (fun acc x => acc ++ 10%N :: x) ls' l
  end.

(* ================================================================= *)
(** * The environment of a run *)

(** What the model client answers to a prompt: the text of the
    response, or an exception. *)
Inductive llm_reply : Type :=
| Reply (content : str)
| Failure (cause : str).

(** The settings, the model endpoint and three Python built-ins whose
    exact text nothing below depends on. *)
Record Env : Type := {
  settings_GOOGLE_API_KEY : option str;  (* getattr(settings, 'GOOGLE_API_KEY', None) *)
  settings_GEMINI_API_KEY : option str;  (* getattr(settings, 'GEMINI_API_KEY', None) *)
  environ_GOOGLE_API_KEY : option str;   (* os.getenv('GOOGLE_API_KEY') *)
  llm_invoke : str -> str -> llm_reply;  (* model name, prompt *)
  builtin_str : pyobj -> str;            (* str(v) of a value that is not a str *)
  float_str : float -> str;              (* str(x) of a float *)
  decode_error_str : str -> str          (* str(e) of the JSONDecodeError on a text *)
}.

(* ================================================================= *)
(** * [quiz/ai_services.py] *)

Section AiServices.

Variable env : Env.

Definition placeholder_key : str := py "your_actual_gemini_api_key_here".

Definition not_configured : str :=
  py "AI service not configured. Please contact administrator.".

(** The credential both classes read in [__init__]. *)
Definition api_key : option str :=
  py_or (py_or (settings_GOOGLE_API_KEY env) (settings_GEMINI_API_KEY env))
        (environ_GOOGLE_API_KEY env).

(** The check both [__init__] methods make:
    [not self.api_key or self.api_key == 'your_actual_gemini_api_key_here']. *)
Definition key_rejected (k : option str) : bool :=
  negb (truthy k) ||
  match k with
  | Some s => str_eqb s placeholder_key
  | None => false
  end.

(** A constructed client: the model it talks to. *)
Record Client : Type := { model : str }.

(** [QuizGenerator.__init__] *)
Definition QuizGenerator_init : M Client :=
  if key_rejected api_key then raise (Exn APIKeyError not_configured)
  else ret {| model := py "gemini-2.5-flash" |}.

(** [PerformanceAnalyzer.__init__] *)
Definition PerformanceAnalyzer_init : M Client :=
  if key_rejected api_key then raise (Exn APIKeyError not_configured)
  else ret {| model := py "gemini-1.5-flash" |}.

(** [self.llm.invoke(prompt)] followed by the extraction of the text. *)
Definition invoke (c : Client) (prompt : str) : M str :=
  modify (fun w => set_llm_calls w (llm_calls w ++ [(model c, prompt)])) ;;;
  match llm_invoke env (model c) prompt with
  | Reply text => ret text
  | Failure cause => raise (Exn ModelCallError cause)
  end.

(** [QuizGenerator.generate_quiz_prompt] *)
Definition generate_quiz_prompt
  (pdf_text subject difficulty : str) (num_questions : Z) : str :=
  join_lines
    [ py "You are an expert quiz generator. Based on the following content from a "
        ++ subject ++ py " PDF, generate " ++ str_of_int num_questions
        ++ py " multiple choice questions (MCQs) with " ++ difficulty
        ++ py " difficulty level.";
      [];
      py "PDF CONTENT:";
      prefix 5000 pdf_text;
      [];
      py "INSTRUCTIONS:";
      py "1. Generate exactly " ++ str_of_int num_questions ++ py " questions";
      py "2. Each question must have 4 options (A, B, C, D)";
      py "3. Only ONE option should be correct";
      py "4. Provide a brief explanation for the correct answer";
      py "5. Questions should be clear, concise, and relevant to the subject";
      py "6. Format the output as JSON array";
      [];
      py "OUTPUT FORMAT:";
      py "{";
      js "  'questions': [";
      py "    {";
      js "      'question': 'Question text here?',";
      js "      'options': {";
      js "        'A': 'Option A text',";
      js "        'B': 'Option B text', ";
      js "        'C': 'Option C text',";
      js "        'D': 'Option D text'";
      py "      },";
      js "      'correct_answer': 'A',";
      js "      'explanation': 'Explanation for why A is correct'";
      py "    }";
      py "  ]";
      py "}";
      [];
      py "Generate the quiz now:" ].

Definition parse_failed : str := py "Failed to parse quiz response from AI".

(** The [except json.JSONDecodeError] clause of [parse_quiz_response];
    [text] is the text [json.loads] was given. *)
Definition quiz_decode_error (text response : str) : M pyobj :=
  print (py "JSON parsing error: " ++ decode_error_str env text) ;;;
  print (py "Response: " ++ response) ;;;
  raise (Exn ValueError parse_failed).

(** [QuizGenerator.parse_quiz_response] *)
Definition parse_quiz_response (response : str) : M pyobj :=
  match Re.search (ch "[") (ch "]") response with
  | Some json_match =>
      match loads json_match with
      | Some questions => ret questions
      | None => quiz_decode_error json_match response
      end
  | None =>
      match loads response with
      | Some data => py_get data (py "questions") data
      | None => quiz_decode_error response response
      end
  end.

(** [QuizGenerator.generate_questions] *)
Definition generate_questions (self : Client)
  (pdf_text subject difficulty : str) (num_questions : Z) : M pyobj :=
  let prompt := generate_quiz_prompt pdf_text subject difficulty num_questions in
  response_text <- invoke self prompt ;;
  parse_quiz_response response_text.

(** [generate_quiz_questions] *)
Definition generate_quiz_questions
  (pdf_text subject difficulty : str) (num_questions : Z) : M pyobj :=
  generator <- QuizGenerator_init ;;
  generate_questions generator pdf_text subject difficulty num_questions.

(** One entry of the [user_answers] list a submission collects. *)
Record AnswerSummary : Type := {
  summary_question : str;
  summary_selected : str;
  summary_correct : str;
  summary_is_correct : bool
}.

(** [correct / total * 100 if total > 0 else 0] *)
Definition percentage_of (correct total : Z) : Num.pynum :=
  if total >? 0
  then Num.NumFloat (PrimFloat.mul (Num.truediv correct total) (Num.of_int 100))
  else Num.NumInt 0.

(** [f"{v}"] of a percentage *)
Definition format_num (v : Num.pynum) : str :=
  match v with
  | Num.NumInt z => str_of_int z
  | Num.NumFloat x => float_str env x
  end.

(** The summary of the first ten answers, one line each. *)
Definition answers_summary (user_answers : list AnswerSummary) : str :=
  fold_left
    (fun acc ia =>
       let status :=
         if summary_is_correct (snd ia)
         then 10003%N :: py " Correct"
         else 10007%N :: py " Wrong" in
       acc ++ str_of_int (fst ia) ++ py ". "
           ++ prefix 100 (summary_question (snd ia))
           ++ py "... - " ++ status ++ [10%N])
    (enumerate (firstn 10 user_answers) 1) [].

(** [PerformanceAnalyzer.generate_feedback_prompt] *)
Definition generate_feedback_prompt
  (subject : str) (total_questions correct_count wrong_count : Z)
  (user_answers : list AnswerSummary) (difficulty : str) : str :=
  let percentage := percentage_of correct_count total_questions in
  join_lines
    [ py "You are an expert educational analyzer. Analyze the student's performance in a "
        ++ subject ++ py " quiz and provide detailed feedback.";
      [];
      py "QUIZ DETAILS:";
      py "- Subject: " ++ subject;
      py "- Difficulty: " ++ difficulty;
      py "- Total Questions: " ++ str_of_int total_questions;
      py "- Correct Answers: " ++ str_of_int correct_count;
      py "- Wrong Answers: " ++ str_of_int wrong_count;
      py "- Score Percentage: " ++ format_num percentage ++ py "%";
      [];
      py "USER ANSWERS:";
      answers_summary user_answers;
      [];
      py "INSTRUCTIONS:";
      py "Analyze the performance and provide feedback in the following JSON format:";
      py "{";
      js "  'strength_analysis': 'What the student did well - specific areas where they showed good understanding',";
      js "  'weakness_analysis': 'What areas need improvement - topics or concepts they struggled with',";
      js "  'suggestions': 'Specific suggestions for improvement - study tips, topics to review, etc.'";
      py "}";
      [];
      py "Be specific and helpful. The feedback should be actionable and educational.";
      [];
      py "Generate the feedback now:" ].

(** The three keys of a feedback dict. *)
Definition feedback_dict (strength weakness suggest : pyobj)
  : list (str * pyobj) :=
  [ (py "strength_analysis", strength);
    (py "weakness_analysis", weakness);
    (py "suggestions", suggest) ].

(** [d.get(k, '')] on the items of a dict *)
Definition get_or_empty (d : list (str * pyobj)) (k : str) : pyobj :=
  match dict_get k d with
  | Some v => v
  | None => PyStr []
  end.

(** The dict returned when the response holds no brace-delimited text. *)
Definition feedback_no_json : list (str * pyobj) :=
  feedback_dict (PyStr (py "Good effort on the quiz."))
                (PyStr (py "Some areas need improvement."))
                (PyStr (py "Review the topics and try again.")).

(** The dict returned when the brace-delimited text does not decode. *)
Definition feedback_undecodable : list (str * pyobj) :=
  feedback_dict (PyStr (py "Keep practicing to improve."))
                (PyStr (py "Review the material more thoroughly."))
                (PyStr (py "Consider retaking the quiz after studying.")).

(** [PerformanceAnalyzer.parse_feedback_response] *)
Definition parse_feedback_response (response : str) : M (list (str * pyobj)) :=
  match Re.search (ch "{") (ch "}") response with
  | Some json_match =>
      match loads json_match with
      | Some feedback =>
          strength <- py_get feedback (py "strength_analysis") (PyStr []) ;;
          weakness <- py_get feedback (py "weakness_analysis") (PyStr []) ;;
          suggest <- py_get feedback (py "suggestions") (PyStr []) ;;
          ret (feedback_dict strength weakness suggest)
      | None =>
          print (py "JSON parsing error: " ++ decode_error_str env json_match) ;;;
          print (py "Response: " ++ response) ;;;
          ret feedback_undecodable
      end
  | None => ret feedback_no_json
  end.

(** [PerformanceAnalyzer.generate_feedback] *)
Definition generate_feedback (self : Client)
  (subject : str) (total_questions correct_count wrong_count : Z)
  (user_answers : list AnswerSummary) (difficulty : str)
  : M (list (str * pyobj)) :=
  let prompt :=
    generate_feedback_prompt subject total_questions correct_count
      wrong_count user_answers difficulty in
  response_text <- invoke self prompt ;;
  parse_feedback_response response_text.

(** [generate_performance_feedback] *)
Definition generate_performance_feedback
  (subject : str) (total_questions correct_count wrong_count : Z)
  (user_answers : list AnswerSummary) (difficulty : str)
  : M (list (str * pyobj)) :=
  analyzer <- PerformanceAnalyzer_init ;;
  generate_feedback analyzer subject total_questions correct_count
    wrong_count user_answers difficulty.

End AiServices.

(* ================================================================= *)
(** * The object-relational layer, as the views use it *)

Section Orm.

Variable env : Env.

(** What a [CharField] or [TextField] writes for a value: a str or
    [None] as it is, anything else through [str(value)]. *)
Definition to_text (v : pyobj) : option str :=
  match v with
  | PyNone => None
  | PyStr s => Some s
  | _ => Some (builtin_str env v)
  end.

(** A column declared without [null=True] refuses [None]. *)
Definition not_null (column : str) (v : option str) : M str :=
  match v with
  | Some s => ret s
  | None =>
      raise (Exn IntegrityError (py "NOT NULL constraint failed: " ++ column))
  end.

(** [PDFDocument.objects.create(...)] *)
Definition PDFDocument_create
  (user : Z) (title : str) (file text_content : option str) : M PDFDocument :=
  pk <- fresh_pk ;;
  let row := {| pdf_id := pk; pdf_user := user; pdf_title := title;
                pdf_file := file; pdf_text_content := text_content |} in
  modify (fun w => set_documents w (pdf_documents w ++ [row])) ;;;
  ret row.

(** [Quiz.objects.create(...)]; [is_completed] takes its default. *)
Definition Quiz_create
  (user : Z) (pdf : PDFDocument) (subject difficulty : str)
  (num_questions : Z) : M Quiz :=
  pk <- fresh_pk ;;
  let row := {| quiz_id := pk; quiz_user := user; quiz_pdf := pdf_id pdf;
                quiz_subject := subject; quiz_difficulty := difficulty;
                number_of_questions := num_questions;
                is_completed := false |} in
  modify (fun w => set_quizzes w (quizzes w ++ [row])) ;;;
  ret row.

(** [Question.objects.create(...)] *)
Definition Question_create
  (quiz : Quiz) (text a b c d correct expl : pyobj) (idx : Z) : M Question :=
  text' <- not_null (py "quiz_question.question_text") (to_text text) ;;
  a' <- not_null (py "quiz_question.option_a") (to_text a) ;;
  b' <- not_null (py "quiz_question.option_b") (to_text b) ;;
  c' <- not_null (py "quiz_question.option_c") (to_text c) ;;
  d' <- not_null (py "quiz_question.option_d") (to_text d) ;;
  correct' <- not_null (py "quiz_question.correct_answer") (to_text correct) ;;
  pk <- fresh_pk ;;
  let row := {| question_id := pk; question_quiz := quiz_id quiz;
                question_text := text'; option_a := a'; option_b := b';
                option_c := c'; option_d := d'; correct_answer := correct';
                explanation := to_text expl; order := idx |} in
  modify (fun w => set_questions w (questions w ++ [row])) ;;;
  ret row.

(** [quiz.save()]: the row with the key of [quiz] is rewritten (and
    written anew when there is none). *)
Definition Quiz_save (quiz : Quiz) : M unit :=
  modify (fun w =>
    if existsb (fun r => quiz_id r =? quiz_id quiz) (quizzes w)
    then set_quizzes w
           (map (fun r => if quiz_id r =? quiz_id quiz then quiz else r)
                (quizzes w))
    else set_quizzes w (quizzes w ++ [quiz])).

(** [quiz.delete()]: the row goes, and with it every row that refers to
    it ([on_delete=CASCADE]): its questions, the answers given to it or
    to one of its questions, and its results. *)
Definition Quiz_delete (quiz : Quiz) : M unit :=
  modify (fun w =>
    let gone_question (q : Z) :=
      existsb (fun r => (question_id r =? q) && (question_quiz r =? quiz_id quiz))
              (questions w) in
    let w1 := set_quizzes w
                (filter (fun r => negb (quiz_id r =? quiz_id quiz)) (quizzes w)) in
    let w2 := set_questions w1
                (filter (fun r => negb (question_quiz r =? quiz_id quiz))
                        (questions w)) in
    let w3 := set_user_answers w2
                (filter (fun r => negb ((answer_quiz r =? quiz_id quiz)
                                        || gone_question (answer_question r)))
                        (user_answers w)) in
    set_results w3
      (filter (fun r => negb (result_quiz r =? quiz_id quiz)) (results w))).

Definition not_found : exn := Exn Http404 (py "Not Found").

(** [get_object_or_404(PDFDocument, id=pdf_id, user=request.user)] *)
Definition get_document_or_404 (pdf : Z) (user : Z) : M PDFDocument :=
  w <- get_world ;;
  match find (fun r => (pdf_id r =? pdf) && (pdf_user r =? user))
             (pdf_documents w) with
  | Some r => ret r
  | None => raise not_found
  end.

(** [get_object_or_404(Quiz, id=quiz_id, user=request.user)] *)
Definition get_quiz_or_404 (quiz : Z) (user : Z) : M Quiz :=
  w <- get_world ;;
  match find (fun r => (quiz_id r =? quiz) && (quiz_user r =? user))
             (quizzes w) with
  | Some r => ret r
  | None => raise not_found
  end.

(** Insertion of a question into a list sorted by [order]; rows of equal
    [order] keep their order of creation. *)
Fixpoint insert_by_order (q : Question) (qs : list Question) : list Question :=
  match qs with
  | [] => [q]
  | r :: qs' =>
      if order q <? order r then q :: r :: qs'
      else r :: insert_by_order q qs'
  end.

Definition sort_by_order (qs : list Question) : list Question :=
  fold_left (fun acc q => insert_by_order q acc) qs [].

(** [quiz.questions.all()], in the order of [Question.Meta.ordering]. *)
Definition quiz_questions (w : World) (quiz : Quiz) : list Question :=
  sort_by_order
    (filter (fun r => question_quiz r =? quiz_id quiz) (questions w)).

(** [UserAnswer.objects.update_or_create(user=, quiz=, question=,
    defaults={'selected_answer': , 'is_correct': })].  The lookup is by
    the three keys; a row it finds is rewritten in place, and when it
    finds none a row is inserted, which [unique_together] on
    (user, question) refuses if that pair is taken. *)
Definition UserAnswer_update_or_create
  (user : Z) (quiz : Quiz) (question : Question)
  (selected : str) (correct : bool) : M unit :=
  w <- get_world ;;
  let hit (r : UserAnswer) :=
    (answer_user r =? user) && (answer_quiz r =? quiz_id quiz)
    && (answer_question r =? question_id question) in
  match filter hit (user_answers w) with
  | [] =>
      if existsb (fun r => (answer_user r =? user)
                           && (answer_question r =? question_id question))
                 (user_answers w)
      then raise (Exn IntegrityError
                    (py "UNIQUE constraint failed: quiz_useranswer.user_id, quiz_useranswer.question_id"))
      else
        pk <- fresh_pk ;;
        let row := {| answer_id := pk; answer_user := user;
                      answer_quiz := quiz_id quiz;
                      answer_question := question_id question;
                      selected_answer := selected; is_correct := correct |} in
        modify (fun w => set_user_answers w (user_answers w ++ [row]))
  | [_] =>
      modify (fun w =>
        set_user_answers w
          (map (fun r =>
                  if hit r
                  then {| answer_id := answer_id r; answer_user := answer_user r;
                          answer_quiz := answer_quiz r;
                          answer_question := answer_question r;
                          selected_answer := selected; is_correct := correct |}
                  else r)
               (user_answers w)))
  | _ :: _ :: _ =>
      raise (Exn MultipleObjectsReturned
               (py "get() returned more than one UserAnswer"))
  end.

(** [Result.objects.create(...)] *)
Definition Result_create
  (user : Z) (quiz : Quiz) (score' total correct wrong : Z)
  (percent : Num.pynum) (strength weakness suggest : pyobj) : M Result :=
  pk <- fresh_pk ;;
  let row := {| result_id := pk; result_user := user;
                result_quiz := quiz_id quiz; score := score';
                total_questions := total; correct_answers := correct;
                wrong_answers := wrong; percentage := Num.to_float percent;
                strength_analysis := to_text strength;
                weakness_analysis := to_text weakness;
                suggestions := to_text suggest |} in
  modify (fun w => set_results w (results w ++ [row])) ;;;
  ret row.

End Orm.

(* ================================================================= *)
(** * The quiz views of [views.py] *)

(** The part of a request the three views read.  [POST_num_questions]
    is the value of [int(request.POST.get('num_questions', 10))];
    [POST_answers] lists, by question key [id], what was posted under
    [question_<id>]. *)
Record Request : Type := {
  request_user : Z;
  request_method : str;
  POST_topic : option str;
  POST_subject : option str;
  POST_difficulty : option str;
  POST_num_questions : Z;
  POST_answers : list (Z * str)
}.

(** [request.POST.get(f'question_{id}')]: the last value posted under
    the key, [None] when there is none. *)
Fixpoint posted_answer (id : Z) (d : list (Z * str)) : option str :=
  match d with
  | [] => None
  | (k, v) :: d' =>
      match posted_answer id d' with
      | Some x => Some x
      | None => if id =? k then Some v else None
      end
  end.

Inductive response : Type :=
| Redirect (name : str) (arg : option Z)
| Render (template : str).

Definition is_post (request : Request) : bool :=
  str_eqb (request_method request) (py "POST").

(** [difficulty not in ['Easy', 'Medium', 'Hard']] *)
Definition bad_difficulty (difficulty : option str) : bool :=
  match difficulty with
  | Some d =>
      negb (str_eqb d (py "Easy") || str_eqb d (py "Medium")
            || str_eqb d (py "Hard"))
  | None => true
  end.

(** The value of an optional str that passed a truth test. *)
Definition text_of (v : option str) : str :=
  match v with
  | Some s => s
  | None => []
  end.

(** Running tallies of a submission. *)
Record Tally : Type := {
  tally_score : Z;
  tally_correct : Z;
  tally_wrong : Z;
  tally_answers : list AnswerSummary
}.

Section Views.

Variable env : Env.

(** The loop of both creation views:
    [for idx, q_data in enumerate(questions_data, 1): Question.objects.create(...)] *)
Definition save_questions (quiz : Quiz) (questions_data : pyobj) : M unit :=
  items <- py_iter questions_data ;;
  for_each (enumerate items 1) (fun iq =>
    let q_data := snd iq in
    text <- py_get q_data (py "question") (PyStr []) ;;
    oa <- py_get q_data (py "options") (PyDict []) ;;
    a <- py_get oa (py "A") (PyStr []) ;;
    ob <- py_get q_data (py "options") (PyDict []) ;;
    b <- py_get ob (py "B") (PyStr []) ;;
    oc <- py_get q_data (py "options") (PyDict []) ;;
    c <- py_get oc (py "C") (PyStr []) ;;
    od <- py_get q_data (py "options") (PyDict []) ;;
    d <- py_get od (py "D") (PyStr []) ;;
    correct <- py_get q_data (py "correct_answer") (PyStr (py "A")) ;;
    expl <- py_get q_data (py "explanation") (PyStr []) ;;
    Question_create env quiz text a b c d correct expl (fst iq) ;;;
    ret tt).

(** The [try] block of both creation views. *)
Definition generate_and_save
  (quiz : Quiz) (pdf_text subject difficulty : str) (num_questions : Z)
  : M unit :=
  questions_data <-
    generate_quiz_questions env pdf_text subject difficulty num_questions ;;
  save_questions quiz questions_data ;;;
  Quiz_save {| quiz_id := quiz_id quiz; quiz_user := quiz_user quiz;
               quiz_pdf := quiz_pdf quiz; quiz_subject := quiz_subject quiz;
               quiz_difficulty := quiz_difficulty quiz;
               number_of_questions := number_of_questions quiz;
               is_completed := true |} ;;;
  n <- py_len questions_data ;;
  messages_success
    (py "Quiz generated successfully with " ++ str_of_int n ++ py " questions!").

(** The two [except] clauses of both creation views. *)
Definition generation_failed (quiz : Quiz) (e : exn) : M response :=
  match kind e with
  | APIKeyError =>
      logger_error (py "API Key Error: " ++ message e) ;;;
      messages_error (py "AI service not configured. Please contact administrator.") ;;;
      Quiz_delete quiz ;;;
      ret (Redirect (py "dashboard") None)
  | _ =>
      logger_error (py "Quiz generation error: " ++ message e) ;;;
      messages_error (py "Failed to generate quiz: " ++ message e) ;;;
      Quiz_delete quiz ;;;
      ret (Redirect (py "dashboard") None)
  end.

(** [create_quiz_from_topic(request)] *)
Definition create_quiz_from_topic (request : Request) : M response :=
  if is_post request then
    let topic := POST_topic request in
    let difficulty := POST_difficulty request in
    let num_questions := POST_num_questions request in
    if negb (truthy topic) then
      messages_error (py "Please provide a topic") ;;;
      ret (Redirect (py "dashboard") None)
    else if bad_difficulty difficulty then
      messages_error (py "Invalid difficulty level") ;;;
      ret (Redirect (py "dashboard") None)
    else if (num_questions <? 1) || (num_questions >? 50) then
      messages_error (py "Number of questions must be between 1 and 50") ;;;
      ret (Redirect (py "dashboard") None)
    else
      pdf_doc <- PDFDocument_create (request_user request)
                   (py "Topic: " ++ text_of topic) None
                   (Some (py "Topic: " ++ text_of topic)) ;;
      quiz <- Quiz_create (request_user request) pdf_doc (text_of topic)
                (text_of difficulty) num_questions ;;
      early <- try_except
                 (generate_and_save quiz
                    (py "Generate questions about: " ++ text_of topic)
                    (text_of topic) (text_of difficulty) num_questions ;;;
                  ret None)
                 (fun e => r <- generation_failed quiz e ;; ret (Some r)) ;;
      match early with
      | Some r => ret r
      | None => ret (Redirect (py "take_quiz") (Some (quiz_id quiz)))
      end
  else ret (Redirect (py "dashboard") None).

(** [create_quiz(request, pdf_id)] *)
Definition create_quiz (request : Request) (pdf : Z) : M response :=
  pdf_doc <- get_document_or_404 pdf (request_user request) ;;
  if is_post request then
    let subject := POST_subject request in
    let difficulty := POST_difficulty request in
    let num_questions := POST_num_questions request in
    if negb (truthy subject) then
      messages_error (py "Please provide a subject name") ;;;
      ret (Redirect (py "dashboard") None)
    else if bad_difficulty difficulty then
      messages_error (py "Invalid difficulty level") ;;;
      ret (Redirect (py "dashboard") None)
    else if (num_questions <? 1) || (num_questions >? 50) then
      messages_error (py "Number of questions must be between 1 and 50") ;;;
      ret (Redirect (py "dashboard") None)
    else if negb (truthy (pdf_text_content pdf_doc)) then
      messages_error (py "PDF has no extractable text content") ;;;
      ret (Redirect (py "dashboard") None)
    else
      quiz <- Quiz_create (request_user request) pdf_doc (text_of subject)
                (text_of difficulty) num_questions ;;
      early <- try_except
                 (generate_and_save quiz (text_of (pdf_text_content pdf_doc))
                    (text_of subject) (text_of difficulty) num_questions ;;;
                  ret None)
                 (fun e => r <- generation_failed quiz e ;; ret (Some r)) ;;
      match early with
      | Some r => ret r
      | None => ret (Redirect (py "take_quiz") (Some (quiz_id quiz)))
      end
  else ret (Render (py "quiz/create_quiz.html")).

(** The body of the loop of [submit_quiz] for one question. *)
Definition grade_question
  (request : Request) (quiz : Quiz) (question : Question) (t : Tally)
  : M Tally :=
  let selected_answer := posted_answer (question_id question) (POST_answers request) in
  if truthy selected_answer then
    let selected := text_of selected_answer in
    let correct := str_eqb selected (correct_answer question) in
    let t' :=
      {| tally_score := if correct then tally_score t + 1 else tally_score t;
         tally_correct := if correct then tally_correct t + 1 else tally_correct t;
         tally_wrong := if correct then tally_wrong t else tally_wrong t + 1;
         tally_answers :=
           tally_answers t ++
           [ {| summary_question := question_text question;
                summary_selected := selected;
                summary_correct := correct_answer question;
                summary_is_correct := correct |} ] |} in
    UserAnswer_update_or_create (request_user request) quiz question
      selected correct ;;;
    ret t'
  else ret t.

(** [for question in questions: ...] *)
Fixpoint grade_questions
  (request : Request) (quiz : Quiz) (qs : list Question) (t : Tally)
  : M Tally :=
  match qs with
  | [] => ret t
  | question :: qs' =>
      t' <- grade_question request quiz question t ;;
      grade_questions request quiz qs' t'
  end.

Definition feedback_unconfigured : list (str * pyobj) :=
  let text := PyStr (py "AI service not configured. Please contact administrator for detailed feedback.") in
  feedback_dict text text text.

Definition feedback_unavailable : list (str * pyobj) :=
  feedback_dict (PyStr (py "Keep practicing to improve your understanding."))
                (PyStr (py "Review the topics you got wrong."))
                (PyStr (py "Consider retaking the quiz after studying.")).

(** The two [except] clauses around the feedback call. *)
Definition feedback_failed (e : exn) : M (list (str * pyobj)) :=
  match kind e with
  | APIKeyError =>
      logger_error (py "API Key Error: " ++ message e) ;;;
      ret feedback_unconfigured
  | _ =>
      logger_error (py "AI feedback generation error: " ++ message e) ;;;
      ret feedback_unavailable
  end.

Definition empty_tally : Tally :=
  {| tally_score := 0; tally_correct := 0; tally_wrong := 0;
     tally_answers := [] |}.

(** [submit_quiz(request, quiz_id)] *)
Definition submit_quiz (request : Request) (quiz_key : Z) : M response :=
  quiz <- get_quiz_or_404 quiz_key (request_user request) ;;
  if is_post request then
    w <- get_world ;;
    let questions := quiz_questions w quiz in
    let total := Z.of_nat (length questions) in
    t <- grade_questions request quiz questions empty_tally ;;
    let percent := percentage_of (tally_score t) total in
    feedback <- try_except
                  (generate_performance_feedback env (quiz_subject quiz) total
                     (tally_correct t) (tally_wrong t) (tally_answers t)
                     (quiz_difficulty quiz))
                  feedback_failed ;;
    result <- Result_create env (request_user request) quiz (tally_score t)
                total (tally_correct t) (tally_wrong t)
                (Num.py_round2 percent)
                (get_or_empty feedback (py "strength_analysis"))
                (get_or_empty feedback (py "weakness_analysis"))
                (get_or_empty feedback (py "suggestions")) ;;
    modify (fun w => set_last_result_id w (Some (result_id result))) ;;;
    ret (Redirect (py "quiz_result") (Some (quiz_id quiz)))
  else ret (Redirect (py "take_quiz") (Some (quiz_id quiz))).

End Views.

(* ================================================================= *)
(** * [quiz/pdf_utils.py] *)

(** What PyPDF2 makes of a file.  [page.extract_text()] returns a str
    or raises; [PdfReader(file)] raises or gives the pages.  A failure
    is known by the text of its exception, [str(e)]. *)
Inductive page : Type :=
| PageText (text : str)
| PageError (cause : str).

Inductive pdf_reading : Type :=
| Unreadable (cause : str)
| Pages (pages : list page).

(** The loop over the pages: [text_content] grows by the text of each
    page that has some, until a page raises. *)
Fixpoint read_pages (pages : list page) (text_content : list str)
  : list str + str :=
  match pages with
  | [] => inl text_content
  | PageText text :: rest =>
      read_pages rest
        (match text with
         | [] => text_content
         | _ :: _ => text_content ++ [text]
         end)
  | PageError cause :: _ => inr cause
  end.

(** The [try] block of [extract_text_from_pdf] up to the join. *)
Definition page_texts (pdf_file : pdf_reading) : list str + str :=
  match pdf_file with
  | Unreadable cause => inr cause
  | Pages pages => read_pages pages []
  end.

(** [extract_text_from_pdf(pdf_file)] *)
Definition extract_text_from_pdf (pdf_file : pdf_reading) : M str :=
  match page_texts pdf_file with
  | inl text_content => ret (join_lines text_content)
  | inr cause =>
      print (py "Error extracting PDF text: " ++ cause) ;;;
      raise (Exn ValueError (py "Failed to extract text from PDF: " ++ cause))
  end.

(** What [open(file_path, 'rb')] gives: an exception, or a file that
    PyPDF2 reads in some way. *)
Inductive opened_file : Type :=
| CannotOpen (cause : str)
| Opened (reading : pdf_reading).

(** [extract_text_from_pdf_file(file_path)] *)
Definition extract_text_from_pdf_file (file_path : opened_file) : M str :=
  let failed (cause : str) : M str :=
    print (py "Error reading PDF file: " ++ cause) ;;;
    raise (Exn ValueError (py "Failed to read PDF file: " ++ cause)) in
  match file_path with
  | CannotOpen cause => failed cause
  | Opened reading =>
      try_except (extract_text_from_pdf reading) (fun e => failed (message e))
  end.

(* ================================================================= *)
(** * The other views of [views.py] *)

(** An uploaded file: its name, the name under which the storage keeps
    it, and what PyPDF2 makes of it. *)
Record UploadedFile : Type := {
  file_name : str;
  file_stored_as : str;
  file_reading : pdf_reading
}.

(** [c.lower()] for the characters A to Z. *)
Definition ascii_lower (c : char) : char :=
  if ((65 <=? c) && (c <=? 90))%N then (c + 32)%N else c.

(** [s.endswith(suffix)] *)
Definition endswith (s suffix : str) : bool :=
  str_eqb (skipn (length s - length suffix) s) suffix.

(** [name.lower().endswith('.pdf')].  [str.lower] changes other
    characters than A to Z as well, but maps none of them to a dot or
    to one of the letters p, d and f, and it maps every character to at
    least one character, so that the test depends on the last four
    characters of the name as it does here. *)
Definition is_pdf_name (name : str) : bool :=
  endswith (map ascii_lower name) (py ".pdf").

(** [pdf_doc.save()]: the row with the key of [pdf_doc] is rewritten
    (and written anew when there is none). *)
Definition PDFDocument_save (pdf_doc : PDFDocument) : M unit :=
  modify (fun w =>
    if existsb (fun r => pdf_id r =? pdf_id pdf_doc) (pdf_documents w)
    then set_documents w
           (map (fun r => if pdf_id r =? pdf_id pdf_doc then pdf_doc else r)
                (pdf_documents w))
    else set_documents w (pdf_documents w ++ [pdf_doc])).

(** [upload_pdf(request)], with [request.FILES.get('pdf_file')] and
    [request.POST.get('title')].  The view issues one message of the
    level [warning], which the quiz views do not use: its text is
    returned beside the response.  [pdf_doc.file.seek(0)] on the file
    just stored is taken to succeed. *)
Definition upload_pdf (request : Request)
  (FILES_pdf_file : option UploadedFile) (POST_title : option str)
  : M (response * option str) :=
  if is_post request then
    match FILES_pdf_file with
    | None =>
        messages_error (py "No file uploaded") ;;;
        ret (Redirect (py "dashboard") None, None)
    | Some upload =>
        let title :=
          match POST_title with
          | Some t => t
          | None => file_name upload
          end in
        if negb (is_pdf_name (file_name upload)) then
          messages_error (py "Only PDF files are allowed") ;;;
          ret (Redirect (py "dashboard") None, None)
        else
          pdf_doc <- PDFDocument_create (request_user request) title
                       (Some (file_stored_as upload)) None ;;
          warning <-
            try_except
              (text_content <- extract_text_from_pdf (file_reading upload) ;;
               PDFDocument_save
                 {| pdf_id := pdf_id pdf_doc; pdf_user := pdf_user pdf_doc;
                    pdf_title := pdf_title pdf_doc; pdf_file := pdf_file pdf_doc;
                    pdf_text_content := Some text_content |} ;;;
               messages_success (py "PDF uploaded and processed successfully") ;;;
               ret None)
              (fun e =>
                 logger_error (py "PDF extraction error: " ++ message e) ;;;
                 ret (Some (py "PDF uploaded but text extraction failed"))) ;;
          ret (Redirect (py "dashboard") None, warning)
    end
  else ret (Redirect (py "dashboard") None, None).

(** [pdf.delete()]: the row goes, and with it the quizzes made from the
    document and every row that refers to one of them. *)
Definition PDFDocument_delete (pdf : PDFDocument) : M unit :=
  modify (fun w =>
    let gone_quiz (k : Z) :=
      existsb (fun r => (quiz_id r =? k) && (quiz_pdf r =? pdf_id pdf))
              (quizzes w) in
    let gone_question (q : Z) :=
      existsb (fun r => (question_id r =? q) && gone_quiz (question_quiz r))
              (questions w) in
    let w0 := set_documents w
                (filter (fun r => negb (pdf_id r =? pdf_id pdf))
                        (pdf_documents w)) in
    let w1 := set_quizzes w0
                (filter (fun r => negb (quiz_pdf r =? pdf_id pdf)) (quizzes w)) in
    let w2 := set_questions w1
                (filter (fun r => negb (gone_quiz (question_quiz r)))
                        (questions w)) in
    let w3 := set_user_answers w2
                (filter (fun r => negb (gone_quiz (answer_quiz r)
                                        || gone_question (answer_question r)))
                        (user_answers w)) in
    set_results w3
      (filter (fun r => negb (gone_quiz (result_quiz r))) (results w))).

(** [delete_pdf(request, pdf_id)] *)
Definition delete_pdf (request : Request) (pdf : Z) : M response :=
  pdf_doc <- get_document_or_404 pdf (request_user request) ;;
  PDFDocument_delete pdf_doc ;;;
  messages_success (py "PDF deleted successfully") ;;;
  ret (Redirect (py "dashboard") None).

(** [delete_quiz(request, quiz_id)] *)
Definition delete_quiz (request : Request) (quiz_key : Z) : M response :=
  quiz <- get_quiz_or_404 quiz_key (request_user request) ;;
  Quiz_delete quiz ;;;
  messages_success (py "Quiz deleted successfully") ;;;
  ret (Redirect (py "dashboard") None).

(** One entry of [detailed_results]. *)
Record Detail : Type := {
  detail_question_number : Z;
  detail_question_text : str;
  detail_selected_answer : option str;
  detail_selected_text : str;
  detail_correct_answer : str;
  detail_correct_text : str;
  detail_is_correct : bool;
  detail_explanation : option str;
  detail_options : list (str * str)
}.

(** [option_mapping] *)
Definition option_mapping (question : Question) : list (str * str) :=
  [ (py "A", option_a question); (py "B", option_b question);
    (py "C", option_c question); (py "D", option_d question) ].

(** [d.get(k, default)] on a dict of strs *)
Fixpoint mapping_get (k : str) (d : list (str * str)) (default : str) : str :=
  match d with
  | [] => default
  | (k', v) :: d' => if str_eqb k k' then v else mapping_get k d' default
  end.

(** [answer_dict.get(question.id)].  The dict is filled from the
    answers of the learner to the quiz, latest first, so that of several
    rows for one question the earliest stays; rows are kept here in the
    order of their creation. *)
Definition answer_on_record (w : World) (user : Z) (quiz : Quiz)
  (question : Question) : option UserAnswer :=
  find (fun ua => (answer_user ua =? user) && (answer_quiz ua =? quiz_id quiz)
                  && (answer_question ua =? question_id question))
       (user_answers w).

(** The body of the loop that builds [detailed_results]. *)
Definition detail_of (w : World) (user : Z) (quiz : Quiz) (question : Question)
  : Detail :=
  let user_answer := answer_on_record w user quiz question in
  let selected := option_map selected_answer user_answer in
  let correct :=
    match user_answer with
    | Some ua => is_correct ua
    | None => false
    end in
  {| detail_question_number := order question;
     detail_question_text := question_text question;
     detail_selected_answer := selected;
     detail_selected_text :=
       if truthy selected
       then mapping_get (text_of selected) (option_mapping question)
              (py "No answer")
       else py "No answer";
     detail_correct_answer := correct_answer question;
     detail_correct_text :=
       mapping_get (correct_answer question) (option_mapping question) [];
     detail_is_correct := correct;
     detail_explanation := explanation question;
     detail_options := option_mapping question |}.

(** The context of [quiz/quiz_result.html]; its entries [score],
    [total], [correct], [wrong] and [percentage] are fields of
    [context_result]. *)
Record ResultContext : Type := {
  context_quiz : Quiz;
  context_result : Result;
  context_detailed_results : list Detail
}.

(** [queryset.first()] under [ordering = ['-completed_at']]: the row
    created last. *)
Definition most_recent (rows : list Result) : option Result :=
  match rev rows with
  | [] => None
  | r :: _ => Some r
  end.

(** [quiz_result(request, quiz_id)]: a redirect, or the page with its
    context. *)
Definition quiz_result (request : Request) (quiz_key : Z)
  : M (response + ResultContext) :=
  quiz <- get_quiz_or_404 quiz_key (request_user request) ;;
  w <- get_world ;;
  let mine (r : Result) :=
    (result_user r =? request_user request) && (result_quiz r =? quiz_id quiz) in
  let fallback := most_recent (filter mine (results w)) in
  result <-
    match last_result_id w with
    | Some result_key =>
        if result_key =? 0 then ret fallback
        else
          modify (fun w => set_last_result_id w None) ;;;
          ret (most_recent
                 (filter (fun r => (result_id r =? result_key) && mine r)
                         (results w)))
    | None => ret fallback
    end ;;
  match result with
  | None =>
      messages_error (py "No result found for this quiz.") ;;;
      ret (inl (Redirect (py "dashboard") None))
  | Some result =>
      w <- get_world ;;
      ret (inr {| context_quiz := quiz;
                  context_result := result;
                  context_detailed_results :=
                    map (detail_of w (request_user request) quiz)
                        (quiz_questions w quiz) |})
  end.

(** The context of [quiz/take_quiz.html]. *)
Record TakeContext : Type := {
  taken_quiz : Quiz;
  taken_questions : list Question
}.

(** [take_quiz(request, quiz_id)] *)
Definition take_quiz (request : Request) (quiz_key : Z) : M TakeContext :=
  quiz <- get_quiz_or_404 quiz_key (request_user request) ;;
  w <- get_world ;;
  ret {| taken_quiz := quiz; taken_questions := quiz_questions w quiz |}.

(** [get_object_or_404(Quiz, id=quiz_id)] *)
Definition get_any_quiz_or_404 (quiz : Z) : M Quiz :=
  w <- get_world ;;
  match find (fun r => quiz_id r =? quiz) (quizzes w) with
  | Some r => ret r
  | None => raise not_found
  end.

(** The context of [quiz/quiz_detail.html]; [result] is a queryset for
    staff and one row or [None] for a learner.  Querysets of answers
    and results come latest first. *)
Record DetailContext : Type := {
  shown_quiz : Quiz;
  shown_questions : list Question;
  shown_answers : list UserAnswer;
  shown_result : list Result + option Result
}.

(** [quiz_detail(request, quiz_id)]; [staff] is
    [request.user.is_staff or request.user.is_superuser]. *)
Definition quiz_detail (request : Request) (staff : bool) (quiz_key : Z)
  : M DetailContext :=
  quiz <- get_any_quiz_or_404 quiz_key ;;
  w <- get_world ;;
  let questions := quiz_questions w quiz in
  if staff then
    ret {| shown_quiz := quiz; shown_questions := questions;
           shown_answers :=
             rev (filter (fun r => answer_quiz r =? quiz_id quiz)
                         (user_answers w));
           shown_result :=
             inl (rev (filter (fun r => result_quiz r =? quiz_id quiz)
                              (results w))) |}
  else
    ret {| shown_quiz := quiz; shown_questions := questions;
           shown_answers :=
             rev (filter (fun r => (answer_user r =? request_user request)
                                   && (answer_quiz r =? quiz_id quiz))
                         (user_answers w));
           shown_result :=
             inr (most_recent
                    (filter (fun r => (result_user r =? request_user request)
                                      && (result_quiz r =? quiz_id quiz))
                            (results w))) |}.

(* ================================================================= *)
(** * Accounts: the login pages and the staff views of [views.py] *)

(** A row of [auth.User], as far as the views read it; [full_name] is
    what [get_full_name()] gives. *)
Record User : Type := {
  user_id : Z;
  username : str;
  full_name : str;
  is_staff : bool;
  is_superuser : bool;
  is_active : bool
}.

Record UserProfile : Type := {
  profile_id : Z;
  profile_user : Z;
  profile_name : str;
  profile_status : str
}.

(** The levels of the messages these views issue. *)
Inductive notice : Type := NoticeSuccess | NoticeWarning | NoticeError.

Record Accounts : Type := {
  users : list User;
  profiles : list UserProfile;
  next_profile : Z;
  notices : list (notice * str)
}.

Definition add_notice (s : Accounts) (level : notice) (text : str) : Accounts :=
  {| users := users s; profiles := profiles s; next_profile := next_profile s;
     notices := notices s ++ [(level, text)] |}.

(** [user.profile]: the profile of the user, [None] for
    [UserProfile.DoesNotExist]. *)
Definition profile_of (s : Accounts) (user : User) : option UserProfile :=
  find (fun p => profile_user p =? user_id user) (profiles s).

(** [profile.save()] *)
Definition UserProfile_save (profile : UserProfile) (s : Accounts) : Accounts :=
  {| users := users s;
     profiles := map (fun r => if profile_id r =? profile_id profile
                               then profile else r) (profiles s);
     next_profile := next_profile s; notices := notices s |}.

(** [UserProfile.objects.create(user=, name=, status=)] *)
Definition UserProfile_create (user : User) (name status : str) (s : Accounts)
  : Accounts :=
  {| users := users s;
     profiles := profiles s ++ [ {| profile_id := next_profile s;
                                    profile_user := user_id user;
                                    profile_name := name;
                                    profile_status := status |} ];
     next_profile := next_profile s + 1; notices := notices s |}.

(** [save_user_profile(sender, instance)] of [quiz/signals.py] *)
Definition save_user_profile (instance : User) (s : Accounts) : Accounts :=
  match profile_of s instance with
  | Some profile => UserProfile_save profile s
  | None =>
      UserProfile_create instance
        (match full_name instance with
         | [] => username instance
         | _ :: _ => full_name instance
         end)
        (py "Approved") s
  end.

(** [user.save()] of a user that exists, with the [post_save] signal it
    sends: the receivers [create_user_profile] of [views.py] and of
    [quiz/signals.py] act on a user that was created only. *)
Definition User_save (user : User) (s : Accounts) : Accounts :=
  save_user_profile user
    {| users := map (fun r => if user_id r =? user_id user then user else r)
                    (users s);
       profiles := profiles s; next_profile := next_profile s;
       notices := notices s |}.

Definition with_active (user : User) (active : bool) : User :=
  {| user_id := user_id user; username := username user;
     full_name := full_name user; is_staff := is_staff user;
     is_superuser := is_superuser user; is_active := active |}.

Definition with_status (profile : UserProfile) (status : str) : UserProfile :=
  {| profile_id := profile_id profile; profile_user := profile_user profile;
     profile_name := profile_name profile; profile_status := status |}.

(** [approve_user(request, user_id)] *)
Definition approve_user (request_user : User) (target : Z) (s : Accounts)
  : outcome response * Accounts :=
  if negb (is_staff request_user) then
    (Returned (Redirect (py "dashboard") None),
     add_notice s NoticeError (py "Access denied. Admin privileges required."))
  else
    match find (fun r => user_id r =? target) (users s) with
    | None => (Raised not_found, s)
    | Some target_user =>
        if user_id target_user =? user_id request_user then
          (Returned (Redirect (py "admin_dashboard") None),
           add_notice s NoticeError (py "You cannot modify your own account."))
        else
          let s1 :=
            match profile_of s target_user with
            | Some profile =>
                UserProfile_save (with_status profile (py "Approved")) s
            | None => UserProfile_create target_user [] (py "Approved") s
            end in
          let s2 := User_save (with_active target_user true) s1 in
          (Returned (Redirect (py "admin_dashboard") None),
           add_notice s2 NoticeSuccess
             (py "User " ++ username target_user
              ++ py " has been approved."))
    end.

(** [reject_user(request, user_id)] *)
Definition reject_user (request_user : User) (target : Z) (s : Accounts)
  : outcome response * Accounts :=
  if negb (is_staff request_user) then
    (Returned (Redirect (py "dashboard") None),
     add_notice s NoticeError (py "Access denied. Admin privileges required."))
  else
    match find (fun r => user_id r =? target) (users s) with
    | None => (Raised not_found, s)
    | Some target_user =>
        if user_id target_user =? user_id request_user then
          (Returned (Redirect (py "admin_dashboard") None),
           add_notice s NoticeError (py "You cannot modify your own account."))
        else
          let s1 :=
            match profile_of s target_user with
            | Some profile =>
                UserProfile_save (with_status profile (py "Rejected")) s
            | None => UserProfile_create target_user [] (py "Rejected") s
            end in
          let s2 := User_save (with_active target_user true) s1 in
          (Returned (Redirect (py "admin_dashboard") None),
           add_notice s2 NoticeWarning
             (py "User " ++ username target_user
              ++ py " has been rejected."))
    end.

(** [toggle_user_status(request, user_id)] *)
Definition toggle_user_status (request_user : User) (target : Z) (s : Accounts)
  : outcome response * Accounts :=
  if negb (is_staff request_user) then
    (Returned (Redirect (py "dashboard") None),
     add_notice s NoticeError (py "Access denied. Admin privileges required."))
  else
    match find (fun r => user_id r =? target) (users s) with
    | None => (Raised not_found, s)
    | Some target_user =>
        if user_id target_user =? user_id request_user then
          (Returned (Redirect (py "admin_dashboard") None),
           add_notice s NoticeError (py "You cannot deactivate your own account."))
        else
          let saved := with_active target_user (negb (is_active target_user)) in
          let s1 := User_save saved s in
          let status :=
            if is_active saved then py "activated" else py "deactivated" in
          (Returned (Redirect (py "admin_dashboard") None),
           add_notice s1 NoticeSuccess
             (py "User " ++ username target_user ++ py " has been " ++ status
              ++ py "."))
    end.

(** What the login views read of a request: [request.user] when it is
    authenticated, the method, and the fields [username] and [password]
    of [request.POST] and [next] of [request.GET]. *)
Record LoginRequest : Type := {
  login_user : option User;
  login_method : str;
  POST_username : option str;
  POST_password : option str;
  GET_next : option str
}.

(** [User.objects.get(username=username)], [None] for
    [User.DoesNotExist]. *)
Definition user_named (s : Accounts) (name : str) : option User :=
  find (fun r => str_eqb (username r) name) (users s).

(** The outcome of a login view: the response, and the user that was
    handed to [login(request, user)], if the view came to that. *)
Definition refuse (s : Accounts) (text page : str)
  : (response * option User) * Accounts :=
  ((Redirect page None, None), add_notice s NoticeError text).

Section Login.

(** [django.contrib.auth.authenticate], by the table of users, the
    name and the password. *)
Variable authenticate : list User -> str -> str -> option User.

(** [user_login(request)] *)
Definition user_login (request : LoginRequest) (s : Accounts)
  : (response * option User) * Accounts :=
  match login_user request with
  | Some current =>
      if is_staff current || is_superuser current
      then ((Redirect (py "admin_dashboard") None, None), s)
      else ((Redirect (py "dashboard") None, None), s)
  | None =>
      if str_eqb (login_method request) (py "POST") then
        let username := POST_username request in
        let password := POST_password request in
        if negb (truthy username) || negb (truthy password) then
          refuse s (py "Please provide both username and password")
                 (py "user_login")
        else
          let refused :=
            match user_named s (text_of username) with
            | Some user =>
                if is_staff user || is_superuser user
                then Some (py "Admins must use Admin Login page.")
                else if negb (is_active user)
                then Some (py "Your account is not active. Please contact admin.")
                else None
            | None => None
            end in
          match refused with
          | Some text => refuse s text (py "user_login")
          | None =>
              match authenticate (users s) (text_of username) (text_of password) with
              | Some user =>
                  if is_staff user || is_superuser user then
                    refuse s (py "Admins must use Admin Login page.")
                           (py "user_login")
                  else
                    let next_url := GET_next request in
                    ((Redirect (if truthy next_url then text_of next_url
                                else py "dashboard") None,
                      Some user), s)
              | None =>
                  refuse s (py "Invalid username or password") (py "user_login")
              end
          end
      else ((Render (py "quiz/login.html"), None), s)
  end.

(** [admin_login(request)] *)
Definition admin_login (request : LoginRequest) (s : Accounts)
  : (response * option User) * Accounts :=
  match login_user request with
  | Some current =>
      if is_staff current || is_superuser current
      then ((Redirect (py "admin_dashboard") None, None), s)
      else ((Redirect (py "dashboard") None, None), s)
  | None =>
      if str_eqb (login_method request) (py "POST") then
        let username := POST_username request in
        let password := POST_password request in
        if negb (truthy username) || negb (truthy password) then
          refuse s (py "Please provide both username and password")
                 (py "admin_login")
        else
          let refused :=
            match user_named s (text_of username) with
            | Some user =>
                if negb (is_active user)
                then Some (py "Your account is not active. Please contact admin.")
                else if negb (is_staff user) && negb (is_superuser user)
                then Some (py "Access restricted to administrators.")
                else None
            | None => None
            end in
          match refused with
          | Some text => refuse s text (py "admin_login")
          | None =>
              match authenticate (users s) (text_of username) (text_of password) with
              | Some user =>
                  if negb (is_staff user) && negb (is_superuser user) then
                    refuse s (py "Access restricted to administrators.")
                           (py "admin_login")
                  else ((Redirect (py "admin_dashboard") None, Some user), s)
              | None =>
                  refuse s (py "Invalid username or password") (py "admin_login")
              end
          end
      else ((Render (py "quiz/admin_login.html"), None), s)
  end.

End Login.

(** The shape that [approve_user] and [reject_user] have in common,
    for the facts about both. *)
Definition set_status (request_user : User) (target : Z) (status : str)
  (level : notice) (text : str) (s : Accounts) : outcome response * Accounts :=
  if negb (is_staff request_user) then
    (Returned (Redirect (py "dashboard") None),
     add_notice s NoticeError (py "Access denied. Admin privileges required."))
  else
    match find (fun r => user_id r =? target) (users s) with
    | None => (Raised not_found, s)
    | Some target_user =>
        if user_id target_user =? user_id request_user then
          (Returned (Redirect (py "admin_dashboard") None),
           add_notice s NoticeError (py "You cannot modify your own account."))
        else
          let s1 :=
            match profile_of s target_user with
            | Some profile => UserProfile_save (with_status profile status) s
            | None => UserProfile_create target_user [] status s
            end in
          let s2 := User_save (with_active target_user true) s1 in
          (Returned (Redirect (py "admin_dashboard") None),
           add_notice s2 level (py "User " ++ username target_user ++ text))
    end.

(* ================================================================= *)
(** * Notions used to state the properties *)

(** An environment in which only the first setting can hold a
    credential and the model always gives the same answer. *)
Definition simple_env (key : option str) (reply : llm_reply) : Env :=
  {| settings_GOOGLE_API_KEY := key; settings_GEMINI_API_KEY := None;
     environ_GOOGLE_API_KEY := None; llm_invoke := fun _ _ => reply;
     builtin_str := fun _ => py "<object>";
     float_str := fun _ => py "<float>";
     decode_error_str := fun _ => py "<decode error>" |}.

(** The two worlds agree on every table and on the key counter. *)
Definition same_tables (w w' : World) : Prop :=
  pdf_documents w' = pdf_documents w /\ quizzes w' = quizzes w /\
  questions w' = questions w /\ user_answers w' = user_answers w /\
  results w' = results w /\ next_pk w' = next_pk w.

(** The answers a learner has on record for a question. *)
Definition key_match (user question : Z) (r : UserAnswer) : bool :=
  (answer_user r =? user) && (answer_question r =? question).

Definition rows_for (user question : Z) (rows : list UserAnswer)
  : list UserAnswer :=
  filter (key_match user question) rows.

(** What the request says about a question. *)
Definition selection (request : Request) (q : Question) : option str :=
  posted_answer (question_id q) (POST_answers request).

Definition answered (request : Request) (q : Question) : bool :=
  truthy (selection request q).

Definition answered_right (request : Request) (q : Question) : bool :=
  answered request q
  && str_eqb (text_of (selection request q)) (correct_answer q).

Definition answered_wrong (request : Request) (q : Question) : bool :=
  answered request q
  && negb (str_eqb (text_of (selection request q)) (correct_answer q)).

Definition count (f : Question -> bool) (qs : list Question) : Z :=
  Z.of_nat (length (filter f qs)).

(** Some answered question of [qs] has the key [id]. *)
Definition touched (request : Request) (qs : list Question) (id : Z) : bool :=
  existsb (fun q => answered request q && (question_id q =? id)) qs.

(** The state of the answer table that submissions rely on and keep:
    primary keys of questions are unique, a learner has at most one
    answer per question, and an answer names the quiz of its question. *)
Record answers_ok (w : World) : Prop := {
  question_keys : NoDup (map question_id (questions w));
  one_per_pair :
    forall u q, (length (rows_for u q (user_answers w)) <= 1)%nat;
  quiz_of_answer :
    forall r q, In r (user_answers w) -> In q (questions w) ->
                answer_question r = question_id q ->
                answer_quiz r = question_quiz q
}.

(** Every key stored in a table was drawn from the counter. *)
Record keys_below (w : World) : Prop := {
  quiz_keys_below : Forall (fun r => quiz_id r < next_pk w) (quizzes w);
  question_keys_below :
    Forall (fun r => question_id r < next_pk w /\ question_quiz r < next_pk w)
           (questions w);
  answer_keys_below :
    Forall (fun r => answer_quiz r < next_pk w /\ answer_question r < next_pk w)
           (user_answers w);
  result_keys_below : Forall (fun r => result_quiz r < next_pk w) (results w)
}.

(** [start, start + 1, ...], [n] numbers. *)
Fixpoint count_from (start : Z) (n : nat) : list Z :=
  match n with
  | O => []
  | S n' => start :: count_from (start + 1) n'
  end.

(** The percentage a submission stores for a score out of a total. *)
Definition stored_percentage (correct total : Z) : float :=
  Num.to_float (Num.py_round2 (percentage_of correct total)).




(** The row [r] after an update of the answer of [user] to [question]. *)
Definition rewrite_answer (user question : Z) (selected : str) (correct : bool)
  (r : UserAnswer) : UserAnswer :=
  if key_match user question r
  then {| answer_id := answer_id r; answer_user := answer_user r;
          answer_quiz := answer_quiz r; answer_question := answer_question r;
          selected_answer := selected; is_correct := correct |}
  else r.

(** Where the answer row [r] of a later table comes from: it has the
    keys of a row of the table [old], or it answers one of the
    questions [qs] of the quiz [quiz]. *)
Definition answer_origin (old : list UserAnswer) (quiz : Quiz)
  (qs : list Question) (r : UserAnswer) : Prop :=
  (exists r0, In r0 old /\ answer_quiz r = answer_quiz r0 /\
              answer_question r = answer_question r0) \/
  (answer_quiz r = quiz_id quiz /\
   exists q, In q qs /\ answer_question r = question_id q).

(** The tallies after one more question, as the loop body leaves them. *)
Definition tally_step (request : Request) (q : Question) (t : Tally) : Tally :=
  if answered request q then
    let selected := text_of (selection request q) in
    let correct := str_eqb selected (correct_answer q) in
    {| tally_score := if correct then tally_score t + 1 else tally_score t;
       tally_correct := if correct then tally_correct t + 1 else tally_correct t;
       tally_wrong := if correct then tally_wrong t else tally_wrong t + 1;
       tally_answers :=
         tally_answers t ++
         [ {| summary_question := question_text q;
              summary_selected := selected;
              summary_correct := correct_answer q;
              summary_is_correct := correct |} ] |}
  else t.

Definition tally_of (request : Request) (qs : list Question) (t : Tally) : Tally :=
  fold_left (fun t q => tally_step request q t) qs t.

(** The two worlds differ at most in the answer table and the counter
    of keys. *)
Definition same_but_answers (w w' : World) : Prop :=
  pdf_documents w' = pdf_documents w /\ quizzes w' = quizzes w /\
  questions w' = questions w /\ results w' = results w /\
  flash w' = flash w /\ logged w' = logged w /\ stdout w' = stdout w /\
  llm_calls w' = llm_calls w /\ last_result_id w' = last_result_id w /\
  next_pk w <= next_pk w'.

(** The entry of an answered question in the summary list. *)
Definition summary_of (request : Request) (q : Question) : AnswerSummary :=
  {| summary_question := question_text q;
     summary_selected := text_of (selection request q);
     summary_correct := correct_answer q;
     summary_is_correct :=
       str_eqb (text_of (selection request q)) (correct_answer q) |}.

(** A response that is a JSON object with an empty [questions] list and
    a closing bracket inside a later string. *)
Definition bracket_in_note : str := js "{'questions': [], 'note': ']'}".

(** A request for a quiz of [n] questions on the topic Cells. *)
Definition topic_request (n : Z) : Request :=
  {| request_user := 1; request_method := py "POST";
     POST_topic := Some (py "Cells"); POST_subject := None;
     POST_difficulty := Some (py "Easy"); POST_num_questions := n;
     POST_answers := [] |}.

(** A database for examples: learner 1 owns quiz 1, which has [n]
    questions with the keys [2 .. n + 1], all with the correct answer A. *)
Definition example_question (i : nat) : Question :=
  {| question_id := Z.of_nat i + 1; question_quiz := 1;
     question_text := py "?"; option_a := py "a"; option_b := py "b";
     option_c := py "c"; option_d := py "d"; correct_answer := py "A";
     explanation := None; order := Z.of_nat i |}.

Definition example_world (n : nat) : World :=
  {| pdf_documents := [];
     quizzes := [ {| quiz_id := 1; quiz_user := 1; quiz_pdf := 0;
                     quiz_subject := py "Biology"; quiz_difficulty := py "Easy";
                     number_of_questions := Z.of_nat n; is_completed := true |} ];
     questions := map example_question (seq 1 n);
     user_answers := []; results := []; next_pk := Z.of_nat n + 2;
     flash := []; logged := []; stdout := []; llm_calls := [];
     last_result_id := None |}.

(** A submission of learner 1 that selects [choice] for the first [k]
    questions of the example quiz and nothing for the others. *)
Definition example_submission (k : nat) (choice : str) : Request :=
  {| request_user := 1; request_method := py "POST"; POST_topic := None;
     POST_subject := None; POST_difficulty := None; POST_num_questions := 10;
     POST_answers := map (fun i => (Z.of_nat i + 1, choice)) (seq 1 k) |}.

(** The database while a creation view tries to fill the quiz it has
    just created: [Q], [QS], [UA], [RS] and [PD] are the tables as they
    were before the quiz row was added, [qz] is the quiz row, and [rows]
    are the questions saved so far, all of them for this quiz and with
    keys drawn since [pk0]. *)
Record attempt (quiz_key pk0 : Z)
  (PD : list PDFDocument) (Q : list Quiz) (QS : list Question)
  (UA : list UserAnswer) (RS : list Result)
  (qz : Quiz) (rows : list Question) (w : World) : Prop := {
  attempt_documents : pdf_documents w = PD;
  attempt_quizzes : quizzes w = Q ++ [qz];
  attempt_questions : questions w = QS ++ rows;
  attempt_answers : user_answers w = UA;
  attempt_results : results w = RS;
  attempt_key : quiz_id qz = quiz_key;
  attempt_pk : pk0 <= next_pk w;
  attempt_rows :
    Forall (fun r => question_quiz r = quiz_key /\
                     pk0 <= question_id r < next_pk w) rows;
  attempt_ids : NoDup (map question_id rows)
}.

(** The world with one more question row, its key drawn from the counter. *)
Definition add_question (w : World) (row : Question) : World :=
  set_questions (set_next_pk w (next_pk w + 1))
                (questions (set_next_pk w (next_pk w + 1)) ++ [row]).

(** A computation that reads no state and changes none. *)
Definition pure {A} (c : M A) : Prop :=
  forall w, (exists a, c w = (Returned a, w)) \/ (exists e, c w = (Raised e, w)).

(** A computation that either raises and changes nothing, or adds one
    question row of the given quiz and position. *)
Definition adds_one (quiz_key idx : Z) (c : M unit) : Prop :=
  forall w,
    (exists e, c w = (Raised e, w)) \/
    (exists row, c w = (Returned tt, add_question w row) /\
                 question_id row = next_pk w /\
                 question_quiz row = quiz_key /\ order row = idx).

(** The quiz row with its completion flag set. *)
Definition completed (quiz : Quiz) : Quiz :=
  {| quiz_id := quiz_id quiz; quiz_user := quiz_user quiz;
     quiz_pdf := quiz_pdf quiz; quiz_subject := quiz_subject quiz;
     quiz_difficulty := quiz_difficulty quiz;
     number_of_questions := number_of_questions quiz;
     is_completed := true |}.

(** What a creation view may leave behind, from [w] to [w']: either no
    trace in the quiz, question, answer and result tables, or one more
    quiz, completed, together with one question row for each item of
    the decoded model output, numbered from 1 in the order of the
    items. *)
Definition created_or_absent (env : Env) (request : Request) (w w' : World)
  : Prop :=
  (quizzes w' = quizzes w /\ questions w' = questions w /\
   user_answers w' = user_answers w /\ results w' = results w) \/
  (exists quiz rows data items,
     quizzes w' = quizzes w ++ [quiz] /\
     is_completed quiz = true /\
     number_of_questions quiz = POST_num_questions request /\
     questions w' = questions w ++ rows /\
     Forall (fun r => question_quiz r = quiz_id quiz) rows /\
     Forall (fun r => question_quiz r <> quiz_id quiz) (questions w) /\
     map order rows = count_from 1 (length items) /\
     (exists text subject difficulty wa wb,
        generate_quiz_questions env text subject difficulty
          (POST_num_questions request) wa = (Returned data, wb) /\
        py_iter data wb = (Returned items, wb)) /\
     user_answers w' = user_answers w /\ results w' = results w).

(** What both creation views do to a database whose keys were drawn
    from the counter. *)
Definition view_outcome (env : Env) (request : Request) (w : World)
  (run : outcome response * World) : Prop :=
  exists out, fst run = Returned out /\
              created_or_absent env request w (snd run) /\
              keys_below (snd run) /\
              (answers_ok w -> answers_ok (snd run)).

(** The databases the three views can produce from the empty one, with
    any requests, settings and model answers. *)
Inductive reachable : World -> Prop :=
| reach_empty : reachable empty_world
| reach_topic env request w :
    reachable w -> reachable (snd (create_quiz_from_topic env request w))
| reach_pdf env request pdf w :
    reachable w -> reachable (snd (create_quiz env request pdf w))
| reach_submit env request key w :
    reachable w -> reachable (snd (submit_quiz env request key w)).

(** [r] is what is left of [s] after some of its characters. *)
Definition suffix (r s : str) : Prop := exists c, s = c ++ r.

(** The decoded value is a list, has a list among its entries, is or
    has one. *)
Definition is_list (v : pyobj) : bool :=
  match v with PyList _ => true | _ => false end.

Definition holds_list (d : list (str * pyobj)) : bool :=
  existsb (fun kv => is_list (snd kv)) d.

Definition lists_inside (v : pyobj) : bool :=
  match v with
  | PyList _ => true
  | PyDict d => holds_list d
  | _ => false
  end.

(** An opening bracket with a closing bracket somewhere after it. *)
Definition bracketed (s : str) : Prop :=
  exists pre post, s = pre ++ ch "[" :: post /\ In (ch "]") post.

(** The quiz row a creation view inserts in the database [v]. *)
Definition new_quiz (request : Request) (doc : PDFDocument)
  (subject difficulty : str) (v : World) : Quiz :=
  {| quiz_id := next_pk v; quiz_user := request_user request;
     quiz_pdf := pdf_id doc; quiz_subject := subject;
     quiz_difficulty := difficulty;
     number_of_questions := POST_num_questions request;
     is_completed := false |}.

(** What the part of a creation view that starts with the creation of
    the quiz row leaves behind, from [v] to [w']: the quiz row completed
    and rows for it, or nothing. *)
Definition creation_result (quiz : Quiz) (out : response) (v w' : World)
  : Prop :=
  pdf_documents w' = pdf_documents v /\ user_answers w' = user_answers v /\
  results w' = results v /\ next_pk v < next_pk w' /\
  ((out = Redirect (py "dashboard") None /\
    quizzes w' = quizzes v /\ questions w' = questions v) \/
   (out = Redirect (py "take_quiz") (Some (quiz_id quiz)) /\
    exists rows,
      quizzes w' = quizzes v ++ [completed quiz] /\
      questions w' = questions v ++ rows /\
      Forall (fun r => question_quiz r = quiz_id quiz /\
                       next_pk v < question_id r < next_pk w') rows /\
      NoDup (map question_id rows))).

(** No answer of the model holds an opening bracket with a closing
    bracket after it. *)
Definition never_bracketed (env : Env) : Prop :=
  forall model prompt text,
    llm_invoke env model prompt = Reply text ->
    Re.search (ch "[") (ch "]") text = None.


(** [if text:] for the text of a page. *)
Definition has_text (text : str) : bool :=
  match text with
  | [] => false
  | _ :: _ => true
  end.

(** The document row an accepted upload leaves in the database [w]. *)
Definition uploaded_document (request : Request) (upload : UploadedFile)
  (POST_title : option str) (w : World) : PDFDocument :=
  {| pdf_id := next_pk w; pdf_user := request_user request;
     pdf_title := match POST_title with
                  | Some t => t
                  | None => file_name upload
                  end;
     pdf_file := Some (file_stored_as upload);
     pdf_text_content := match page_texts (file_reading upload) with
                         | inl text_content => Some (join_lines text_content)
                         | inr _ => None
                         end |}.

(** The keys of the stored documents were drawn from the counter. *)
Definition documents_below (w : World) : Prop :=
  Forall (fun r => pdf_id r < next_pk w) (pdf_documents w).

(** The five tables of the two worlds are the same. *)
Definition same_rows (w w' : World) : Prop :=
  pdf_documents w' = pdf_documents w /\ quizzes w' = quizzes w /\
  questions w' = questions w /\ user_answers w' = user_answers w /\
  results w' = results w.

(** Every reference from a row to the row of another table resolves,
    an answer and a result belong to the owner of their quiz and a quiz
    to the owner of its document, and every quiz is complete and was
    asked for with one of the three difficulties and 1 to 50 questions;
    the keys of documents and results were drawn from the counter. *)
Record integrity (w : World) : Prop := {
  keys_positive : 0 < next_pk w;
  document_ids_below : Forall (fun r => pdf_id r < next_pk w) (pdf_documents w);
  result_ids_below : Forall (fun r => result_id r < next_pk w) (results w);
  quiz_refers :
    Forall (fun q => exists d, In d (pdf_documents w) /\
                               pdf_id d = quiz_pdf q /\ pdf_user d = quiz_user q)
           (quizzes w);
  question_refers :
    Forall (fun x => exists q, In q (quizzes w) /\ quiz_id q = question_quiz x)
           (questions w);
  answer_refers :
    Forall (fun a =>
              (exists x, In x (questions w) /\ question_id x = answer_question a /\
                         question_quiz x = answer_quiz a) /\
              (exists q, In q (quizzes w) /\ quiz_id q = answer_quiz a /\
                         quiz_user q = answer_user a))
           (user_answers w);
  result_refers :
    Forall (fun r => exists q, In q (quizzes w) /\ quiz_id q = result_quiz r /\
                               quiz_user q = result_user r)
           (results w);
  quizzes_finished :
    Forall (fun q => is_completed q = true /\
                     bad_difficulty (Some (quiz_difficulty q)) = false /\
                     1 <= number_of_questions q <= 50)
           (quizzes w)
}.

(** Where the answer row [r] of a later table comes from: it has the
    learner, the quiz and the question of a row of the table [old], or
    it is an answer of [user] to one of the questions [qs] of [quiz]. *)
Definition answer_source (old : list UserAnswer) (user : Z) (quiz : Quiz)
  (qs : list Question) (r : UserAnswer) : Prop :=
  (exists r0, In r0 old /\ answer_user r = answer_user r0 /\
              answer_quiz r = answer_quiz r0 /\
              answer_question r = answer_question r0) \/
  (answer_user r = user /\ answer_quiz r = quiz_id quiz /\
   exists q, In q qs /\ answer_question r = question_id q).

(** The database is as the views expect it and as they leave it. *)
Definition in_order (w : World) : Prop :=
  answers_ok w /\ keys_below w /\ integrity w.

(** The databases the views can produce from the empty one, with any
    requests, uploads, settings and model answers. *)
Inductive site_reachable : World -> Prop :=
| site_empty : site_reachable empty_world
| site_topic env request w :
    site_reachable w ->
    site_reachable (snd (create_quiz_from_topic env request w))
| site_pdf env request pdf w :
    site_reachable w -> site_reachable (snd (create_quiz env request pdf w))
| site_submit env request key w :
    site_reachable w -> site_reachable (snd (submit_quiz env request key w))
| site_upload request files title w :
    site_reachable w -> site_reachable (snd (upload_pdf request files title w))
| site_result request key w :
    site_reachable w -> site_reachable (snd (quiz_result request key w))
| site_delete_quiz request key w :
    site_reachable w -> site_reachable (snd (delete_quiz request key w))
| site_delete_pdf request pdf w :
    site_reachable w -> site_reachable (snd (delete_pdf request pdf w)).

(** From [w] to [w'] at most [n] prompts were sent to the model, each
    of them one that [allowed] describes. *)
Definition sends_upto (n : nat) (allowed : str * str -> Prop) (w w' : World)
  : Prop :=
  exists calls, llm_calls w' = llm_calls w ++ calls /\
                (length calls <= n)%nat /\ Forall allowed calls.

(** Whatever the state it starts in, the computation sends at most [n]
    prompts, each of them allowed. *)
Definition sends {A} (n : nat) (allowed : str * str -> Prop) (c : M A) : Prop :=
  forall w, sends_upto n allowed w (snd (c w)).

(** A call of the model that gives feedback, with a prompt built by
    [generate_feedback_prompt]. *)
Definition feedback_call (env : Env) (call : str * str) : Prop :=
  fst call = py "gemini-1.5-flash" /\
  exists subject total right wrong answers difficulty,
    snd call = generate_feedback_prompt env subject total right wrong answers
                 difficulty.



(** An environment whose model answers with one well-formed question. *)
Definition one_question_env : Env :=
  simple_env (Some (py "key"))
    (Reply (js "[{'question': 'q', 'options': {'A': 'a', 'B': 'b', 'C': 'c', 'D': 'd'}, 'correct_answer': 'A'}]")).

(** A database that holds one document of learner 1, with text. *)
Definition library_world : World :=
  set_next_pk
    (set_documents empty_world
       [ {| pdf_id := 1; pdf_user := 1; pdf_title := py "Notes";
            pdf_file := Some (py "pdfs/notes.pdf");
            pdf_text_content := Some (py "Cells divide.") |} ]) 2.

(** A request of learner 1 for a quiz of one question from a document. *)
Definition subject_request : Request :=
  {| request_user := 1; request_method := py "POST"; POST_topic := None;
     POST_subject := Some (py "Biology"); POST_difficulty := Some (py "Easy");
     POST_num_questions := 1; POST_answers := [] |}.

(** An upload whose only page has no text. *)
Definition scanned_upload : UploadedFile :=
  {| file_name := py "Scan.PDF"; file_stored_as := py "pdfs/Scan.PDF";
     file_reading := Pages [PageText []] |}.

(** Accounts for examples: a staff member and a learner who waits. *)
Definition example_staff : User :=
  {| user_id := 1; username := py "admin"; full_name := [];
     is_staff := true; is_superuser := false; is_active := true |}.

Definition example_learner : User :=
  {| user_id := 2; username := py "ravi"; full_name := py "Ravi K";
     is_staff := false; is_superuser := false; is_active := false |}.

Definition example_accounts : Accounts :=
  {| users := [example_staff; example_learner];
     profiles := [ {| profile_id := 1; profile_user := 2;
                      profile_name := py "Ravi K";
                      profile_status := py "Waiting" |} ];
     next_profile := 2; notices := [] |}.

(** A request of learner 2, who owns nothing in the example database. *)
Definition visitor_request : Request :=
  {| request_user := 2; request_method := py "GET"; POST_topic := None;
     POST_subject := None; POST_difficulty := None; POST_num_questions := 10;
     POST_answers := [] |}.

(* ================================================================= *)
(** * Facts about the decoder and the pattern search *)

Module JsonFacts.
Import Json.
Local Open Scope nat_scope.
Local Close Scope Z_scope.

Ltac break_in H :=
  match type of H with
  | context [match ?x with _ => _ end] => destruct x eqn:?
  end.

Lemma scanstring_shorter :
  forall n s acc v r,
    length s <= n -> scanstring acc s = Some (v, r) -> length r < length s.
Proof.
  induction n as [|n IH]; intros s acc v r Hn H.
  - destruct s; [discriminate | simpl in Hn; lia].
  - destruct s as [|c s]; [discriminate|].
    cbn [scanstring] in H. cbn [length] in *.
    repeat (first [ discriminate
                  | match type of H with Some _ = Some _ => injection H as <- <-; lia end
                  | match type of H with
                    | scanstring _ ?t = Some _ =>
                        apply IH in H; [cbn [length] in *; lia | cbn [length] in *; lia]
                    end
                  | break_in H ]).
Qed.

Lemma scanstring_rest :
  forall s acc v r, scanstring acc s = Some (v, r) -> length r < length s.
Proof. intros s acc v r H. exact (scanstring_shorter (length s) s acc v r (le_n _) H). Qed.

Lemma skip_ws_length : forall s, length (skip_ws s) <= length s.
Proof.
  induction s as [|c s IH]; simpl; [lia|].
  destruct (is_ws c); simpl; lia.
Qed.

Lemma span_digits_length :
  forall s d r, span_digits s = (d, r) -> length r <= length s.
Proof.
  induction s as [|c s IH]; simpl; intros d r H.
  - injection H as <- <-. simpl. lia.
  - destruct (is_digit c).
    + destruct (span_digits s) as [d' r'] eqn:E. injection H as <- <-.
      specialize (IH _ _ eq_refl). lia.
    + injection H as <- <-. simpl. lia.
Qed.

Lemma starts_with_length :
  forall p s r, starts_with p s = Some r -> length r + length p = length s.
Proof.
  induction p as [|x p IH]; intros s r H; simpl in H.
  - destruct s; injection H as <-; simpl; lia.
  - destruct s as [|y s]; [discriminate|].
    destruct (N.eqb x y); [|discriminate].
    apply IH in H. simpl. lia.
Qed.

Lemma match_number_shorter :
  forall s v r, match_number s = Some (v, r) -> length r < length s.
Proof.
  intros s v r H. unfold match_number in H.
  destruct (match s with [] => (false, s) | c :: r0 => if N.eqb c 45 then (true, r0) else (false, s) end)
    as [neg s1] eqn:E1.
  assert (L1 : length s1 <= length s).
  { destruct s as [|c s']; [injection E1 as <- <-; lia|].
    destruct (N.eqb c 45); injection E1 as <- <-; simpl; lia. }
  destruct (match_int_part s1) as [[ip s2]|] eqn:E2; [|discriminate].
  assert (L2 : length s2 < length s1).
  { unfold match_int_part in E2. destruct s1 as [|c s1']; [discriminate|].
    destruct (N.eqb c 48); [injection E2 as <- <-; simpl; lia|].
    destruct (is_digit c); [|discriminate].
    destruct (span_digits s1') as [d r'] eqn:E. injection E2 as <- <-.
    apply span_digits_length in E. simpl. lia. }
  destruct (match_frac s2) as [fr s3] eqn:E3.
  assert (L3 : length s3 <= length s2).
  { unfold match_frac in E3. destruct s2 as [|c [|d s2']];
      try (injection E3 as <- <-; simpl; lia).
    destruct (N.eqb c 46 && is_digit d)%bool; [|injection E3 as <- <-; simpl; lia].
    destruct (span_digits (d :: s2')) as [ds r'] eqn:E. injection E3 as <- <-.
    apply span_digits_length in E. simpl in *. lia. }
  destruct (match_exp s3) as [ex s4] eqn:E4.
  assert (L4 : length s4 <= length s3).
  { unfold match_exp in E4. destruct s3 as [|e s3']; [injection E4 as <- <-; lia|].
    destruct (N.eqb e 101 || N.eqb e 69)%bool; [|injection E4 as <- <-; simpl; lia].
    destruct (match s3' with [] => ([], s3') | c :: r' => if (N.eqb c 43 || N.eqb c 45)%bool then ([c], r') else ([], s3') end)
      as [sign r1] eqn:Es.
    assert (length r1 <= length s3').
    { destruct s3' as [|c r']; [injection Es as <- <-; lia|].
      destruct (N.eqb c 43 || N.eqb c 45)%bool; injection Es as <- <-; simpl; lia. }
    destruct (span_digits r1) as [ds r2] eqn:E. apply span_digits_length in E.
    destruct ds; injection E4 as <- <-; simpl; lia. }
  destruct fr, ex; injection H as <- <-; lia.
Qed.


Lemma skip_ws_cons_length :
  forall s c r, skip_ws s = c :: r -> length r < length s.
Proof.
  intros s c r H. pose proof (skip_ws_length s) as L. rewrite H in L.
  simpl in L. lia.
Qed.

Ltac len_facts :=
  repeat match goal with
    | H : scanstring _ _ = Some _ |- _ =>
        apply scanstring_rest in H
    | H : skip_ws _ = _ :: _ |- _ => apply skip_ws_cons_length in H
    | H : starts_with _ _ = Some _ |- _ => apply starts_with_length in H
    | H : match_number _ = Some _ |- _ => apply match_number_shorter in H
    end.

Lemma scan_shorter :
  forall f,
    (forall s v r, scan_once f s = Done v r -> length r < length s) /\
    (forall acc s v r, object_items f acc s = Done v r -> length r < length s) /\
    (forall acc s v r, array_items f acc s = Done v r -> length r < length s).
Proof.
  induction f as [|f (IHs & IHo & IHa)].
  - repeat split; intros; discriminate.
  - repeat split.
    + intros s v r H. cbn [scan_once] in H.
      destruct s as [|c s']; [discriminate|].
      repeat (first [ discriminate
                    | match type of H with
                      | Done _ _ = Done _ _ =>
                          injection H as <- <-; len_facts; cbn [length py map] in *; simpl in *; lia
                      | object_items _ _ _ = Done _ _ =>
                          apply IHo in H; len_facts; cbn [length] in *; lia
                      | array_items _ _ _ = Done _ _ =>
                          apply IHa in H; len_facts; cbn [length] in *; lia
                      end
                    | break_in H ]).
    + intros acc s v r H. cbn [object_items] in H.
      repeat (first [ discriminate
                    | match type of H with
                      | Done _ _ = Done _ _ =>
                          injection H as <- <-;
                          repeat match goal with
                            | E : scan_once _ _ = Done _ _ |- _ => apply IHs in E
                            end;
                          len_facts;
                          repeat match goal with
                            | |- context [skip_ws ?t] => pose proof (skip_ws_length t); generalize dependent (skip_ws t); intros
                            | E : context [skip_ws ?t] |- _ => pose proof (skip_ws_length t); generalize dependent (skip_ws t); intros
                            end;
                          cbn [length] in *; lia
                      | object_items _ _ _ = Done _ _ =>
                          apply IHo in H;
                          repeat match goal with
                            | E : scan_once _ _ = Done _ _ |- _ => apply IHs in E
                            end;
                          len_facts;
                          repeat match goal with
                            | |- context [skip_ws ?t] => pose proof (skip_ws_length t); generalize dependent (skip_ws t); intros
                            | E : context [skip_ws ?t] |- _ => pose proof (skip_ws_length t); generalize dependent (skip_ws t); intros
                            end;
                          cbn [length] in *; lia
                      end
                    | break_in H ]).
    + intros acc s v r H. cbn [array_items] in H.
      repeat (first [ discriminate
                    | match type of H with
                      | Done _ _ = Done _ _ =>
                          injection H as <- <-;
                          repeat match goal with
                            | E : scan_once _ _ = Done _ _ |- _ => apply IHs in E
                            end;
                          len_facts; cbn [length] in *; lia
                      | array_items _ _ _ = Done _ _ =>
                          apply IHa in H;
                          repeat match goal with
                            | E : scan_once _ _ = Done _ _ |- _ => apply IHs in E
                            end;
                          len_facts;
                          repeat match goal with
                            | E : context [skip_ws ?t] |- _ => pose proof (skip_ws_length t); generalize dependent (skip_ws t); intros
                            end;
                          cbn [length] in *; lia
                      end
                    | break_in H ]).
Qed.

Ltac scan_rests IHs :=
  repeat match goal with
    | E : scan_once _ _ = Done _ _ |- _ => apply IHs in E
    end.

Ltac forget_skips :=
  repeat match goal with
    | |- context [skip_ws ?t] =>
        pose proof (skip_ws_length t); generalize dependent (skip_ws t); intros
    | E : context [skip_ws ?t] |- _ =>
        pose proof (skip_ws_length t); generalize dependent (skip_ws t); intros
    end.

(** With a budget of twice the length of the text (and one more), the
    scanner never runs out of it. *)
Lemma scan_budget :
  forall f,
    (forall s, 2 * length s + 1 <= f -> scan_once f s <> Exhausted) /\
    (forall acc s, 2 * length s + 2 <= f -> object_items f acc s <> Exhausted) /\
    (forall acc s, 2 * length s + 2 <= f -> array_items f acc s <> Exhausted).
Proof.
  induction f as [|f (IHs & IHo & IHa)].
  - repeat split; intros; lia.
  - destruct (scan_shorter f) as (Ss & So & Sa).
    repeat split.
    + intros s L H. cbn [scan_once] in H.
      destruct s as [|c s']; [discriminate|].
      repeat (first [ discriminate
                    | match type of H with
                      | object_items _ _ _ = Exhausted =>
                          revert H; apply IHo; len_facts; cbn [length] in *; lia
                      | array_items _ _ _ = Exhausted =>
                          revert H; apply IHa; len_facts; cbn [length] in *; lia
                      end
                    | break_in H ]).
    + intros acc s L H. cbn [object_items] in H.
      repeat (first [ discriminate
                    | match type of H with
                      | object_items _ _ _ = Exhausted =>
                          revert H; apply IHo; scan_rests Ss; len_facts;
                          forget_skips; cbn [length] in *; lia
                      end
                    | match goal with
                      | E : scan_once _ _ = Exhausted |- _ =>
                          revert E; apply IHs; len_facts; forget_skips;
                          cbn [length] in *; lia
                      end
                    | break_in H ]).
    + intros acc s L H. cbn [array_items] in H.
      repeat (first [ discriminate
                    | match type of H with
                      | array_items _ _ _ = Exhausted =>
                          revert H; apply IHa; scan_rests Ss; len_facts;
                          forget_skips; cbn [length] in *; lia
                      end
                    | match goal with
                      | E : scan_once _ _ = Exhausted |- _ =>
                          revert E; apply IHs; len_facts; forget_skips;
                          cbn [length] in *; lia
                      end
                    | break_in H ]).
Qed.

(** [loads] answers for the scanner itself: it never stops for lack of
    budget. *)
Lemma loads_never_exhausted :
  forall s, scan_once (budget s) (skip_ws s) <> Exhausted.
Proof.
  intros s. apply (proj1 (scan_budget (budget s))).
  unfold budget. pose proof (skip_ws_length s). lia.
Qed.

Lemma object_items_dict :
  forall f acc s v r, object_items f acc s = Done v r -> exists d, v = PyDict d.
Proof.
  induction f as [|f IH]; intros acc s v r H; [discriminate|].
  cbn [object_items] in H.
  repeat (first [ discriminate
                | match type of H with
                  | Done _ _ = Done _ _ => injection H as <- <-; eexists; reflexivity
                  | object_items _ _ _ = Done _ _ => exact (IH _ _ _ _ H)
                  end
                | break_in H ]).
Qed.

Lemma array_items_list :
  forall f acc s v r, array_items f acc s = Done v r -> exists l, v = PyList l.
Proof.
  induction f as [|f IH]; intros acc s v r H; [discriminate|].
  cbn [array_items] in H.
  repeat (first [ discriminate
                | match type of H with
                  | Done _ _ = Done _ _ => injection H as <- <-; eexists; reflexivity
                  | array_items _ _ _ = Done _ _ => exact (IH _ _ _ _ H)
                  end
                | break_in H ]).
Qed.

(** A text that opens with a brace decodes to a dict or not at all. *)
Lemma loads_brace :
  forall m v, loads (ch "{" :: m) = Some v -> exists d, v = PyDict d.
Proof.
  intros m v H. unfold loads in H.
  change (skip_ws (ch "{" :: m)) with (ch "{" :: m) in H.
  destruct (budget (ch "{" :: m)) as [|f]; [discriminate|].
  cbn [scan_once] in H. change (ch "{" =? 34)%N with false in H.
  change (ch "{" =? 123)%N with true in H. cbv iota in H.
  destruct (skip_ws m) as [|c' r'] eqn:E; [discriminate|].
  destruct (c' =? 125)%N.
  - destruct (skip_ws r'); [|discriminate]. injection H as <-. eexists; reflexivity.
  - destruct (object_items f [] (c' :: r')) as [v' r''| |] eqn:E'; try discriminate.
    destruct (skip_ws r''); [|discriminate]. injection H as <-.
    exact (object_items_dict _ _ _ _ _ E').
Qed.

(** A text that opens with a bracket decodes to a list or not at all. *)
Lemma loads_bracket :
  forall m v, loads (ch "[" :: m) = Some v -> exists l, v = PyList l.
Proof.
  intros m v H. unfold loads in H.
  change (skip_ws (ch "[" :: m)) with (ch "[" :: m) in H.
  destruct (budget (ch "[" :: m)) as [|f]; [discriminate|].
  cbn [scan_once] in H. change (ch "[" =? 34)%N with false in H.
  change (ch "[" =? 123)%N with false in H.
  change (ch "[" =? 91)%N with true in H. cbv iota in H.
  destruct (skip_ws m) as [|c' r'] eqn:E; [discriminate|].
  destruct (c' =? 93)%N.
  - destruct (skip_ws r'); [|discriminate]. injection H as <-. eexists; reflexivity.
  - destruct (array_items f [] (c' :: r')) as [v' r''| |] eqn:E'; try discriminate.
    destruct (skip_ws r''); [|discriminate]. injection H as <-.
    exact (array_items_list _ _ _ _ _ E').
Qed.

End JsonFacts.

Module ReFacts.
Import Re.
Local Open Scope N_scope.

Lemma upto_last_some :
  forall close s m,
    upto_last close s = Some m ->
    exists mid post, m = mid ++ [close] /\ s = m ++ post /\ ~ In close post.
Proof.
  induction s as [|x r IH]; intros m H; simpl in H; [discriminate|].
  destruct (upto_last close r) as [m'|] eqn:E.
  - injection H as <-. destruct (IH _ eq_refl) as (mid & post & -> & -> & Hn).
    exists (x :: mid), post. repeat split; auto.
  - destruct (x =? close) eqn:Ex; [|discriminate]. injection H as <-.
    apply N.eqb_eq in Ex. subst x. exists [], r. repeat split; auto.
    clear IH. induction r as [|y r IH]; simpl; [tauto|].
    simpl in E. destruct (upto_last close r); [discriminate|].
    destruct (y =? close) eqn:Ey; [discriminate|].
    apply N.eqb_neq in Ey. intros [->|Hin]; [congruence|]. exact (IH eq_refl Hin).
Qed.

Lemma upto_last_none :
  forall close s, upto_last close s = None -> ~ In close s.
Proof.
  induction s as [|y r IH]; simpl; [tauto|]. intros E.
  destruct (upto_last close r); [discriminate|].
  destruct (y =? close) eqn:Ey; [discriminate|].
  apply N.eqb_neq in Ey. intros [->|Hin]; [congruence|]. exact (IH eq_refl Hin).
Qed.

(** A match runs from the first [open] of the text to the last [close]
    that follows it. *)
Lemma search_some :
  forall open close s m,
    search open close s = Some m ->
    exists pre mid post,
      s = pre ++ m ++ post /\ m = open :: mid ++ [close] /\
      ~ In open pre /\ ~ In close post.
Proof.
  induction s as [|x r IH]; intros m H; simpl in H; [discriminate|].
  destruct (x =? open) eqn:Ex.
  - apply N.eqb_eq in Ex. subst x.
    destruct (upto_last close r) as [m'|] eqn:E.
    + injection H as <-.
      destruct (upto_last_some _ _ _ E) as (mid & post & -> & -> & Hn).
      exists [], mid, post. repeat split; auto.
    + apply IH in H. destruct H as (pre & mid & post & -> & -> & Hp & Hq).
      exfalso. apply (upto_last_none _ _ E).
      apply in_or_app. right. simpl. right. apply in_or_app. left.
      apply in_or_app. right. simpl. auto.
  - apply N.eqb_neq in Ex. apply IH in H.
    destruct H as (pre & mid & post & -> & -> & Hp & Hq).
    exists (x :: pre), mid, post. repeat split; auto.
    intros [->|Hin]; [congruence|auto].
Qed.

(** There is no match exactly when no [close] follows the first [open]. *)
Lemma search_none :
  forall open close s,
    search open close s = None ->
    forall pre post, s = pre ++ open :: post -> ~ In close post.
Proof.
  induction s as [|x r IH]; intros H pre post Hs.
  - destruct pre; discriminate.
  - simpl in H. destruct (x =? open) eqn:Ex.
    + destruct (upto_last close r) eqn:E; [discriminate|].
      pose proof (upto_last_none _ _ E) as Hn.
      destruct pre as [|y pre]; simpl in Hs; injection Hs as -> ->.
      * exact Hn.
      * intros Hin. apply Hn. apply in_or_app. right. simpl. auto.
    + destruct pre as [|y pre]; simpl in Hs; injection Hs as -> ->.
      * rewrite N.eqb_refl in Ex. discriminate.
      * exact (IH H _ _ eq_refl).
Qed.

End ReFacts.

(* ================================================================= *)
(** * Running monadic code *)

Lemma bind_returned {A B} (c : M A) (k : A -> M B) w a w' :
  c w = (Returned a, w') -> bind c k w = k a w'.
Proof. intros H. unfold bind. rewrite H. reflexivity. Qed.

Lemma bind_raised {A B} (c : M A) (k : A -> M B) w e w' :
  c w = (Raised e, w') -> bind c k w = (Raised e, w').
Proof. intros H. unfold bind. rewrite H. reflexivity. Qed.

Lemma same_tables_refl w : same_tables w w.
Proof. repeat split. Qed.

Lemma same_tables_trans w1 w2 w3 :
  same_tables w1 w2 -> same_tables w2 w3 -> same_tables w1 w3.
Proof.
  intros (a1 & a2 & a3 & a4 & a5 & a6) (b1 & b2 & b3 & b4 & b5 & b6).
  repeat split; congruence.
Qed.

(** Two lines printed one after the other. *)
Lemma print_twice (l1 l2 : str) w :
  (print l1 ;;; print l2)%monad w
  = (Returned tt, set_stdout w (stdout w ++ [l1; l2])).
Proof.
  unfold bind, print, modify, set_stdout. cbn.
  rewrite <- app_assoc. reflexivity.
Qed.

(* ================================================================= *)
(** * The response parsers *)

Section ParserFacts.

Variable env : Env.

(** What the [except] clause of [parse_quiz_response] leaves behind:
    the fixed [ValueError], and the decode error and the raw response on
    standard output. *)
Lemma quiz_decode_error_run (text response : str) (w : World) :
  quiz_decode_error env text response w
  = (Raised (Exn ValueError parse_failed),
     set_stdout w (stdout w ++ [py "JSON parsing error: " ++ decode_error_str env text;
                                py "Response: " ++ response])).
Proof.
  unfold quiz_decode_error, bind, print, modify, raise, set_stdout. cbn.
  rewrite <- app_assoc. reflexivity.
Qed.

(** The parser of questions raises nothing but [ValueError] and
    [AttributeError], and touches nothing but standard output. *)
Lemma parse_quiz_response_effects (response : str) (w : World) :
  same_tables w (snd (parse_quiz_response env response w)) /\
  llm_calls (snd (parse_quiz_response env response w)) = llm_calls w /\
  forall e, fst (parse_quiz_response env response w) = Raised e ->
            kind e = ValueError \/ kind e = AttributeError.
Proof.
  unfold parse_quiz_response.
  destruct (Re.search (ch "[") (ch "]") response) as [m|].
  - destruct (loads m) as [v|].
    + cbn. repeat split. discriminate.
    + rewrite quiz_decode_error_run. cbn. repeat split.
      intros e [= <-]. left; reflexivity.
  - destruct (loads response) as [v|].
    + destruct v; cbn; repeat split; try discriminate;
        intros e [= <-]; right; reflexivity.
    + rewrite quiz_decode_error_run. cbn. repeat split.
      intros e [= <-]. left; reflexivity.
Qed.

End ParserFacts.

(** C4 (as amended): [parse_quiz_response] takes the text from the first
    opening bracket to the last closing bracket and decodes it, which
    gives a list or fails; only when the response holds no such text
    does it decode the whole response and read the [questions] field of
    the object it gets, or take the object itself when it has no such
    field.  A decode error on either path ends in the fixed [ValueError],
    after the decode error and the raw response have been printed;
    nothing is returned then, and the exception does not hold the text. *)
Theorem parse_quiz_response_paths (env : Env) (response : str) (w : World) :
  let failed text :=
    (@Raised pyobj (Exn ValueError parse_failed),
     set_stdout w (stdout w ++ [py "JSON parsing error: " ++ decode_error_str env text;
                                py "Response: " ++ response])) in
  (forall m, Re.search (ch "[") (ch "]") response = Some m ->
     (exists pre mid post,
        response = pre ++ m ++ post /\ m = ch "[" :: mid ++ [ch "]"] /\
        ~ In (ch "[") pre /\ ~ In (ch "]") post) /\
     (forall v, loads m = Some v ->
        (exists items, v = PyList items) /\
        parse_quiz_response env response w = (Returned v, w)) /\
     (loads m = None -> parse_quiz_response env response w = failed m)) /\
  (Re.search (ch "[") (ch "]") response = None ->
     (forall pre post, response = pre ++ ch "[" :: post -> ~ In (ch "]") post) /\
     (forall d, loads response = Some (PyDict d) ->
        parse_quiz_response env response w
        = (Returned (match dict_get (py "questions") d with
                     | Some q => q
                     | None => PyDict d
                     end), w)) /\
     (loads response = None ->
        parse_quiz_response env response w = failed response)).
Proof.
  intros failed. split.
  - intros m Hm. split; [exact (ReFacts.search_some _ _ _ _ Hm)|].
    unfold parse_quiz_response. rewrite Hm. split.
    + intros v Hv. rewrite Hv. split; [|reflexivity].
      destruct (ReFacts.search_some _ _ _ _ Hm) as (pre & mid & post & _ & -> & _).
      exact (JsonFacts.loads_bracket _ _ Hv).
    + intros Hv. rewrite Hv. apply quiz_decode_error_run.
  - intros Hm. split; [exact (ReFacts.search_none _ _ _ Hm)|].
    unfold parse_quiz_response. rewrite Hm. split.
    + intros d Hd. rewrite Hd. reflexivity.
    + intros Hv. rewrite Hv. apply quiz_decode_error_run.
Qed.

(** Both paths of C4 at work: a bracketed text that decodes, a bracketed
    text that does not, a response without brackets that is an object,
    and one that is no JSON at all. *)
Lemma parse_quiz_response_paths_witness :
  parse_quiz_response (simple_env None (Reply [])) (js "Here: [1, 2] done") empty_world
    = (Returned (PyList [PyInt 1; PyInt 2]), empty_world) /\
  fst (parse_quiz_response (simple_env None (Reply [])) bracket_in_note empty_world)
    = Raised (Exn ValueError parse_failed) /\
  parse_quiz_response (simple_env None (Reply [])) (js "{'questions': 5}") empty_world
    = (Returned (PyInt 5), empty_world) /\
  fst (parse_quiz_response (simple_env None (Reply [])) (js "no json") empty_world)
    = Raised (Exn ValueError parse_failed).
Proof.
  pose proof (parse_quiz_response_paths (simple_env None (Reply []))
                (js "Here: [1, 2] done") empty_world) as (H1 & _).
  pose proof (parse_quiz_response_paths (simple_env None (Reply []))
                bracket_in_note empty_world) as (H2 & _).
  pose proof (parse_quiz_response_paths (simple_env None (Reply []))
                (js "{'questions': 5}") empty_world) as (_ & H3).
  pose proof (parse_quiz_response_paths (simple_env None (Reply []))
                (js "no json") empty_world) as (_ & H4).
  split; [|split; [|split]].
  - destruct (H1 (js "[1, 2]") eq_refl) as (_ & Hv & _).
    exact (proj2 (Hv (PyList [PyInt 1; PyInt 2]) eq_refl)).
  - destruct (H2 (js "[], 'note': ']") eq_refl) as (_ & _ & Hf).
    rewrite (Hf eq_refl). reflexivity.
  - destruct (H3 eq_refl) as (_ & Hd & _).
    exact (Hd [(py "questions", PyInt 5)] eq_refl).
  - destruct (H4 eq_refl) as (_ & _ & Hf).
    rewrite (Hf eq_refl). reflexivity.
Defined.

(** C4 (counterexample): the whole response is a JSON object whose
    [questions] field is the empty list, but the text between its first
    opening and last closing bracket does not decode.  The parser fails
    with [ValueError] instead of decoding the whole response, and the
    exception holds the fixed message, not the response. *)
Lemma parse_quiz_response_no_second_attempt :
  loads bracket_in_note
    = Some (PyDict [(py "questions", PyList []); (py "note", PyStr (py "]"))]) /\
  Re.search (ch "[") (ch "]") bracket_in_note = Some (js "[], 'note': ']") /\
  loads (js "[], 'note': ']") = None /\
  fst (parse_quiz_response (simple_env None (Reply [])) bracket_in_note empty_world)
    = Raised (Exn ValueError (py "Failed to parse quiz response from AI")) /\
  fst (parse_quiz_response (simple_env None (Reply [])) bracket_in_note empty_world)
    <> Returned (PyList []).
Proof.
  split; [|split; [|split; [|split]]]; try (vm_compute; reflexivity).
  vm_compute. discriminate.
Qed.

Lemma str_eqb_eq (a b : str) : str_eqb a b = true <-> a = b.
Proof.
  revert b. induction a as [|x a IH]; intros [|y b]; simpl; split;
    try discriminate; try reflexivity.
  - intros H. apply andb_true_iff in H. destruct H as (H1 & H2).
    apply N.eqb_eq in H1. apply IH in H2. congruence.
  - intros [= -> ->]. rewrite N.eqb_refl. simpl. apply IH. reflexivity.
Qed.

Lemma str_eqb_refl (a : str) : str_eqb a a = true.
Proof. apply str_eqb_eq. reflexivity. Qed.

Section FeedbackParserFacts.

Variable env : Env.

(** Every path of [parse_feedback_response] returns a dict of the three
    keys, and touches nothing but standard output. *)
Lemma parse_feedback_response_returns (response : str) (w : World) :
  exists strength weakness suggest w',
    parse_feedback_response env response w
    = (Returned (feedback_dict strength weakness suggest), w') /\
    same_tables w w' /\ llm_calls w' = llm_calls w /\ logged w' = logged w /\
    flash w' = flash w /\ last_result_id w' = last_result_id w.
Proof.
  unfold parse_feedback_response.
  destruct (Re.search (ch "{") (ch "}") response) as [m|] eqn:Hm.
  - destruct (loads m) as [v|] eqn:Hv.
    + destruct (ReFacts.search_some _ _ _ _ Hm) as (pre & mid & post & _ & -> & _).
      destruct (JsonFacts.loads_brace _ _ Hv) as (d & ->).
      cbn. do 4 eexists. split; [reflexivity|]. repeat split.
    + do 4 eexists. split.
      * unfold bind, print, modify, ret. cbn. reflexivity.
      * cbn. repeat split.
  - do 4 eexists. split; [reflexivity|]. repeat split.
Qed.

End FeedbackParserFacts.




(* ================================================================= *)
(** * The credential guard *)

Section GuardFacts.

Variable env : Env.

Lemma invoke_effects (c : Client) (prompt : str) (w : World) :
  same_tables w (snd (invoke env c prompt w)) /\
  forall e, fst (invoke env c prompt w) = Raised e -> kind e = ModelCallError.
Proof.
  unfold invoke, bind, modify. cbn.
  destruct (llm_invoke env (model c) prompt); cbn; repeat split.
  - discriminate.
  - intros e [= <-]. reflexivity.
Qed.

Lemma truthy_py_or (a b : option str) :
  truthy (py_or a b) = truthy a || truthy b.
Proof. unfold py_or. destruct (truthy a) eqn:E; [rewrite E|]; reflexivity. Qed.

Lemma key_rejected_iff :
  key_rejected (api_key env) = true <->
  (truthy (settings_GOOGLE_API_KEY env) = false /\
   truthy (settings_GEMINI_API_KEY env) = false /\
   truthy (environ_GOOGLE_API_KEY env) = false) \/
  api_key env = Some placeholder_key.
Proof.
  unfold key_rejected. rewrite orb_true_iff, negb_true_iff. unfold api_key.
  rewrite !truthy_py_or, !orb_false_iff. split.
  - intros [((H1 & H2) & H3)|H]; [left; auto|right].
    destruct (py_or _ _) as [s|]; [|discriminate].
    apply str_eqb_eq in H. congruence.
  - intros [(H1 & H2 & H3)|H]; [left; auto|right].
    rewrite H. apply str_eqb_refl.
Qed.

End GuardFacts.

(** C6: both entry points read the first non-empty credential of the two
    settings and the environment variable.  When there is none, or when
    it is the placeholder, the call raises [APIKeyError] and leaves the
    world as it was: no prompt was sent.  Otherwise whatever the call
    raises, it is not [APIKeyError]. *)
Theorem credential_guard (env : Env) :
  (key_rejected (api_key env) = true <->
     (truthy (settings_GOOGLE_API_KEY env) = false /\
      truthy (settings_GEMINI_API_KEY env) = false /\
      truthy (environ_GOOGLE_API_KEY env) = false) \/
     api_key env = Some placeholder_key) /\
  (key_rejected (api_key env) = true ->
     forall pdf_text subject difficulty n total right wrong summaries w,
       generate_quiz_questions env pdf_text subject difficulty n w
         = (Raised (Exn APIKeyError not_configured), w) /\
       generate_performance_feedback env subject total right wrong summaries
           difficulty w
         = (Raised (Exn APIKeyError not_configured), w)) /\
  (key_rejected (api_key env) = false ->
     forall pdf_text subject difficulty n total right wrong summaries w e,
       (fst (generate_quiz_questions env pdf_text subject difficulty n w)
          = Raised e -> kind e <> APIKeyError) /\
       (fst (generate_performance_feedback env subject total right wrong
               summaries difficulty w)
          = Raised e -> kind e <> APIKeyError)).
Proof.
  split; [apply key_rejected_iff|]. split.
  - intros H pdf_text subject difficulty n total right wrong summaries w.
    unfold generate_quiz_questions, generate_performance_feedback,
      QuizGenerator_init, PerformanceAnalyzer_init.
    rewrite H. split; reflexivity.
  - intros H pdf_text subject difficulty n total right wrong summaries w e.
    unfold generate_quiz_questions, generate_performance_feedback,
      QuizGenerator_init, PerformanceAnalyzer_init,
      generate_questions, generate_feedback.
    rewrite H. split.
    + unfold bind at 1. cbn [ret].
      unfold bind.
      match goal with |- context [invoke env ?c ?p w] =>
        pose proof (invoke_effects env c p w) as (_ & Hi);
        destruct (invoke env c p w) as [[text|e'] w1]
      end.
      * pose proof (parse_quiz_response_effects env text w1) as (_ & _ & Hp).
        intros He. destruct (Hp e He) as [K|K]; rewrite K; discriminate.
      * cbn. intros [= <-]. rewrite (Hi e' eq_refl). discriminate.
    + unfold bind at 1. cbn [ret].
      unfold bind.
      match goal with |- context [invoke env ?c ?p w] =>
        pose proof (invoke_effects env c p w) as (_ & Hi);
        destruct (invoke env c p w) as [[text|e'] w1]
      end.
      * destruct (parse_feedback_response_returns env text w1)
          as (a & b & c & w' & Hp & _).
        rewrite Hp. discriminate.
      * cbn. intros [= <-]. rewrite (Hi e' eq_refl). discriminate.
Qed.

(** The guard at work: no credential anywhere, the placeholder in the
    first setting with a real key in the second, and a real key. *)
Lemma credential_guard_witness :
  fst (generate_quiz_questions (simple_env None (Reply (js "[]")))
         [] [] [] 1 empty_world)
    = Raised (Exn APIKeyError not_configured) /\
  generate_quiz_questions
      {| settings_GOOGLE_API_KEY := Some placeholder_key;
         settings_GEMINI_API_KEY := Some (py "a-real-key");
         environ_GOOGLE_API_KEY := None;
         llm_invoke := fun _ _ => Reply (js "[]");
         builtin_str := fun _ => []; float_str := fun _ => [];
         decode_error_str := fun _ => [] |} [] [] [] 1 empty_world
    = (Raised (Exn APIKeyError not_configured), empty_world) /\
  kind (Exn ModelCallError (py "timeout")) <> APIKeyError.
Proof.
  split; [|split].
  - pose proof (credential_guard (simple_env None (Reply (js "[]")))) as (_ & H & _).
    rewrite (proj1 (H eq_refl [] [] [] 1 0 0 0 [] empty_world)). reflexivity.
  - pose proof (credential_guard
                  {| settings_GOOGLE_API_KEY := Some placeholder_key;
                     settings_GEMINI_API_KEY := Some (py "a-real-key");
                     environ_GOOGLE_API_KEY := None;
                     llm_invoke := fun _ _ => Reply (js "[]");
                     builtin_str := fun _ => []; float_str := fun _ => [];
                     decode_error_str := fun _ => [] |}) as (_ & H & _).
    exact (proj1 (H eq_refl [] [] [] 1 0 0 0 [] empty_world)).
  - pose proof (credential_guard (simple_env (Some (py "a-real-key"))
                                    (Failure (py "timeout")))) as (_ & _ & H).
    exact (proj1 (H eq_refl [] [] [] 1 0 0 0 [] empty_world
                    (Exn ModelCallError (py "timeout"))) eq_refl).
Defined.

(* ================================================================= *)
(** * Lists and the answer table *)

Lemma filter_map_comm {A B} (f : B -> bool) (g : A -> B) (l : list A) :
  filter f (map g l) = map g (filter (fun x => f (g x)) l).
Proof.
  induction l as [|x l IH]; simpl; [reflexivity|].
  destruct (f (g x)); simpl; rewrite IH; reflexivity.
Qed.

Lemma filter_nil_existsb {A} (f : A -> bool) (l : list A) :
  filter f l = [] -> existsb f l = false.
Proof.
  induction l as [|x l IH]; simpl; [reflexivity|].
  destruct (f x); [discriminate|]. exact IH.
Qed.

Lemma map_id_on {A} (g : A -> A) (l : list A) :
  (forall x, In x l -> g x = x) -> map g l = l.
Proof.
  induction l as [|x l IH]; simpl; intros H; [reflexivity|].
  rewrite (H x (or_introl eq_refl)), IH; auto.
Qed.

Lemma NoDup_map_inj {A B} (f : A -> B) (l : list A) (x y : A) :
  NoDup (map f l) -> In x l -> In y l -> f x = f y -> x = y.
Proof.
  induction l as [|a l IH]; simpl; intros N Hx Hy E; [tauto|].
  inversion N as [|? ? Hn N']; subst.
  destruct Hx as [->|Hx], Hy as [->|Hy]; auto.
  - exfalso. apply Hn. rewrite E. apply in_map. exact Hy.
  - exfalso. apply Hn. rewrite <- E. apply in_map. exact Hx.
Qed.

Lemma rows_for_app u q l1 l2 :
  rows_for u q (l1 ++ l2) = rows_for u q l1 ++ rows_for u q l2.
Proof. apply filter_app. Qed.

Lemma key_match_other u q u' q' r :
  key_match u q r = true -> (u' =? u) && (q' =? q) = false ->
  key_match u' q' r = false.
Proof.
  unfold key_match. intros H H'.
  apply andb_true_iff in H. destruct H as (H1 & H2).
  apply Z.eqb_eq in H1, H2. rewrite H1, H2.
  rewrite (Z.eqb_sym u u'), (Z.eqb_sym q q'). exact H'.
Qed.

Ltac world_simpl :=
  cbn [pdf_documents quizzes questions user_answers results next_pk flash
       logged stdout llm_calls last_result_id set_documents set_quizzes
       set_questions set_user_answers set_results set_next_pk set_flash
       set_logged set_stdout set_llm_calls set_last_result_id fst snd] in *.

Section AnswerTable.

Variable user : Z.
Variable quiz : Quiz.
Variable question : Question.
Variables (selected : str) (correct : bool).

Let qid := question_id question.

Let rewritten := rewrite_answer user qid selected correct.

Lemma rewritten_key u q r : key_match u q (rewritten r) = key_match u q r.
Proof.
  unfold rewritten, rewrite_answer.
  destruct (key_match user qid r); reflexivity.
Qed.

Lemma rows_for_rewritten u q rows :
  rows_for u q (map rewritten rows) = map rewritten (rows_for u q rows).
Proof.
  unfold rows_for. rewrite filter_map_comm.
  f_equal. apply filter_ext. intros r. apply rewritten_key.
Qed.

Lemma update_or_create_spec (w : World) :
  answers_ok w -> In question (questions w) ->
  question_quiz question = quiz_id quiz ->
  exists w',
    UserAnswer_update_or_create user quiz question selected correct w
      = (Returned tt, w') /\
    same_but_answers w w' /\ answers_ok w' /\
    (exists r, rows_for user qid (user_answers w') = [r] /\
               selected_answer r = selected /\ is_correct r = correct /\
               forall r0, rows_for user qid (user_answers w) = [r0] ->
                          answer_id r = answer_id r0) /\
    (forall u q, (u =? user) && (q =? qid) = false ->
                 rows_for u q (user_answers w') = rows_for u q (user_answers w)) /\
    Forall (answer_origin (user_answers w) quiz [question]) (user_answers w').
Proof.
  intros [Hk Hone Hq] Hin Hquiz.
  assert (Hold : forall l, incl l (user_answers w) ->
            Forall (answer_origin (user_answers w) quiz [question]) l).
  { intros l Hl. apply Forall_forall. intros r Hr. left. exists r.
    split; [apply Hl; exact Hr|]. split; reflexivity. }
  unfold UserAnswer_update_or_create, bind, get_world.
  assert (Hhit : forall r, In r (user_answers w) ->
            ((answer_user r =? user) && (answer_quiz r =? quiz_id quiz)
             && (answer_question r =? question_id question))
            = key_match user qid r).
  { intros r Hr. unfold key_match, qid.
    destruct (answer_user r =? user); [|reflexivity]. simpl.
    destruct (answer_question r =? question_id question) eqn:E;
      [|apply andb_false_r].
    apply Z.eqb_eq in E. rewrite (Hq r question Hr Hin E), Hquiz.
    rewrite Z.eqb_refl. reflexivity. }
  rewrite (filter_ext_in _ _ _ Hhit).
  fold (rows_for user qid (user_answers w)).
  pose proof (Hone user qid) as Hlen.
  destruct (rows_for user qid (user_answers w)) as [|r0 [|r1 rest]] eqn:Erows;
    [| |simpl in Hlen; lia].
  - (* no row yet *)
    fold (key_match user (question_id question)).
    fold qid. rewrite (filter_nil_existsb _ _ Erows).
    eexists. split; [reflexivity|]. unfold same_but_answers. world_simpl.
    split; [repeat split; lia|]. split; [|split; [|split]].
    4:{ apply Forall_app. split; [apply Hold, incl_refl|].
        constructor; [|constructor]. right. cbn. split; [reflexivity|].
        exists question. split; [left; reflexivity|reflexivity]. }
    + split; world_simpl; [exact Hk| |].
      * intros u q. rewrite rows_for_app. rewrite length_app.
        unfold rows_for at 2. cbn [filter].
        destruct (key_match u q _) eqn:Ek; cbn; [|specialize (Hone u q); lia].
        unfold key_match in Ek. cbn in Ek. apply andb_true_iff in Ek.
        destruct Ek as (E1 & E2). apply Z.eqb_eq in E1, E2. subst u q.
        fold qid. rewrite Erows. simpl. lia.
      * intros r q Hr Hq' E. apply in_app_or in Hr. destruct Hr as [Hr|[<-|[]]].
        -- exact (Hq r q Hr Hq' E).
        -- cbn in *. rewrite <- Hquiz. f_equal.
           exact (NoDup_map_inj question_id _ _ _ Hk Hin Hq' E).
    + eexists. rewrite rows_for_app, Erows. unfold rows_for. cbn [filter].
      unfold key_match at 1. cbn. fold qid. rewrite !Z.eqb_refl. cbn.
      repeat split. intros r0 [=].
    + intros u q Hne. rewrite rows_for_app. unfold rows_for at 2. cbn [filter].
      unfold key_match at 1. cbn. fold qid.
      rewrite (Z.eqb_sym user u), (Z.eqb_sym qid q), Hne. apply app_nil_r.
  - (* one row: rewritten in place *)
    unfold modify.
    assert (Hmap : map (fun r => if (answer_user r =? user)
                                       && (answer_quiz r =? quiz_id quiz)
                                       && (answer_question r =? question_id question)
                                 then {| answer_id := answer_id r;
                                         answer_user := answer_user r;
                                         answer_quiz := answer_quiz r;
                                         answer_question := answer_question r;
                                         selected_answer := selected;
                                         is_correct := correct |}
                                 else r) (user_answers w)
                   = map rewritten (user_answers w)).
    { apply map_ext_in. intros r Hr. unfold rewritten, rewrite_answer.
      rewrite (Hhit r Hr).
      reflexivity. }
    rewrite Hmap.
    eexists. split; [reflexivity|]. unfold same_but_answers. world_simpl.
    split; [repeat split; lia|]. split; [|split; [|split]].
    4:{ apply Forall_forall. intros r Hr. apply in_map_iff in Hr.
        destruct Hr as (r' & <- & Hr'). left. exists r'.
        split; [exact Hr'|]. unfold rewritten, rewrite_answer.
        destruct (key_match user qid r'); split; reflexivity. }
    + split; world_simpl; [exact Hk| |].
      * intros u q. rewrite rows_for_rewritten, length_map. apply Hone.
      * intros r q Hr Hq' E. apply in_map_iff in Hr.
        destruct Hr as (r' & <- & Hr').
        unfold rewritten, rewrite_answer in *. destruct (key_match user qid r');
          cbn in *; exact (Hq r' q Hr' Hq' E).
    + rewrite rows_for_rewritten, Erows. cbn [map].
      assert (Hr0 : key_match user qid r0 = true).
      { assert (In r0 (rows_for user qid (user_answers w)))
          by (rewrite Erows; left; reflexivity).
        unfold rows_for in H. apply filter_In in H. tauto. }
      unfold rewritten, rewrite_answer. rewrite Hr0. eexists. split; [reflexivity|].
      cbn. repeat split. intros r [= <-]. reflexivity.
    + intros u q Hne. rewrite rows_for_rewritten. apply map_id_on.
      intros r Hr. unfold rows_for in Hr. apply filter_In in Hr.
      destruct Hr as (_ & Hr). unfold rewritten, rewrite_answer.
      destruct (key_match user qid r) eqn:E; [|reflexivity].
      rewrite (key_match_other _ _ _ _ _ E Hne) in Hr. discriminate.
Qed.

End AnswerTable.

Section GradingFacts.

Variable env : Env.
Variable request : Request.
Variable quiz : Quiz.

Let user := request_user request.

Lemma same_but_answers_refl w : same_but_answers w w.
Proof. unfold same_but_answers. repeat split. lia. Qed.

Lemma same_but_answers_trans w1 w2 w3 :
  same_but_answers w1 w2 -> same_but_answers w2 w3 -> same_but_answers w1 w3.
Proof.
  unfold same_but_answers.
  intros (a1 & a2 & a3 & a4 & a5 & a6 & a7 & a8 & a9 & a10)
         (b1 & b2 & b3 & b4 & b5 & b6 & b7 & b8 & b9 & b10).
  repeat split; try congruence. lia.
Qed.

Lemma answer_origin_old (rows : list UserAnswer) (qs : list Question) :
  Forall (answer_origin rows quiz qs) rows.
Proof.
  apply Forall_forall. intros r Hr. left. exists r.
  split; [exact Hr|]. split; reflexivity.
Qed.

Lemma answer_origin_step (old mid : list UserAnswer) (q : Question)
  (qs : list Question) (r : UserAnswer) :
  Forall (answer_origin old quiz [q]) mid ->
  answer_origin mid quiz qs r -> answer_origin old quiz (q :: qs) r.
Proof.
  intros Hmid [(r0 & Hr0 & E1 & E2)|(E1 & q' & Hq' & E2)].
  - rewrite Forall_forall in Hmid.
    destruct (Hmid r0 Hr0) as [(r1 & Hr1 & F1 & F2)|(F1 & q' & [<-|[]] & F2)].
    + left. exists r1. split; [exact Hr1|]. split; congruence.
    + right. split; [congruence|]. exists q. split; [left; reflexivity|congruence].
  - right. split; [exact E1|]. exists q'. split; [right; exact Hq'|exact E2].
Qed.

(** One turn of the loop. *)
Lemma grade_question_spec (q : Question) (t : Tally) (w : World) :
  answers_ok w -> In q (questions w) -> question_quiz q = quiz_id quiz ->
  exists w',
    grade_question request quiz q t w = (Returned (tally_step request q t), w') /\
    same_but_answers w w' /\ answers_ok w' /\
    (answered request q = false -> w' = w) /\
    (answered request q = true ->
       exists r, rows_for user (question_id q) (user_answers w') = [r] /\
                 selected_answer r = text_of (selection request q) /\
                 is_correct r
                 = str_eqb (text_of (selection request q)) (correct_answer q) /\
                 forall r0, rows_for user (question_id q) (user_answers w) = [r0] ->
                            answer_id r = answer_id r0) /\
    (forall u id, (u =? user) && (answered request q && (question_id q =? id)) = false ->
                  rows_for u id (user_answers w') = rows_for u id (user_answers w)) /\
    Forall (answer_origin (user_answers w) quiz [q]) (user_answers w').
Proof.
  intros Hok Hin Hquiz. unfold grade_question, tally_step, answered, selection.
  destruct (truthy (posted_answer (question_id q) (POST_answers request))) eqn:Ea.
  - destruct (update_or_create_spec user quiz q
                (text_of (posted_answer (question_id q) (POST_answers request)))
                (str_eqb (text_of (posted_answer (question_id q) (POST_answers request)))
                         (correct_answer q)) w Hok Hin Hquiz)
      as (w' & Hrun & Hsame & Hok' & Hrow & Hframe & Horigin).
    exists w'. split.
    + unfold bind. fold user. rewrite Hrun. reflexivity.
    + split; [exact Hsame|]. split; [exact Hok'|]. split; [discriminate|].
      split; [intros _; exact Hrow|]. split; [|exact Horigin].
      intros u id Hne. cbn [andb] in Hne.
      destruct (u =? user) eqn:Eu; cbn [andb] in Hne.
      * apply Hframe. rewrite Eu. cbn. rewrite Z.eqb_sym. exact Hne.
      * apply Hframe. rewrite Eu. reflexivity.
  - exists w. split; [reflexivity|]. split; [apply same_but_answers_refl|].
    split; [exact Hok|]. split; [reflexivity|]. split; [discriminate|].
    split; [reflexivity|]. apply answer_origin_old.
Qed.

(** The whole loop. *)
Lemma grade_questions_spec (qs : list Question) :
  forall (t : Tally) (w : World),
  answers_ok w ->
  (forall q, In q qs -> In q (questions w) /\ question_quiz q = quiz_id quiz) ->
  exists w',
    grade_questions request quiz qs t w = (Returned (tally_of request qs t), w') /\
    same_but_answers w w' /\ answers_ok w' /\
    (forall q, In q qs -> answered request q = true ->
       exists r, rows_for user (question_id q) (user_answers w') = [r] /\
                 selected_answer r = text_of (selection request q) /\
                 is_correct r
                 = str_eqb (text_of (selection request q)) (correct_answer q) /\
                 forall r0, rows_for user (question_id q) (user_answers w) = [r0] ->
                            answer_id r = answer_id r0) /\
    (forall u id, (u =? user) && touched request qs id = false ->
                  rows_for u id (user_answers w') = rows_for u id (user_answers w)) /\
    Forall (answer_origin (user_answers w) quiz qs) (user_answers w').
Proof.
  induction qs as [|q qs IH]; intros t w Hok Hqs.
  - exists w. split; [reflexivity|]. split; [apply same_but_answers_refl|].
    split; [exact Hok|]. split; [intros q []|].
    split; [reflexivity|apply answer_origin_old].
  - destruct (Hqs q (or_introl eq_refl)) as (Hin & Hquiz).
    destruct (grade_question_spec q t w Hok Hin Hquiz)
      as (w1 & Hrun1 & Hsame1 & Hok1 & Hskip1 & Hrow1 & Hframe1 & Horigin1).
    assert (Hq1 : questions w1 = questions w) by (destruct Hsame1; tauto).
    destruct (IH (tally_step request q t) w1 Hok1) as
      (w' & Hrun & Hsame & Hok' & Hrows & Hframe & Horigin).
    { intros q' Hq'. rewrite Hq1. apply Hqs. right. exact Hq'. }
    exists w'. split.
    + cbn [grade_questions]. unfold bind. rewrite Hrun1. exact Hrun.
    + split; [exact (same_but_answers_trans _ _ _ Hsame1 Hsame)|].
      split; [exact Hok'|].
      cut ((forall q0, In q0 (q :: qs) -> answered request q0 = true ->
              exists r, rows_for user (question_id q0) (user_answers w') = [r] /\
                selected_answer r = text_of (selection request q0) /\
                is_correct r
                = str_eqb (text_of (selection request q0)) (correct_answer q0) /\
                forall r0, rows_for user (question_id q0) (user_answers w) = [r0] ->
                           answer_id r = answer_id r0) /\
           (forall u id, (u =? user) && touched request (q :: qs) id = false ->
              rows_for u id (user_answers w') = rows_for u id (user_answers w))).
      { intros (C1 & C2). split; [exact C1|]. split; [exact C2|].
        eapply Forall_impl; [|exact Horigin]. intros r.
        apply answer_origin_step. exact Horigin1. }
      split.
      * (* rows of answered questions *)
        assert (Hhere : forall q', In q' (q :: qs) -> answered request q' = true ->
                  touched request qs (question_id q') = true ->
                  exists q'', In q'' qs /\ q'' = q').
        { intros q' Hq' _ Ht. unfold touched in Ht. apply existsb_exists in Ht.
          destruct Ht as (q'' & Hin'' & Hc). apply andb_true_iff in Hc.
          destruct Hc as (_ & Hid). apply Z.eqb_eq in Hid.
          exists q''. split; [exact Hin''|].
          destruct Hok as [Hk _ _].
          apply (NoDup_map_inj question_id _ _ _ Hk);
            [apply Hqs; right; exact Hin''|apply Hqs; exact Hq'|exact Hid]. }
        intros q' Hq' Ha.
        destruct (touched request qs (question_id q')) eqn:Et.
        -- destruct (Hhere q' Hq' Ha Et) as (q'' & Hin'' & ->).
           destruct (Hrows q' Hin'' Ha) as (r & Hr & Hs & Hc & Hid).
           exists r. repeat split; try assumption.
           intros r0 Hr0.
           destruct (answered request q && (question_id q =? question_id q')) eqn:Eh.
           ++ apply andb_true_iff in Eh. destruct Eh as (Haq & Eid).
              apply Z.eqb_eq in Eid.
              destruct (Hrow1 Haq) as (r1 & Hr1 & _ & _ & Hid1).
              rewrite Eid in Hr1, Hid1.
              rewrite (Hid r1 Hr1). apply Hid1. exact Hr0.
           ++ apply Hid. rewrite (Hframe1 user (question_id q')); [exact Hr0|].
              rewrite Eh. apply andb_false_r.
        -- destruct Hq' as [<-|Hq'].
           ++ destruct (Hrow1 Ha) as (r1 & Hr1 & Hs1 & Hc1 & Hid1).
              exists r1. rewrite (Hframe user (question_id q)).
              ** repeat split; assumption.
              ** rewrite Et. apply andb_false_r.
           ++ exfalso. unfold touched in Et.
              assert (existsb (fun q0 => answered request q0
                                         && (question_id q0 =? question_id q')) qs = true).
              { apply existsb_exists. exists q'. split; [exact Hq'|].
                rewrite Ha, Z.eqb_refl. reflexivity. }
              congruence.
      * intros u id Hne. unfold touched in Hne. cbn [existsb] in Hne.
        rewrite (Hframe u id), (Hframe1 u id); [reflexivity| |].
        -- destruct (u =? user); [|reflexivity]. cbn [andb] in *.
           apply orb_false_iff in Hne. tauto.
        -- destruct (u =? user); [|reflexivity]. cbn [andb] in *.
           apply orb_false_iff in Hne. unfold touched. tauto.
Qed.

End GradingFacts.

(* ================================================================= *)
(** * The questions of a quiz, in order *)

Lemma insert_by_order_in q l x :
  In x (insert_by_order q l) <-> x = q \/ In x l.
Proof.
  induction l as [|r l IH]; simpl; [intuition (subst; auto)|].
  destruct (order q <? order r); simpl; [intuition (subst; auto)|].
  rewrite IH. intuition (subst; auto).
Qed.

Lemma insert_by_order_length q l :
  length (insert_by_order q l) = S (length l).
Proof.
  induction l as [|r l IH]; simpl; [reflexivity|].
  destruct (order q <? order r); simpl; [reflexivity|]. rewrite IH. reflexivity.
Qed.

Lemma insert_by_order_sorted q l :
  Sorted (fun a b => order a <= order b) l ->
  Sorted (fun a b => order a <= order b) (insert_by_order q l).
Proof.
  induction l as [|r l IH]; simpl; intros S.
  - repeat constructor.
  - destruct (order q <? order r) eqn:E.
    + apply Z.ltb_lt in E. constructor; [exact S|]. constructor. lia.
    + apply Z.ltb_ge in E. inversion S as [|? ? S' H]; subst.
      constructor; [exact (IH S')|].
      destruct l as [|r' l]; simpl.
      * constructor. exact E.
      * destruct (order q <? order r'); constructor; [exact E|].
        inversion H; assumption.
Qed.

Lemma sort_by_order_facts l :
  Sorted (fun a b => order a <= order b) (sort_by_order l) /\
  (forall x, In x (sort_by_order l) <-> In x l) /\
  length (sort_by_order l) = length l.
Proof.
  unfold sort_by_order.
  assert (G : forall acc,
            Sorted (fun a b => order a <= order b) acc ->
            Sorted (fun a b => order a <= order b)
                   (fold_left (fun acc q => insert_by_order q acc) l acc) /\
            (forall x, In x (fold_left (fun acc q => insert_by_order q acc) l acc)
                       <-> In x l \/ In x acc) /\
            length (fold_left (fun acc q => insert_by_order q acc) l acc)
            = (length l + length acc)%nat).
  { induction l as [|q l IH]; intros acc S; simpl.
    - split; [exact S|]. split; [tauto|reflexivity].
    - destruct (IH _ (insert_by_order_sorted q acc S)) as (H1 & H2 & H3).
      split; [exact H1|]. split.
      + intros x. rewrite H2, insert_by_order_in. intuition (subst; auto).
      + rewrite H3, insert_by_order_length. lia. }
  destruct (G [] (Sorted_nil _)) as (H1 & H2 & H3).
  split; [exact H1|]. split; [|rewrite H3; simpl; lia].
  intros x. rewrite H2. simpl. tauto.
Qed.

(** The questions a submission walks through are the rows of the quiz,
    each once, in ascending [order]. *)
Lemma quiz_questions_facts (w : World) (quiz : Quiz) :
  Sorted (fun a b => order a <= order b) (quiz_questions w quiz) /\
  (forall q, In q (quiz_questions w quiz) <->
             In q (questions w) /\ question_quiz q = quiz_id quiz) /\
  length (quiz_questions w quiz)
  = length (filter (fun r => question_quiz r =? quiz_id quiz) (questions w)).
Proof.
  unfold quiz_questions.
  destruct (sort_by_order_facts
              (filter (fun r => question_quiz r =? quiz_id quiz) (questions w)))
    as (H1 & H2 & H3).
  split; [exact H1|]. split; [|exact H3].
  intros q. rewrite H2, filter_In, Z.eqb_eq. tauto.
Qed.

(* ================================================================= *)
(** * Tallies *)

Lemma tally_of_counts (request : Request) (qs : list Question) :
  forall t,
    tally_correct (tally_of request qs t)
      = tally_correct t + count (answered_right request) qs /\
    tally_wrong (tally_of request qs t)
      = tally_wrong t + count (answered_wrong request) qs /\
    tally_score (tally_of request qs t)
      = tally_score t + count (answered_right request) qs /\
    tally_answers (tally_of request qs t)
      = tally_answers t ++ map (summary_of request) (filter (answered request) qs).
Proof.
  unfold tally_of, count.
  induction qs as [|q qs IH]; intros t; cbn [fold_left filter map length].
  - rewrite app_nil_r. repeat split; cbn; lia.
  - destruct (IH (tally_step request q t)) as (H1 & H2 & H3 & H4).
    rewrite H1, H2, H3, H4. clear IH H1 H2 H3 H4.
    unfold tally_step, answered_right, answered_wrong.
    destruct (answered request q) eqn:Ea; cbn [andb].
    + destruct (str_eqb (text_of (selection request q)) (correct_answer q)) eqn:Ec;
        cbn [negb tally_correct tally_wrong tally_score tally_answers length map];
        rewrite <- app_assoc; unfold summary_of; rewrite Ec;
        repeat split; try lia; reflexivity.
    + repeat split; try lia.
Qed.

(* ================================================================= *)
(** * A submission from end to end *)

Section SubmitFacts.

Variable env : Env.

(** The feedback step never raises and leaves the tables alone. *)
Lemma feedback_step subject total right wrong summaries difficulty w :
  exists fb w',
    try_except
      (generate_performance_feedback env subject total right wrong summaries
         difficulty)
      feedback_failed w = (Returned fb, w') /\
    same_tables w w' /\ last_result_id w' = last_result_id w /\
    (key_rejected (api_key env) = true ->
       fb = feedback_unconfigured /\ llm_calls w' = llm_calls w) /\
    (key_rejected (api_key env) = false ->
       forall cause,
         llm_invoke env (py "gemini-1.5-flash")
           (generate_feedback_prompt env subject total right wrong summaries
              difficulty) = Failure cause ->
         fb = feedback_unavailable).
Proof.
  unfold try_except, generate_performance_feedback, PerformanceAnalyzer_init.
  destruct (key_rejected (api_key env)) eqn:Ek.
  - do 2 eexists. split; [reflexivity|]. cbn.
    repeat split; discriminate.
  - cbv beta iota zeta delta [bind ret modify invoke generate_feedback model raise].
    destruct (llm_invoke env (py "gemini-1.5-flash")
                (generate_feedback_prompt env subject total right wrong
                   summaries difficulty)) as [text|cause] eqn:El.
    + match goal with |- context [parse_feedback_response env text ?w0] =>
        destruct (parse_feedback_response_returns env text w0)
          as (a & b & c & w' & Hp & Hs & Hc & Hl & Hf & Hr)
      end.
      rewrite Hp. do 2 eexists. split; [reflexivity|].
      split; [|split; [|split]].
      * destruct Hs as (s1 & s2 & s3 & s4 & s5 & s6).
        repeat split; assumption.
      * exact Hr.
      * discriminate.
      * intros _ cause [=].
    + cbn. do 2 eexists. split; [reflexivity|]. cbn.
      repeat split; try discriminate.
Qed.

(** What [submit_quiz] does to a quiz the learner owns, when the answer
    table is in order: the loop runs to its end, the feedback step
    yields some dict, one result row is added, and the answer table
    stays in order. *)
Lemma submit_quiz_spec (request : Request) (key : Z) (quiz : Quiz) (w : World) :
  find (fun r => (quiz_id r =? key) && (quiz_user r =? request_user request))
       (quizzes w) = Some quiz ->
  is_post request = true ->
  answers_ok w ->
  let qs := quiz_questions w quiz in
  let t := tally_of request qs empty_tally in
  let total := Z.of_nat (length qs) in
  exists w1 fb w' pk,
    grade_questions request quiz qs empty_tally w = (Returned t, w1) /\
    submit_quiz env request key w
      = (Returned (Redirect (py "quiz_result") (Some (quiz_id quiz))), w') /\
    results w'
      = results w ++
        [ {| result_id := pk; result_user := request_user request;
             result_quiz := quiz_id quiz; score := tally_score t;
             total_questions := total; correct_answers := tally_correct t;
             wrong_answers := tally_wrong t;
             percentage := stored_percentage (tally_score t) total;
             strength_analysis :=
               to_text env (get_or_empty fb (py "strength_analysis"));
             weakness_analysis :=
               to_text env (get_or_empty fb (py "weakness_analysis"));
             suggestions := to_text env (get_or_empty fb (py "suggestions")) |} ] /\
    user_answers w' = user_answers w1 /\
    questions w' = questions w /\ quizzes w' = quizzes w /\
    pdf_documents w' = pdf_documents w /\
    answers_ok w' /\
    (keys_below w -> keys_below w') /\
    (key_rejected (api_key env) = true -> fb = feedback_unconfigured) /\
    (key_rejected (api_key env) = false ->
       forall cause,
         llm_invoke env (py "gemini-1.5-flash")
           (generate_feedback_prompt env (quiz_subject quiz) total
              (tally_correct t) (tally_wrong t) (tally_answers t)
              (quiz_difficulty quiz)) = Failure cause ->
         fb = feedback_unavailable).
Proof.
  intros Hfind Hpost Hok qs t total.
  destruct (quiz_questions_facts w quiz) as (_ & Hmem & _).
  destruct (grade_questions_spec request quiz qs empty_tally w Hok)
    as (w1 & Hrun & Hsame & Hok1 & _ & _ & Horigin).
  { intros q Hq. apply Hmem. exact Hq. }
  destruct (feedback_step (quiz_subject quiz) total (tally_correct t)
              (tally_wrong t) (tally_answers t) (quiz_difficulty quiz) w1)
    as (fb & w2 & Hfb & Htab & Hlast & Hrej & Hfail).
  exists w1, fb. do 2 eexists. split; [exact Hrun|].
  split.
  - unfold submit_quiz, get_quiz_or_404. unfold bind at 1. unfold bind at 1.
    unfold get_world at 1. cbv beta iota. rewrite Hfind. cbn [ret].
    rewrite Hpost. unfold bind at 1. unfold get_world at 1. cbv beta iota.
    fold qs. unfold bind at 1. rewrite Hrun. fold t. fold total.
    unfold bind at 1. rewrite Hfb.
    unfold Result_create, bind, fresh_pk, modify, ret. cbv beta iota.
    reflexivity.
  - unfold same_but_answers in Hsame.
    destruct Hsame as (s1 & s2 & s3 & s4 & s5 & s6 & s7 & s8 & s9 & s10).
    destruct Htab as (t1 & t2 & t3 & t4 & t5 & t6).
    world_simpl. unfold stored_percentage.
    split; [rewrite t5, s4; reflexivity|].
    split; [exact t4|]. split; [congruence|]. split; [congruence|].
    split; [congruence|]. split.
    + destruct Hok1 as [K1 K2 K3]. split; world_simpl.
      * rewrite t3. exact K1.
      * rewrite t4. exact K2.
      * rewrite t4, t3. exact K3.
    + split; [|split; [intros H; exact (proj1 (Hrej H))|exact Hfail]].
      intros [B1 B2 B3 B4].
      assert (Hquiz : quiz_id quiz < next_pk w).
      { apply find_some in Hfind. destruct Hfind as (Hin & _).
        rewrite Forall_forall in B1. exact (B1 quiz Hin). }
      split; world_simpl.
      * rewrite t2, s2. eapply Forall_impl; [|exact B1]. cbn beta. intros r. lia.
      * rewrite t3, s3. eapply Forall_impl; [|exact B2]. cbn beta. intros r. lia.
      * rewrite t4. eapply Forall_impl; [|exact Horigin]. cbn beta.
        intros r [(r0 & Hr0 & E1 & E2)|(E1 & q & Hq & E2)].
        -- rewrite Forall_forall in B3. specialize (B3 r0 Hr0). lia.
        -- apply Hmem in Hq. destruct Hq as (Hq & _).
           rewrite Forall_forall in B2. specialize (B2 q Hq). lia.
      * rewrite t5, s4. apply Forall_app. split.
        -- eapply Forall_impl; [|exact B4]. cbn beta. intros r. lia.
        -- constructor; [cbn; lia|constructor].
Qed.

End SubmitFacts.

(* ================================================================= *)
(** * Grading *)

Lemma untouched_when_unanswered (request : Request) (qs : list Question)
  (w : World) (q : Question) :
  NoDup (map question_id (questions w)) ->
  (forall q', In q' qs -> In q' (questions w)) ->
  In q qs -> answered request q = false ->
  touched request qs (question_id q) = false.
Proof.
  intros Hk Hsub Hq Ha. unfold touched.
  destruct (existsb _ qs) eqn:E; [|reflexivity].
  apply existsb_exists in E. destruct E as (q' & Hq' & Hc).
  apply andb_true_iff in Hc. destruct Hc as (Ha' & Hid).
  apply Z.eqb_eq in Hid.
  rewrite (NoDup_map_inj question_id _ _ _ Hk (Hsub _ Hq') (Hsub _ Hq) Hid) in Ha'.
  congruence.
Qed.

(** C3 (as amended): the loop of [submit_quiz] takes the questions of
    the quiz in ascending [order].  A question without a posted answer,
    or with an empty one, adds to neither counter and leaves the answer
    table as it was for that question; it is counted in the total only.
    A posted answer adds one to the correct counter when it is the very
    string stored as the correct answer, and one to the wrong counter
    otherwise, and is then the one answer on record for the learner and
    the question. *)
Theorem grading_counts (request : Request) (quiz : Quiz) (w : World) :
  answers_ok w ->
  let qs := quiz_questions w quiz in
  Sorted (fun a b => order a <= order b) qs /\
  exists t w',
    grade_questions request quiz qs empty_tally w = (Returned t, w') /\
    tally_correct t = count (answered_right request) qs /\
    tally_wrong t = count (answered_wrong request) qs /\
    tally_correct t + tally_wrong t = count (answered request) qs /\
    tally_score t = tally_correct t /\
    tally_answers t = map (summary_of request) (filter (answered request) qs) /\
    (forall q, answered_right request q = true <->
               answered request q = true /\
               text_of (selection request q) = correct_answer q) /\
    (forall q, In q qs -> answered request q = false ->
       rows_for (request_user request) (question_id q) (user_answers w')
       = rows_for (request_user request) (question_id q) (user_answers w)) /\
    (forall q, In q qs -> answered request q = true ->
       exists r,
         rows_for (request_user request) (question_id q) (user_answers w') = [r] /\
         selected_answer r = text_of (selection request q) /\
         is_correct r = str_eqb (text_of (selection request q)) (correct_answer q)).
Proof.
  intros Hok qs.
  destruct (quiz_questions_facts w quiz) as (Hsorted & Hmem & _).
  split; [exact Hsorted|].
  destruct (grade_questions_spec request quiz qs empty_tally w Hok)
    as (w' & Hrun & _ & _ & Hrows & Hframe).
  { intros q Hq. apply Hmem. exact Hq. }
  destruct (tally_of_counts request qs empty_tally) as (Hc & Hw & Hs & Ha).
  exists (tally_of request qs empty_tally), w'.
  split; [exact Hrun|]. cbn in Hc, Hw, Hs, Ha.
  split; [exact Hc|]. split; [exact Hw|]. split.
  { rewrite Hc, Hw. unfold count. clear.
    induction qs as [|q qs IH]; [reflexivity|]. cbn [filter].
    unfold answered_right at 1, answered_wrong at 1.
    destruct (answered request q); cbn [andb]; [|exact IH].
    destruct (str_eqb _ _); cbn [negb length]; lia. }
  split; [congruence|]. split; [exact Ha|]. split.
  { intros q. unfold answered_right. rewrite andb_true_iff, str_eqb_eq. tauto. }
  split.
  - intros q Hq Hna. apply Hframe.
    rewrite (untouched_when_unanswered request qs w q); auto.
    + apply andb_false_r.
    + apply Hok.
    + intros q' Hq'. apply Hmem. exact Hq'.
  - intros q Hq Hans. destruct (Hrows q Hq Hans) as (r & H1 & H2 & H3 & _).
    exists r. auto.
Qed.

(** C3 on the example quiz of two questions, the first answered B and
    the second not at all. *)
Lemma grading_counts_witness :
  exists t w',
    grade_questions (example_submission 1 (py "B"))
      {| quiz_id := 1; quiz_user := 1; quiz_pdf := 0; quiz_subject := [];
         quiz_difficulty := []; number_of_questions := 2; is_completed := true |}
      (quiz_questions (example_world 2)
         {| quiz_id := 1; quiz_user := 1; quiz_pdf := 0; quiz_subject := [];
            quiz_difficulty := []; number_of_questions := 2; is_completed := true |})
      empty_tally (example_world 2) = (Returned t, w') /\
    tally_correct t = 0 /\ tally_wrong t = 1.
Proof.
  assert (Hok : answers_ok (example_world 2)).
  { split; cbn.
    - repeat constructor; cbn; intuition discriminate.
    - intros u q. cbn. lia.
    - intros r q []. }
  destruct (grading_counts (example_submission 1 (py "B"))
              {| quiz_id := 1; quiz_user := 1; quiz_pdf := 0; quiz_subject := [];
                 quiz_difficulty := []; number_of_questions := 2;
                 is_completed := true |}
              (example_world 2) Hok)
    as (_ & t & w' & Hrun & Hc & Hw & _).
  exists t, w'. split; [exact Hrun|]. split; [exact Hc|exact Hw].
Defined.

(** C3 (counterexample): the example quiz has one question and the
    submission answers none.  The stored result counts one question,
    no correct answer and no wrong answer: the unanswered question did
    not add to the wrong counter. *)
Lemma unanswered_question_not_counted_wrong :
  exists w' row,
    submit_quiz (simple_env None (Reply [])) (example_submission 0 []) 1
      (example_world 1)
      = (Returned (Redirect (py "quiz_result") (Some 1)), w') /\
    results w' = [row] /\ total_questions row = 1 /\
    correct_answers row = 0 /\ wrong_answers row = 0 /\
    wrong_answers row <> 1 /\ user_answers w' = [].
Proof.
  do 2 eexists. split; [vm_compute; reflexivity|].
  cbn. repeat split. discriminate.
Qed.

Lemma example_world_ok (n : nat) : answers_ok (example_world n).
Proof.
  split; cbn.
  - rewrite map_map. cbn.
    assert (G : forall k m, NoDup (map (fun i => Z.of_nat i + 1) (seq k m))).
    { intros k m. revert k. induction m as [|m IH]; intros k; cbn; constructor.
      - intros H. apply in_map_iff in H. destruct H as (i & E & Hi).
        apply in_seq in Hi. lia.
      - apply IH. }
    apply G.
  - intros u q. cbn. lia.
  - intros r q [].
Qed.




(* ================================================================= *)
(** * The stored percentage *)








(* ================================================================= *)
(** * One answer for each learner and question *)

Lemma truthy_text (v : option str) (s : str) :
  v = Some s -> s <> [] -> truthy v = true /\ text_of v = s.
Proof. intros -> H. destruct s; [congruence|]. split; reflexivity. Qed.

(** C8: submissions keep the answer table in order; in particular a
    learner never has two answers on record for one question.  When a
    learner submits a selection for a question and later another one,
    the row written by the first submission is rewritten by the second:
    afterwards the learner has exactly one answer for the question, it
    has the key of the first row, and it holds the later selection and
    the flag that tells whether that selection is the correct answer. *)
Theorem one_answer_per_question
  (env : Env) (first second : Request) (key : Z) (quiz : Quiz) (q : Question)
  (s1 s2 : str) (w : World) :
  find (fun r => (quiz_id r =? key) && (quiz_user r =? request_user first))
       (quizzes w) = Some quiz ->
  request_user second = request_user first ->
  is_post first = true -> is_post second = true ->
  answers_ok w ->
  In q (quiz_questions w quiz) ->
  selection first q = Some s1 -> s1 <> [] ->
  selection second q = Some s2 -> s2 <> [] ->
  exists w1 w2 r1 r2,
    snd (submit_quiz env first key w) = w1 /\
    snd (submit_quiz env second key w1) = w2 /\
    answers_ok w1 /\ answers_ok w2 /\
    (forall u id, (length (rows_for u id (user_answers w1)) <= 1)%nat /\
                  (length (rows_for u id (user_answers w2)) <= 1)%nat) /\
    rows_for (request_user first) (question_id q) (user_answers w1) = [r1] /\
    selected_answer r1 = s1 /\ is_correct r1 = str_eqb s1 (correct_answer q) /\
    rows_for (request_user first) (question_id q) (user_answers w2) = [r2] /\
    selected_answer r2 = s2 /\ is_correct r2 = str_eqb s2 (correct_answer q) /\
    answer_id r2 = answer_id r1.
Proof.
  intros Hfind Huser Hp1 Hp2 Hok Hq Hs1 Hn1 Hs2 Hn2.
  destruct (truthy_text _ _ Hs1 Hn1) as (Ha1 & Ht1).
  destruct (truthy_text _ _ Hs2 Hn2) as (Ha2 & Ht2).
  destruct (quiz_questions_facts w quiz) as (_ & Hmem & _).
  (* the first submission *)
  destruct (submit_quiz_spec env first key quiz w Hfind Hp1 Hok)
    as (w1 & fb1 & w1' & pk1 & Hg1 & Hrun1 & _ & Hua1 & Hqs1 & Hqz1 & _ & Hok1 & _).
  destruct (grade_questions_spec first quiz (quiz_questions w quiz) empty_tally w Hok)
    as (w1a & Hg1a & _ & _ & Hrows1 & _).
  { intros q' Hq'. apply Hmem. exact Hq'. }
  rewrite Hg1 in Hg1a. injection Hg1a as <-.
  destruct (Hrows1 q Hq Ha1) as (r1 & Hr1 & Hsel1 & Hcor1 & _).
  (* the second submission sees the same quiz and the same questions *)
  assert (Hfind2 : find (fun r => (quiz_id r =? key)
                                  && (quiz_user r =? request_user second))
                        (quizzes w1') = Some quiz)
    by (rewrite Hqz1, Huser; exact Hfind).
  assert (Hsame : quiz_questions w1' quiz = quiz_questions w quiz)
    by (unfold quiz_questions; rewrite Hqs1; reflexivity).
  destruct (submit_quiz_spec env second key quiz w1' Hfind2 Hp2 Hok1)
    as (w2 & fb2 & w2' & pk2 & Hg2 & Hrun2 & _ & Hua2 & _ & _ & _ & Hok2 & _).
  destruct (grade_questions_spec second quiz (quiz_questions w1' quiz)
              empty_tally w1' Hok1)
    as (w2a & Hg2a & _ & _ & Hrows2 & _).
  { intros q' Hq'. rewrite Hsame in Hq'. rewrite Hqs1. apply Hmem. exact Hq'. }
  rewrite Hg2 in Hg2a. injection Hg2a as <-.
  rewrite Hsame in Hrows2.
  destruct (Hrows2 q Hq Ha2) as (r2 & Hr2 & Hsel2 & Hcor2 & Hid2).
  rewrite Huser in Hr2, Hid2. rewrite Hua1 in Hid2.
  exists w1', w2', r1, r2.
  rewrite Hrun1, Hrun2. cbn [snd].
  split; [reflexivity|]. split; [reflexivity|].
  split; [exact Hok1|]. split; [exact Hok2|]. split.
  { intros u id. split; [apply Hok1|apply Hok2]. }
  rewrite Hua1, Hua2.
  split; [exact Hr1|]. split; [congruence|]. split; [congruence|].
  split; [exact Hr2|]. split; [congruence|]. split; [congruence|].
  exact (Hid2 r1 Hr1).
Qed.

(** C8 on the example quiz: the learner answers B, then A. *)
Lemma one_answer_per_question_witness :
  exists w1 w2 r1 r2,
    snd (submit_quiz (simple_env None (Reply []))
           (example_submission 1 (py "B")) 1 (example_world 1)) = w1 /\
    snd (submit_quiz (simple_env None (Reply []))
           (example_submission 1 (py "A")) 1 w1) = w2 /\
    rows_for 1 2 (user_answers w1) = [r1] /\
    selected_answer r1 = py "B" /\ is_correct r1 = false /\
    rows_for 1 2 (user_answers w2) = [r2] /\
    selected_answer r2 = py "A" /\ is_correct r2 = true /\
    answer_id r2 = answer_id r1.
Proof.
  destruct (one_answer_per_question (simple_env None (Reply []))
              (example_submission 1 (py "B")) (example_submission 1 (py "A"))
              1 _ (example_question 1) (py "B") (py "A") (example_world 1)
              eq_refl eq_refl eq_refl eq_refl (example_world_ok 1)
              (or_introl eq_refl) eq_refl ltac:(discriminate)
              eq_refl ltac:(discriminate))
    as (w1 & w2 & r1 & r2 & H1 & H2 & _ & _ & _ & H3 & H4 & H5 & H6 & H7 & H8 & H9).
  exists w1, w2, r1, r2. repeat (split; [assumption|]). assumption.
Defined.

(** The empty database is in order, so every database reached from it
    by submissions is. *)
Lemma empty_world_ok : answers_ok empty_world.
Proof.
  split; cbn.
  - constructor.
  - intros u q. cbn. lia.
  - intros r q [].
Qed.

(* ================================================================= *)
(** * Saving the questions of a quiz *)

Lemma pure_ret {A} (a : A) : pure (ret a).
Proof. intros w. left. eexists; reflexivity. Qed.

Lemma pure_raise {A} (e : exn) : pure (@raise A e).
Proof. intros w. right. eexists; reflexivity. Qed.

Lemma pure_py_get v k d : pure (py_get v k d).
Proof. destruct v; first [apply pure_ret | apply pure_raise]. Qed.

Lemma pure_not_null column v : pure (not_null column v).
Proof. destruct v; [apply pure_ret | apply pure_raise]. Qed.

Lemma adds_one_bind {A} quiz_key idx (c : M A) (k : A -> M unit) :
  pure c -> (forall a, adds_one quiz_key idx (k a)) ->
  adds_one quiz_key idx (bind c k).
Proof.
  intros Hc Hk w. unfold bind.
  destruct (Hc w) as [(a & ->)|(e & ->)]; [apply Hk|].
  left. eexists; reflexivity.
Qed.

Section SavingFacts.

Variable env : Env.
Variable quiz : Quiz.

Lemma question_create_adds_one text a b c d correct expl idx :
  adds_one (quiz_id quiz) idx
    (Question_create env quiz text a b c d correct expl idx ;;; ret tt)%monad.
Proof.
  unfold Question_create.
  repeat match goal with
    | |- adds_one _ _ (bind (bind (not_null ?col ?v) ?k) ?k') =>
        let H := fresh in
        assert (H : forall w, bind (bind (not_null col v) k) k' w
                              = bind (not_null col v) (fun x => bind (k x) k') w)
          by (intros w0; unfold bind; destruct (not_null col v w0) as [[?|?] ?];
              reflexivity);
        intros w; rewrite H; revert w;
        change (adds_one (quiz_id quiz) idx
                  (bind (not_null col v) (fun x => bind (k x) k')));
        apply adds_one_bind; [apply pure_not_null|intros ?]; cbv beta
    end.
  intros w. right. eexists. split; [reflexivity|]. cbn. repeat split.
Qed.

End SavingFacts.

Section SavingLoop.

Variable env : Env.
Variable quiz : Quiz.

(** The body of the loop of [save_questions]. *)
Lemma save_one_adds_one (iq : Z * pyobj) :
  adds_one (quiz_id quiz) (fst iq)
    (text <- py_get (snd iq) (py "question") (PyStr []) ;;
     oa <- py_get (snd iq) (py "options") (PyDict []) ;;
     a <- py_get oa (py "A") (PyStr []) ;;
     ob <- py_get (snd iq) (py "options") (PyDict []) ;;
     b <- py_get ob (py "B") (PyStr []) ;;
     oc <- py_get (snd iq) (py "options") (PyDict []) ;;
     c <- py_get oc (py "C") (PyStr []) ;;
     od <- py_get (snd iq) (py "options") (PyDict []) ;;
     d <- py_get od (py "D") (PyStr []) ;;
     correct <- py_get (snd iq) (py "correct_answer") (PyStr (py "A")) ;;
     expl <- py_get (snd iq) (py "explanation") (PyStr []) ;;
     Question_create env quiz text a b c d correct expl (fst iq) ;;;
     ret tt)%monad.
Proof.
  repeat (apply adds_one_bind; [apply pure_py_get|intros ?]).
  apply question_create_adds_one.
Qed.

(** A loop of such bodies adds the rows one after the other, with
    consecutive keys, and stops at the first body that raises. *)
Lemma for_each_adds (body : Z * pyobj -> M unit) :
  (forall iq, adds_one (quiz_id quiz) (fst iq) (body iq)) ->
  forall items start w,
  exists rows out w',
    for_each (enumerate items start) body w = (out, w') /\
    w' = fold_left add_question rows w /\
    Forall (fun r => question_quiz r = quiz_id quiz /\
                     next_pk w <= question_id r < next_pk w') rows /\
    next_pk w <= next_pk w' /\
    NoDup (map question_id rows) /\
    (out = Returned tt -> map order rows = count_from start (length items)).
Proof.
  intros Hbody. induction items as [|x items IH]; intros start w.
  - exists [], (Returned tt), w. cbn.
    split; [reflexivity|]. split; [reflexivity|]. split; [constructor|].
    split; [lia|]. split; [constructor|reflexivity].
  - cbn [enumerate for_each]. unfold bind.
    destruct (Hbody (start, x) w) as [(e & ->)|(row & -> & Hid & Hquiz & Hord)].
    + exists [], (Raised e), w. cbn.
      split; [reflexivity|]. split; [reflexivity|]. split; [constructor|].
      split; [lia|]. split; [constructor|discriminate].
    + destruct (IH (start + 1) (add_question w row))
        as (rows & out & w' & Hrun & Hw' & Hrows & Hpk & Hnd & Hout).
      exists (row :: rows), out, w'. rewrite Hrun. cbn [fold_left].
      split; [reflexivity|]. split; [exact Hw'|].
      assert (Hn : next_pk (add_question w row) = next_pk w + 1) by reflexivity.
      split; [|split; [|split]].
      * constructor; [cbn in Hord; lia|].
        eapply Forall_impl; [|exact Hrows]. cbn beta. intros r. lia.
      * lia.
      * cbn [map]. constructor; [|exact Hnd].
        intros Hin. apply in_map_iff in Hin. destruct Hin as (r & Er & Hr).
        rewrite Forall_forall in Hrows. specialize (Hrows r Hr). lia.
      * intros Ho. cbn [map count_from length]. cbn in Hord.
        rewrite Hord, (Hout Ho). reflexivity.
Qed.

End SavingLoop.

(* ================================================================= *)
(** * A creation attempt and its rollback *)

Lemma filter_keep {A} (f : A -> bool) (l : list A) :
  Forall (fun x => f x = true) l -> filter f l = l.
Proof.
  induction 1 as [|x l Hx _ IH]; cbn; [reflexivity|]. rewrite Hx, IH. reflexivity.
Qed.

Lemma filter_drop {A} (f : A -> bool) (l : list A) :
  Forall (fun x => f x = false) l -> filter f l = [].
Proof.
  induction 1 as [|x l Hx _ IH]; cbn; [reflexivity|]. rewrite Hx. exact IH.
Qed.

Lemma fold_add_question (rows : list Question) :
  forall w,
    questions (fold_left add_question rows w) = questions w ++ rows /\
    pdf_documents (fold_left add_question rows w) = pdf_documents w /\
    quizzes (fold_left add_question rows w) = quizzes w /\
    user_answers (fold_left add_question rows w) = user_answers w /\
    results (fold_left add_question rows w) = results w.
Proof.
  induction rows as [|r rows IH]; intros w; cbn [fold_left].
  - rewrite app_nil_r. repeat split.
  - destruct (IH (add_question w r)) as (H1 & H2 & H3 & H4 & H5).
    rewrite H1, H2, H3, H4, H5. cbn. rewrite <- app_assoc. repeat split.
Qed.

Section AttemptFacts.

Variable env : Env.
Variable quiz : Quiz.
Variables (pk0 : Z) (PD : list PDFDocument) (Q : list Quiz)
          (QS : list Question) (UA : list UserAnswer) (RS : list Result).

Let state := attempt (quiz_id quiz) pk0 PD Q QS UA RS.

Lemma attempt_same_tables qz rows w w' :
  state qz rows w -> same_tables w w' -> state qz rows w'.
Proof.
  intros [A1 A2 A3 A4 A5 A6 A7 A8 A9] (T1 & T2 & T3 & T4 & T5 & T6).
  split; try congruence. rewrite T6. exact A8.
Qed.

Lemma generate_quiz_questions_tables pdf_text subject difficulty n w :
  same_tables w (snd (generate_quiz_questions env pdf_text subject difficulty n w)).
Proof.
  unfold generate_quiz_questions, QuizGenerator_init.
  destruct (key_rejected (api_key env)); [apply same_tables_refl|].
  unfold bind at 1. cbn [ret]. unfold generate_questions, bind.
  match goal with |- context [invoke env ?c ?p w] =>
    pose proof (invoke_effects env c p w) as (Hi & _);
    destruct (invoke env c p w) as [[text|e] w1]
  end; cbn [snd] in *; [|exact Hi].
  pose proof (parse_quiz_response_effects env text w1) as (Hp & _).
  exact (same_tables_trans _ _ _ Hi Hp).
Qed.

Lemma save_questions_attempt qz rows data w :
  state qz rows w ->
  exists rows' out w',
    save_questions env quiz data w = (out, w') /\
    state qz (rows ++ rows') w' /\
    (out = Returned tt ->
       exists items, py_iter data w = (Returned items, w) /\
                     map order rows' = count_from 1 (length items)).
Proof.
  intros [A1 A2 A3 A4 A5 A6 A7 A8 A9]. unfold save_questions, bind.
  destruct (py_iter data w) as [[items|e] w0] eqn:Ei.
  - assert (w0 = w) as ->
      by (destruct data; cbv [py_iter ret raise] in Ei; congruence).
    destruct (for_each_adds quiz _ (save_one_adds_one env quiz) items 1 w)
      as (rows' & out & w' & Hrun & Hw' & Hrows & Hpk & Hnd & Hout).
    exists rows', out, w'. split; [exact Hrun|].
    destruct (fold_add_question rows' w) as (F1 & F2 & F3 & F4 & F5).
    rewrite <- Hw' in *. split.
    + split; try congruence.
      * rewrite F1, A3, app_assoc. reflexivity.
      * lia.
      * apply Forall_app. split.
        -- eapply Forall_impl; [|exact A8]. cbn beta. intros r. lia.
        -- eapply Forall_impl; [|exact Hrows]. cbn beta. intros r. lia.
      * rewrite map_app. apply NoDup_app; [exact A9|exact Hnd|].
        intros k Hk1 Hk2. apply in_map_iff in Hk1, Hk2.
        destruct Hk1 as (r1 & <- & Hr1). destruct Hk2 as (r2 & E & Hr2).
        rewrite Forall_forall in A8, Hrows.
        specialize (A8 r1 Hr1). specialize (Hrows r2 Hr2). lia.
    + intros Ho. exists items. split; [reflexivity|]. exact (Hout Ho).
  - assert (w0 = w) as ->
      by (destruct data; cbv [py_iter ret raise] in Ei; congruence).
    exists [], (Raised e), w. split; [reflexivity|]. rewrite app_nil_r.
    split; [split; assumption|discriminate].
Qed.

Hypothesis other_quizzes : Forall (fun r => quiz_id r <> quiz_id quiz) Q.
Hypothesis other_questions : Forall (fun r => question_quiz r <> quiz_id quiz) QS.
Hypothesis other_answers :
  Forall (fun r => answer_quiz r <> quiz_id quiz /\ answer_question r < pk0) UA.
Hypothesis other_results : Forall (fun r => result_quiz r <> quiz_id quiz) RS.

Lemma quiz_save_attempt rows w :
  state quiz rows w ->
  state (completed quiz) rows (snd (Quiz_save (completed quiz) w)).
Proof.
  intros [A1 A2 A3 A4 A5 A6 A7 A8 A9]. unfold Quiz_save, modify. cbn [snd].
  assert (E : existsb (fun r => quiz_id r =? quiz_id (completed quiz)) (quizzes w)
              = true).
  { rewrite A2. apply existsb_exists. exists quiz. split.
    - apply in_or_app. right. left. reflexivity.
    - apply Z.eqb_refl. }
  rewrite E. split; world_simpl; try assumption; try reflexivity.
  rewrite A2, map_app. cbn [map]. cbn [completed quiz_id].
  rewrite Z.eqb_refl. f_equal. apply map_id_on.
  intros r Hr. rewrite Forall_forall in other_quizzes.
  destruct (quiz_id r =? quiz_id quiz) eqn:E'; [|reflexivity].
  apply Z.eqb_eq in E'. exfalso. exact (other_quizzes r Hr E').
Qed.

(** [quiz.delete()] undoes the attempt: the tables are those from
    before the quiz row was created. *)
Lemma quiz_delete_attempt qz rows w :
  state qz rows w ->
  let w' := snd (Quiz_delete quiz w) in
  pdf_documents w' = PD /\ quizzes w' = Q /\ questions w' = QS /\
  user_answers w' = UA /\ results w' = RS /\ pk0 <= next_pk w'.
Proof.
  intros [A1 A2 A3 A4 A5 A6 A7 A8 A9]. unfold Quiz_delete, modify. cbn [snd].
  world_simpl. split; [exact A1|]. split; [|split; [|split; [|split]]].
  5:{ exact A7. }
  - rewrite A2, filter_app. cbn [filter]. rewrite A6, Z.eqb_refl. cbn.
    rewrite app_nil_r. apply filter_keep.
    eapply Forall_impl; [|exact other_quizzes]. cbn beta. intros r Hr.
    apply negb_true_iff, Z.eqb_neq. exact Hr.
  - rewrite A3, filter_app.
    rewrite (filter_drop _ rows), app_nil_r.
    + apply filter_keep. eapply Forall_impl; [|exact other_questions].
      cbn beta. intros r Hr. apply negb_true_iff, Z.eqb_neq. exact Hr.
    + eapply Forall_impl; [|exact A8]. cbn beta. intros r (Hr & _).
      apply negb_false_iff, Z.eqb_eq. exact Hr.
  - rewrite A4. apply filter_keep.
    eapply Forall_impl; [|exact other_answers]. cbn beta. intros r (Hr1 & Hr2).
    apply negb_true_iff, orb_false_iff. split; [apply Z.eqb_neq; exact Hr1|].
    rewrite A3, existsb_app. apply orb_false_iff. split.
    + apply not_true_is_false. intros H. apply existsb_exists in H.
      destruct H as (x & Hx & Hc). apply andb_true_iff in Hc.
      destruct Hc as (_ & Hc). apply Z.eqb_eq in Hc.
      rewrite Forall_forall in other_questions. exact (other_questions x Hx Hc).
    + apply not_true_is_false. intros H. apply existsb_exists in H.
      destruct H as (x & Hx & Hc). apply andb_true_iff in Hc.
      destruct Hc as (Hc & _). apply Z.eqb_eq in Hc.
      rewrite Forall_forall in A8. destruct (A8 x Hx) as (_ & Hge). lia.
  - rewrite A5. apply filter_keep.
    eapply Forall_impl; [|exact other_results]. cbn beta. intros r Hr.
    apply negb_true_iff, Z.eqb_neq. exact Hr.
Qed.

Lemma generation_failed_restores qz rows e w :
  state qz rows w ->
  exists w',
    generation_failed quiz e w = (Returned (Redirect (py "dashboard") None), w') /\
    pdf_documents w' = PD /\ quizzes w' = Q /\ questions w' = QS /\
    user_answers w' = UA /\ results w' = RS /\ pk0 <= next_pk w'.
Proof.
  intros Hs. unfold generation_failed.
  destruct (kind e);
    cbv beta iota delta [bind logger_error messages_error modify ret];
    match goal with |- context [Quiz_delete quiz ?W] =>
      change (Quiz_delete quiz W)
        with (@Returned unit tt, snd (Quiz_delete quiz W));
      cbv beta iota;
      exists (snd (Quiz_delete quiz W)); split; [reflexivity|];
      apply (quiz_delete_attempt qz rows W);
      apply (attempt_same_tables qz rows w W Hs); repeat split
    end.
Qed.

(** The [try] statement of a creation view, run on the database that
    holds the new quiz row and no question of it. *)
Lemma creation_attempt text subject difficulty n w :
  state quiz [] w ->
  exists early w',
    try_except
      (generate_and_save env quiz text subject difficulty n ;;; ret None)%monad
      (fun e => r <- generation_failed quiz e ;; ret (Some r))%monad w
    = (Returned early, w') /\
    ((early = None /\
      exists rows data items,
        state (completed quiz) rows w' /\
        map order rows = count_from 1 (length items) /\
        exists wa wb,
          generate_quiz_questions env text subject difficulty n wa
            = (Returned data, wb) /\
          py_iter data wb = (Returned items, wb)) \/
     (early = Some (Redirect (py "dashboard") None) /\
      pdf_documents w' = PD /\ quizzes w' = Q /\ questions w' = QS /\
      user_answers w' = UA /\ results w' = RS /\ pk0 <= next_pk w')).
Proof.
  intros Hs.
  assert (Hfail : forall qz rows e w0,
            state qz rows w0 ->
            exists early w',
              (r <- generation_failed quiz e ;; ret (Some r))%monad w0
              = (Returned early, w') /\
              ((early = None /\
                exists rows data items,
                  state (completed quiz) rows w' /\
                  map order rows = count_from 1 (length items) /\
                  exists wa wb,
                    generate_quiz_questions env text subject difficulty n wa
                      = (Returned data, wb) /\
                    py_iter data wb = (Returned items, wb)) \/
               (early = Some (Redirect (py "dashboard") None) /\
                pdf_documents w' = PD /\ quizzes w' = Q /\ questions w' = QS /\
                user_answers w' = UA /\ results w' = RS /\ pk0 <= next_pk w'))).
  { intros qz rows e w0 Hs0.
    destruct (generation_failed_restores qz rows e w0 Hs0) as (w' & Hrun & Hrest).
    exists (Some (Redirect (py "dashboard") None)), w'.
    unfold bind. rewrite Hrun. split; [reflexivity|]. right.
    split; [reflexivity|exact Hrest]. }
  cbv beta iota zeta delta [try_except generate_and_save bind].
  pose proof (generate_quiz_questions_tables text subject difficulty n w) as Hg.
  destruct (generate_quiz_questions env text subject difficulty n w)
    as [[data|e] w1] eqn:Eg; cbn [snd] in Hg.
  2:{ apply (Hfail quiz []). exact (attempt_same_tables _ _ _ _ Hs Hg). }
  pose proof (attempt_same_tables _ _ _ _ Hs Hg) as Hs1.
  destruct (save_questions_attempt quiz [] data w1 Hs1)
    as (rows & out & w2 & Hsave & Hs2 & Hitems).
  rewrite Hsave. cbn [app] in Hs2.
  destruct out as [[]|e]; [|exact (Hfail quiz rows e w2 Hs2)].
  destruct (Hitems eq_refl) as (items & Hiter & Horder).
  pose proof (quiz_save_attempt rows w2 Hs2) as Hs3.
  change {| quiz_id := quiz_id quiz; quiz_user := quiz_user quiz;
            quiz_pdf := quiz_pdf quiz; quiz_subject := quiz_subject quiz;
            quiz_difficulty := quiz_difficulty quiz;
            number_of_questions := number_of_questions quiz;
            is_completed := true |} with (completed quiz).
  assert (Hrun3 : Quiz_save (completed quiz) w2
                  = (Returned tt, snd (Quiz_save (completed quiz) w2)))
    by reflexivity.
  rewrite Hrun3.
  set (w3 := snd (Quiz_save (completed quiz) w2)) in *.
  destruct (py_len data w3) as [[k|e] w4] eqn:El.
  - assert (w4 = w3) as ->
      by (destruct data; cbv [py_len ret raise] in El; congruence).
    cbv beta iota delta [messages_success modify ret].
    do 2 eexists. split; [reflexivity|]. left. split; [reflexivity|].
    exists rows, data, items. split; [|split; [exact Horder|]].
    + apply (attempt_same_tables _ _ w3); [exact Hs3|]. repeat split.
    + exists w, w1. split; [exact Eg|exact Hiter].
  - assert (w4 = w3) as ->
      by (destruct data; cbv [py_len ret raise] in El; congruence).
    exact (Hfail (completed quiz) rows e w3 Hs3).
Qed.

End AttemptFacts.

(* ================================================================= *)
(** * The creation views *)

Section CreationFacts.

Variable env : Env.
Variable request : Request.

(** From the creation of the quiz row to the end of the view. *)
Lemma quiz_create_then_attempt
  (doc : PDFDocument) (subject difficulty text : str) (v : World) :
  keys_below v ->
  exists out w',
    (quiz <- Quiz_create (request_user request) doc subject difficulty
               (POST_num_questions request) ;;
     early <- try_except
                (generate_and_save env quiz text subject difficulty
                   (POST_num_questions request) ;;; ret None)
                (fun e => r <- generation_failed quiz e ;; ret (Some r)) ;;
     match early with
     | Some r => ret r
     | None => ret (Redirect (py "take_quiz") (Some (quiz_id quiz)))
     end)%monad v = (Returned out, w') /\
    created_or_absent env request v w' /\
    pdf_documents w' = pdf_documents v /\
    keys_below w' /\ (answers_ok v -> answers_ok w').
Proof.
  intros [K1 K2 K3 K4].
  set (quiz := {| quiz_id := next_pk v; quiz_user := request_user request;
                  quiz_pdf := pdf_id doc; quiz_subject := subject;
                  quiz_difficulty := difficulty;
                  number_of_questions := POST_num_questions request;
                  is_completed := false |}).
  set (v1 := set_quizzes (set_next_pk v (next_pk v + 1))
               (quizzes (set_next_pk v (next_pk v + 1)) ++ [quiz])).
  assert (Hcreate : Quiz_create (request_user request) doc subject difficulty
                      (POST_num_questions request) v = (Returned quiz, v1))
    by reflexivity.
  assert (Hs : attempt (quiz_id quiz) (next_pk v + 1) (pdf_documents v)
                 (quizzes v) (questions v) (user_answers v) (results v)
                 quiz [] v1).
  { split;
      [ reflexivity | reflexivity | cbn; rewrite app_nil_r; reflexivity
      | reflexivity | reflexivity | reflexivity | cbn; lia | constructor
      | constructor ]. }
  destruct (creation_attempt env quiz (next_pk v + 1) (pdf_documents v)
              (quizzes v) (questions v) (user_answers v) (results v))
    with (text := text) (subject := subject) (difficulty := difficulty)
         (n := POST_num_questions request) (w := v1)
    as (early & w' & Hrun & Hcases).
  - eapply Forall_impl; [|exact K1]. unfold quiz. cbn. intros r. lia.
  - eapply Forall_impl; [|exact K2]. unfold quiz. cbn. intros r. lia.
  - eapply Forall_impl; [|exact K3]. unfold quiz. cbn. intros r. lia.
  - eapply Forall_impl; [|exact K4]. unfold quiz. cbn. intros r. lia.
  - exact Hs.
  - unfold bind at 1. rewrite Hcreate. unfold bind at 1. rewrite Hrun.
    destruct Hcases as [(-> & rows & data & items & Hst & Horder & wa & wb & Hgen & Hiter)
                       |(-> & H1 & H2 & H3 & H4 & H5 & H6)].
    + do 2 eexists. split; [reflexivity|].
      destruct Hst as [A1 A2 A3 A4 A5 A6 A7 A8 A9].
      cbn [quiz_id quiz] in A8.
      split; [|split; [exact A1|split]].
      * right. exists (completed quiz), rows, data, items.
        split; [exact A2|]. split; [reflexivity|]. split; [reflexivity|].
        split; [exact A3|]. split.
        { eapply Forall_impl; [|exact A8]. cbn. intros r. tauto. }
        split.
        { eapply Forall_impl; [|exact K2]. unfold quiz. cbn. intros r. lia. }
        split; [exact Horder|]. split; [|split; assumption].
        exists text, subject, difficulty, wa, wb. split; assumption.
      * split.
        -- rewrite A2. apply Forall_app. split.
           ++ eapply Forall_impl; [|exact K1]. cbn beta. intros r. lia.
           ++ constructor; [cbn; lia|constructor].
        -- rewrite A3. apply Forall_app. split.
           ++ eapply Forall_impl; [|exact K2]. cbn beta. intros r. lia.
           ++ eapply Forall_impl; [|exact A8]. cbn beta. intros r. lia.
        -- rewrite A4. eapply Forall_impl; [|exact K3]. cbn beta. intros r. lia.
        -- rewrite A5. eapply Forall_impl; [|exact K4]. cbn beta. intros r. lia.
      * intros [O1 O2 O3]. split.
        -- rewrite A3, map_app. apply NoDup_app; [exact O1|exact A9|].
           intros k Hk1 Hk2. apply in_map_iff in Hk1, Hk2.
           destruct Hk1 as (r1 & <- & Hr1). destruct Hk2 as (r2 & E & Hr2).
           rewrite Forall_forall in K2, A8.
           specialize (K2 r1 Hr1). specialize (A8 r2 Hr2). lia.
        -- rewrite A4. exact O2.
        -- rewrite A4, A3. intros r q Hr Hq E. apply in_app_or in Hq.
           destruct Hq as [Hq|Hq]; [exact (O3 r q Hr Hq E)|].
           rewrite Forall_forall in K3, A8.
           specialize (K3 r Hr). specialize (A8 q Hq). lia.
    + do 2 eexists. split; [reflexivity|]. split; [|split; [exact H1|split]].
      * left. repeat split; assumption.
      * split.
        -- rewrite H2. eapply Forall_impl; [|exact K1]. cbn beta. intros r. lia.
        -- rewrite H3. eapply Forall_impl; [|exact K2]. cbn beta. intros r. lia.
        -- rewrite H4. eapply Forall_impl; [|exact K3]. cbn beta. intros r. lia.
        -- rewrite H5. eapply Forall_impl; [|exact K4]. cbn beta. intros r. lia.
      * intros [O1 O2 O3]. split.
        -- rewrite H3. exact O1.
        -- rewrite H4. exact O2.
        -- rewrite H4, H3. exact O3.
Qed.

Lemma created_or_absent_from (v w w' : World) :
  quizzes v = quizzes w -> questions v = questions w ->
  user_answers v = user_answers w -> results v = results w ->
  created_or_absent env request v w' -> created_or_absent env request w w'.
Proof.
  intros E1 E2 E3 E4. unfold created_or_absent. rewrite E1, E2, E3, E4. tauto.
Qed.

Lemma absent_refl (w w' : World) :
  same_tables w w' -> created_or_absent env request w w'.
Proof. intros (_ & T2 & T3 & T4 & T5 & _). left. auto. Qed.

End CreationFacts.

Lemma get_document_run (pdf user : Z) (w : World) :
  get_document_or_404 pdf user w
  = match find (fun r => (pdf_id r =? pdf) && (pdf_user r =? user))
               (pdf_documents w) with
    | Some r => (Returned r, w)
    | None => (Raised not_found, w)
    end.
Proof.
  unfold get_document_or_404, bind, get_world.
  destruct (find _ (pdf_documents w)); reflexivity.
Qed.

Lemma answers_ok_same_tables (w w' : World) :
  same_tables w w' -> answers_ok w -> answers_ok w'.
Proof.
  intros (_ & _ & T3 & T4 & _) [O1 O2 O3].
  split; rewrite ?T3, ?T4; assumption.
Qed.

Lemma keys_below_same_tables (w w' : World) :
  same_tables w w' -> keys_below w -> keys_below w'.
Proof.
  intros (_ & T2 & T3 & T4 & T5 & T6) [K1 K2 K3 K4].
  split; rewrite ?T2, ?T3, ?T4, ?T5, T6; assumption.
Qed.

Lemma view_outcome_same_tables env request w out w' :
  keys_below w -> same_tables w w' ->
  view_outcome env request w (Returned out, w').
Proof.
  intros Hk Ht. exists out. cbn [fst snd]. split; [reflexivity|].
  split; [apply absent_refl; exact Ht|].
  split; [exact (keys_below_same_tables w w' Ht Hk)|].
  exact (answers_ok_same_tables w w' Ht).
Qed.

Lemma topic_view_spec (env : Env) (request : Request) (w : World) :
  keys_below w ->
  view_outcome env request w (create_quiz_from_topic env request w).
Proof.
  intros Hk. unfold create_quiz_from_topic.
  destruct (is_post request);
    [|apply view_outcome_same_tables; [exact Hk|apply same_tables_refl]].
  destruct (negb (truthy (POST_topic request)));
    [apply view_outcome_same_tables; [exact Hk|repeat split]|].
  destruct (bad_difficulty (POST_difficulty request));
    [apply view_outcome_same_tables; [exact Hk|repeat split]|].
  destruct ((POST_num_questions request <? 1) || (POST_num_questions request >? 50));
    [apply view_outcome_same_tables; [exact Hk|repeat split]|].
  unfold bind at 1.
  set (title := py "Topic: " ++ text_of (POST_topic request)).
  set (doc := {| pdf_id := next_pk w; pdf_user := request_user request;
                 pdf_title := title; pdf_file := None;
                 pdf_text_content := Some title |}).
  set (v := set_documents (set_next_pk w (next_pk w + 1))
              (pdf_documents (set_next_pk w (next_pk w + 1)) ++ [doc])).
  assert (Hdoc : PDFDocument_create (request_user request) title None
                   (Some title) w = (Returned doc, v)) by reflexivity.
  rewrite Hdoc.
  assert (Hkv : keys_below v).
  { destruct Hk as [K1 K2 K3 K4]. split; cbn.
    - eapply Forall_impl; [|exact K1]. cbn. intros r. lia.
    - eapply Forall_impl; [|exact K2]. cbn. intros r. lia.
    - eapply Forall_impl; [|exact K3]. cbn. intros r. lia.
    - eapply Forall_impl; [|exact K4]. cbn. intros r. lia. }
  destruct (quiz_create_then_attempt env request doc
              (text_of (POST_topic request)) (text_of (POST_difficulty request))
              (py "Generate questions about: " ++ text_of (POST_topic request))
              v Hkv) as (out & w' & Hrun & Hc & _ & Hk' & Hok').
  rewrite Hrun. exists out. cbn [fst snd]. split; [reflexivity|]. split.
  - apply (created_or_absent_from env request v w w'); try reflexivity. exact Hc.
  - split; [exact Hk'|]. intros [O1 O2 O3]. apply Hok'. split; assumption.
Qed.

Lemma pdf_view_spec (env : Env) (request : Request) (pdf : Z) (w : World) :
  keys_below w ->
  create_quiz env request pdf w = (Raised not_found, w) \/
  view_outcome env request w (create_quiz env request pdf w).
Proof.
  intros Hk. unfold create_quiz.
  pose proof (get_document_run pdf (request_user request) w) as Hget.
  destruct (find _ (pdf_documents w)) as [doc|].
  2:{ left. exact (bind_raised _ _ w _ w Hget). }
  right. rewrite (bind_returned _ _ w doc w Hget).
  destruct (is_post request);
    [|apply view_outcome_same_tables; [exact Hk|apply same_tables_refl]].
  destruct (negb (truthy (POST_subject request)));
    [apply view_outcome_same_tables; [exact Hk|repeat split]|].
  destruct (bad_difficulty (POST_difficulty request));
    [apply view_outcome_same_tables; [exact Hk|repeat split]|].
  destruct ((POST_num_questions request <? 1) || (POST_num_questions request >? 50));
    [apply view_outcome_same_tables; [exact Hk|repeat split]|].
  destruct (negb (truthy (pdf_text_content doc)));
    [apply view_outcome_same_tables; [exact Hk|repeat split]|].
  destruct (quiz_create_then_attempt env request doc
              (text_of (POST_subject request)) (text_of (POST_difficulty request))
              (text_of (pdf_text_content doc)) w Hk)
    as (out & w' & Hrun & Hc & _ & Hk' & Hok').
  rewrite Hrun. exists out. cbn [fst snd]. split; [reflexivity|].
  split; [exact Hc|]. split; [exact Hk'|exact Hok'].
Qed.


(** The three views keep the database in order: what the theorems on
    submissions and on quiz creation assume of the database before a
    view runs is true of it afterwards. *)
Lemma views_keep_database_in_order (env : Env) (request : Request) (w : World) :
  answers_ok w -> keys_below w ->
  (answers_ok (snd (create_quiz_from_topic env request w)) /\
   keys_below (snd (create_quiz_from_topic env request w))) /\
  (forall pdf,
     answers_ok (snd (create_quiz env request pdf w)) /\
     keys_below (snd (create_quiz env request pdf w))) /\
  (forall key,
     answers_ok (snd (submit_quiz env request key w)) /\
     keys_below (snd (submit_quiz env request key w))).
Proof.
  intros Hok Hk. split; [|split].
  - destruct (topic_view_spec env request w Hk) as (out & _ & _ & Hk' & Hok').
    split; [exact (Hok' Hok)|exact Hk'].
  - intros pdf. destruct (pdf_view_spec env request pdf w Hk) as [H|H].
    + rewrite H. split; assumption.
    + destruct H as (out & _ & _ & Hk' & Hok'). split; [exact (Hok' Hok)|exact Hk'].
  - intros key.
    destruct (find (fun r => (quiz_id r =? key)
                             && (quiz_user r =? request_user request))
                   (quizzes w)) as [quiz|] eqn:Hfind.
    + destruct (is_post request) eqn:Hpost.
      * destruct (submit_quiz_spec env request key quiz w Hfind Hpost Hok)
          as (w1 & fb & w' & pk & _ & Hrun & _ & _ & _ & _ & _ & Hok' & Hk' & _).
        rewrite Hrun. split; [exact Hok'|exact (Hk' Hk)].
      * unfold submit_quiz, get_quiz_or_404.
        cbv beta iota delta [bind get_world]. rewrite Hfind.
        cbv beta iota delta [ret]. rewrite Hpost. split; assumption.
    + unfold submit_quiz, get_quiz_or_404.
      cbv beta iota delta [bind get_world]. rewrite Hfind.
      split; assumption.
Qed.

Lemma empty_world_keys : keys_below empty_world.
Proof. split; constructor. Qed.

(** Every database the views can produce is in order. *)
Lemma reachable_in_order (w : World) :
  reachable w -> answers_ok w /\ keys_below w.
Proof.
  induction 1 as [|env request w _ (Hok & Hk)|env request pdf w _ (Hok & Hk)
                  |env request key w _ (Hok & Hk)].
  - split; [exact empty_world_ok|exact empty_world_keys].
  - exact (proj1 (views_keep_database_in_order env request w Hok Hk)).
  - exact (proj1 (proj2 (views_keep_database_in_order env request w Hok Hk)) pdf).
  - exact (proj2 (proj2 (views_keep_database_in_order env request w Hok Hk)) key).
Qed.



(** C9 (the code at the failing input): no credential is configured and
    a quiz on a topic is requested.  The view reports the failure and
    deletes the quiz row, but the placeholder document it created for
    the topic stays in the database. *)
Theorem failed_topic_quiz_leaves_document :
  exists w' doc,
    create_quiz_from_topic (simple_env None (Reply [])) (topic_request 2)
      empty_world
      = (Returned (Redirect (py "dashboard") None), w') /\
    quizzes w' = [] /\ questions w' = [] /\
    user_answers w' = [] /\ results w' = [] /\
    llm_calls w' = [] /\
    pdf_documents empty_world = [] /\
    pdf_documents w' = [doc] /\
    pdf_title doc = py "Topic: Cells" /\ pdf_file doc = None.
Proof.
  do 2 eexists. split; [vm_compute; reflexivity|].
  cbn. repeat split.
Qed.

(* ================================================================= *)
(** * No validation at parse time *)



(* ================================================================= *)
(** * Arrays and objects wrapped in prose *)

Module ReMore.
Import Re.
Local Open Scope N_scope.

Lemma upto_last_complete :
  forall close mid post,
    ~ In close post ->
    upto_last close (mid ++ close :: post) = Some (mid ++ [close]).
Proof.
  intros close mid post Hn.
  assert (Hpost : upto_last close post = None).
  { induction post as [|y post IH]; [reflexivity|]. simpl.
    rewrite IH by (intros H; apply Hn; right; exact H).
    destruct (y =? close) eqn:E; [|reflexivity].
    apply N.eqb_eq in E. exfalso. apply Hn. left. exact E. }
  induction mid as [|x mid IH]; simpl.
  - rewrite Hpost, N.eqb_refl. reflexivity.
  - rewrite IH. reflexivity.
Qed.

(** The text from an [open] that no [open] precedes to a [close] that no
    [close] follows is the match. *)
Lemma search_complete :
  forall open close pre mid post,
    ~ In open pre -> ~ In close post ->
    search open close (pre ++ open :: mid ++ close :: post)
    = Some (open :: mid ++ [close]).
Proof.
  intros open close pre mid post Hp Hq.
  induction pre as [|x pre IH]; simpl.
  - rewrite N.eqb_refl, (upto_last_complete close mid post Hq). reflexivity.
  - destruct (x =? open) eqn:E.
    + apply N.eqb_eq in E. exfalso. apply Hp. left. exact E.
    + apply IH. intros H. apply Hp. right. exact H.
Qed.

End ReMore.

(** X1: a JSON array wrapped in prose is found.  When the answer of the
    model has no opening bracket before some opening bracket and no
    closing bracket after some later closing bracket, and the text from
    the one to the other decodes, [parse_quiz_response] returns the
    decoded value, which is a list, and changes nothing. *)
Theorem array_in_prose_is_extracted
  (env : Env) (pre mid post : str) (v : pyobj) (w : World) :
  ~ In (ch "[") pre -> ~ In (ch "]") post ->
  loads (ch "[" :: mid ++ [ch "]"]) = Some v ->
  parse_quiz_response env (pre ++ ch "[" :: mid ++ ch "]" :: post) w
    = (Returned v, w) /\
  exists items, v = PyList items.
Proof.
  intros Hp Hq Hl. unfold parse_quiz_response.
  rewrite (ReMore.search_complete (ch "[") (ch "]") pre mid post Hp Hq), Hl.
  split; [reflexivity|]. exact (JsonFacts.loads_bracket _ _ Hl).
Qed.

Lemma array_in_prose_is_extracted_witness :
  parse_quiz_response (simple_env None (Reply []))
    (py "Here is your quiz: " ++ ch "[" :: js "{'question': 'q'}" ++ ch "]" :: py " Enjoy!")
    empty_world
  = (Returned (PyList [PyDict [(py "question", PyStr (py "q"))]]), empty_world).
Proof.
  refine (proj1 (array_in_prose_is_extracted (simple_env None (Reply []))
                   (py "Here is your quiz: ") (js "{'question': 'q'}") (py " Enjoy!")
                   _ empty_world _ _ _)).
  - vm_compute. intuition discriminate.
  - vm_compute. intuition discriminate.
  - vm_compute. reflexivity.
Defined.

(** X2: a JSON object wrapped in prose is found.  When the text from the
    first opening brace to the last closing brace of the answer decodes,
    it decodes to an object, and [parse_feedback_response] returns the
    three feedback entries of that object, an entry the object lacks
    being the empty string. *)
Theorem object_in_prose_is_extracted
  (env : Env) (pre mid post : str) (v : pyobj) (w : World) :
  ~ In (ch "{") pre -> ~ In (ch "}") post ->
  loads (ch "{" :: mid ++ [ch "}"]) = Some v ->
  exists d,
    v = PyDict d /\
    parse_feedback_response env (pre ++ ch "{" :: mid ++ ch "}" :: post) w
    = (Returned (feedback_dict (get_or_empty d (py "strength_analysis"))
                               (get_or_empty d (py "weakness_analysis"))
                               (get_or_empty d (py "suggestions"))), w).
Proof.
  intros Hp Hq Hl. destruct (JsonFacts.loads_brace _ _ Hl) as (d & ->).
  exists d. split; [reflexivity|]. unfold parse_feedback_response.
  rewrite (ReMore.search_complete (ch "{") (ch "}") pre mid post Hp Hq), Hl.
  reflexivity.
Qed.

(* ================================================================= *)
(** * Where a decoded list comes from *)

Module JsonLists.
Import Json JsonFacts.
Local Open Scope nat_scope.
Local Close Scope Z_scope.

Lemma suffix_refl r : suffix r r.
Proof. exists []. reflexivity. Qed.

Lemma suffix_cons x r s : suffix r s -> suffix r (x :: s).
Proof. intros (c & ->). exists (x :: c). reflexivity. Qed.

Lemma suffix_trans a b c : suffix a b -> suffix b c -> suffix a c.
Proof. intros (x & ->) (y & ->). exists (y ++ x). apply app_assoc. Qed.

Lemma suffix_tail x r s : suffix (x :: r) s -> suffix r s.
Proof. intros (c & ->). exists (c ++ [x]). rewrite <- app_assoc. reflexivity. Qed.

Lemma suffix_length r s : suffix r s -> length r <= length s.
Proof. intros (c & ->). rewrite length_app. lia. Qed.

Lemma suffix_in x r s : suffix r s -> In x r -> In x s.
Proof. intros (c & ->) H. apply in_or_app. right. exact H. Qed.

Lemma skip_ws_suffix s : suffix (skip_ws s) s.
Proof.
  induction s as [|c s IH]; simpl; [apply suffix_refl|].
  destruct (is_ws c); [apply suffix_cons; exact IH|apply suffix_refl].
Qed.

Lemma skip_ws_eq_suffix s c r : skip_ws s = c :: r -> suffix r s.
Proof.
  intros H. apply (suffix_tail c). rewrite <- H. apply skip_ws_suffix.
Qed.

Lemma suffix_of_skip r s : suffix r (skip_ws s) -> suffix r s.
Proof. intros H. exact (suffix_trans _ _ _ H (skip_ws_suffix s)). Qed.

Ltac chain :=
  repeat match goal with
    | |- suffix ?r ?r => apply suffix_refl
    | H : suffix ?r ?s |- suffix ?r ?s => exact H
    | |- suffix ?r (_ :: ?s) => apply suffix_cons
    | |- suffix ?r (skip_ws ?s) => fail 1
    | H : suffix ?r ?x |- suffix ?r ?s => apply (suffix_trans r x s H); clear H
    end.

Lemma scanstring_suffix_n :
  forall n s acc v r,
    length s <= n -> scanstring acc s = Some (v, r) -> suffix r s.
Proof.
  induction n as [|n IH]; intros s acc v r Hn H.
  - destruct s; [discriminate | simpl in Hn; lia].
  - destruct s as [|c s]; [discriminate|].
    cbn [scanstring] in H. cbn [length] in *.
    repeat (first [ discriminate
                  | match type of H with Some _ = Some _ => injection H as <- <-; chain end
                  | match type of H with
                    | scanstring _ ?t = Some _ =>
                        apply IH in H; [chain | cbn [length] in *; lia]
                    end
                  | break_in H ]).
Qed.

Lemma scanstring_suffix :
  forall s acc v r, scanstring acc s = Some (v, r) -> suffix r s.
Proof. intros s acc v r H. exact (scanstring_suffix_n (length s) s acc v r (le_n _) H). Qed.

Lemma span_digits_suffix :
  forall s d r, span_digits s = (d, r) -> suffix r s.
Proof.
  induction s as [|c s IH]; simpl; intros d r H.
  - injection H as <- <-. apply suffix_refl.
  - destruct (is_digit c).
    + destruct (span_digits s) as [d' r'] eqn:E. injection H as <- <-.
      apply suffix_cons. exact (IH _ _ eq_refl).
    + injection H as <- <-. apply suffix_refl.
Qed.

Lemma starts_with_suffix :
  forall p s r, starts_with p s = Some r -> suffix r s.
Proof.
  induction p as [|x p IH]; intros s r H; simpl in H.
  - destruct s; injection H as <-; apply suffix_refl.
  - destruct s as [|y s]; [discriminate|].
    destruct (N.eqb x y); [|discriminate].
    apply suffix_cons. exact (IH _ _ H).
Qed.

Lemma match_number_suffix :
  forall s v r, match_number s = Some (v, r) -> suffix r s.
Proof.
  intros s v r H. unfold match_number in H.
  destruct (match s with [] => (false, s) | c :: r0 => if N.eqb c 45 then (true, r0) else (false, s) end)
    as [neg s1] eqn:E1.
  assert (L1 : suffix s1 s).
  { destruct s as [|c s']; [injection E1 as <- <-; apply suffix_refl|].
    destruct (N.eqb c 45); injection E1 as <- <-; chain. }
  destruct (match_int_part s1) as [[ip s2]|] eqn:E2; [|discriminate].
  assert (L2 : suffix s2 s1).
  { unfold match_int_part in E2. destruct s1 as [|c s1']; [discriminate|].
    destruct (N.eqb c 48); [injection E2 as <- <-; chain|].
    destruct (is_digit c); [|discriminate].
    destruct (span_digits s1') as [d r'] eqn:E. injection E2 as <- <-.
    apply span_digits_suffix in E. chain. }
  destruct (match_frac s2) as [fr s3] eqn:E3.
  assert (L3 : suffix s3 s2).
  { unfold match_frac in E3. destruct s2 as [|c [|d s2']];
      try (injection E3 as <- <-; chain).
    destruct (N.eqb c 46 && is_digit d)%bool; [|injection E3 as <- <-; chain].
    destruct (span_digits (d :: s2')) as [ds r'] eqn:E. injection E3 as <- <-.
    apply span_digits_suffix in E. chain. }
  destruct (match_exp s3) as [ex s4] eqn:E4.
  assert (L4 : suffix s4 s3).
  { unfold match_exp in E4. destruct s3 as [|e s3']; [injection E4 as <- <-; chain|].
    destruct (N.eqb e 101 || N.eqb e 69)%bool; [|injection E4 as <- <-; chain].
    destruct (match s3' with [] => ([], s3') | c :: r' => if (N.eqb c 43 || N.eqb c 45)%bool then ([c], r') else ([], s3') end)
      as [sign r1] eqn:Es.
    assert (suffix r1 s3').
    { destruct s3' as [|c r']; [injection Es as <- <-; chain|].
      destruct (N.eqb c 43 || N.eqb c 45)%bool; injection Es as <- <-; chain. }
    destruct (span_digits r1) as [ds r2] eqn:E. apply span_digits_suffix in E.
    destruct ds; injection E4 as <- <-; chain. }
  assert (suffix s4 s) by chain.
  destruct fr, ex; injection H as <- <-; assumption.
Qed.

Ltac suffix_facts :=
  repeat match goal with
    | H : scanstring _ _ = Some _ |- _ => apply scanstring_suffix in H
    | H : skip_ws ?s = ?c :: ?r |- _ =>
        pose proof (skip_ws_eq_suffix s c r H);
        assert (suffix (c :: r) s) by (rewrite <- H; apply skip_ws_suffix);
        clear H
    | H : starts_with _ _ = Some _ |- _ => apply starts_with_suffix in H
    | H : match_number _ = Some _ |- _ => apply match_number_suffix in H
    | H : suffix _ (skip_ws _) |- _ => apply suffix_of_skip in H
    end.

(** What the scanner leaves is the end of what it was given. *)
Lemma scan_suffix :
  forall f,
    (forall s v r, scan_once f s = Done v r -> suffix r s) /\
    (forall acc s v r, object_items f acc s = Done v r -> suffix r s) /\
    (forall acc s v r, array_items f acc s = Done v r -> suffix r s).
Proof.
  induction f as [|f (IHs & IHo & IHa)].
  - repeat split; intros; discriminate.
  - split; [|split].
    + intros s v r H. cbn [scan_once] in H.
      destruct s as [|c s']; [discriminate|].
      repeat (first [ discriminate
                    | match type of H with
                      | Done _ _ = Done _ _ =>
                          injection H as <- <-; suffix_facts; chain
                      | object_items _ _ _ = Done _ _ =>
                          apply IHo in H; suffix_facts; chain
                      | array_items _ _ _ = Done _ _ =>
                          apply IHa in H; suffix_facts; chain
                      end
                    | break_in H ]).
    + intros acc s v r H. cbn [object_items] in H.
      repeat (first [ discriminate
                    | match type of H with
                      | Done _ _ = Done _ _ =>
                          injection H as <- <-;
                          repeat match goal with
                            | E : scan_once _ _ = Done _ _ |- _ => apply IHs in E
                            end;
                          suffix_facts; chain
                      | object_items _ _ _ = Done _ _ =>
                          apply IHo in H;
                          repeat match goal with
                            | E : scan_once _ _ = Done _ _ |- _ => apply IHs in E
                            end;
                          suffix_facts; chain
                      end
                    | break_in H ]).
    + intros acc s v r H. cbn [array_items] in H.
      repeat (first [ discriminate
                    | match type of H with
                      | Done _ _ = Done _ _ =>
                          injection H as <- <-;
                          repeat match goal with
                            | E : scan_once _ _ = Done _ _ |- _ => apply IHs in E
                            end;
                          suffix_facts; chain
                      | array_items _ _ _ = Done _ _ =>
                          apply IHa in H;
                          repeat match goal with
                            | E : scan_once _ _ = Done _ _ |- _ => apply IHs in E
                            end;
                          suffix_facts; chain
                      end
                    | break_in H ]).
Qed.


Lemma bracketed_suffix r s : bracketed r -> suffix r s -> bracketed s.
Proof.
  intros (pre & post & -> & Hin) (c & ->).
  exists (c ++ pre), post. rewrite <- app_assoc. split; [reflexivity|exact Hin].
Qed.

Lemma match_number_no_list s v r :
  match_number s = Some (v, r) -> lists_inside v = false.
Proof.
  unfold match_number. intros H.
  repeat (first [ discriminate
                | match type of H with Some _ = Some _ => injection H as <- <-; reflexivity end
                | break_in H ]).
Qed.

Lemma dict_set_holds key v acc :
  holds_list (dict_set key v acc) = true ->
  is_list v = true \/ holds_list acc = true.
Proof.
  unfold holds_list. induction acc as [|[k x] acc IH]; cbn.
  - rewrite orb_false_r. auto.
  - destruct (str_eqb key k); cbn.
    + intros H. apply orb_true_iff in H. destruct H as [H|H]; [left; exact H|].
      right. rewrite H. apply orb_true_r.
    + intros H. apply orb_true_iff in H. destruct H as [H|H].
      * right. rewrite H. reflexivity.
      * destruct (IH H) as [G|G]; [left; exact G|].
        right. rewrite G. apply orb_true_r.
Qed.

(** A decoded list, or a list held by a decoded dict, was written with
    an opening bracket and, after it, a closing one. *)
Lemma scan_lists :
  forall f,
    (forall s v r, scan_once f s = Done v r -> lists_inside v = true ->
                   bracketed s) /\
    (forall acc s v r, object_items f acc s = Done v r ->
                       lists_inside v = true ->
                       holds_list acc = true \/ bracketed s) /\
    (forall acc s v r, array_items f acc s = Done v r -> In (ch "]") s).
Proof.
  induction f as [|f (IHs & IHo & IHa)].
  - repeat split; intros; discriminate.
  - destruct (scan_suffix f) as (Ss & So & Sa).
    split; [|split].
    + intros s v r H Hv. cbn [scan_once] in H.
      destruct s as [|c s']; [discriminate|].
      destruct (N.eqb c 34).
      { destruct (scanstring [] s') as [[x r']|]; [|discriminate].
        injection H as <- <-. discriminate. }
      destruct (N.eqb c 123).
      { destruct (skip_ws s') as [|c' r'] eqn:E; [discriminate|].
        assert (Hsuf : suffix (c' :: r') s')
          by (rewrite <- E; apply skip_ws_suffix).
        destruct (N.eqb c' 125); [injection H as <- <-; discriminate|].
        destruct (IHo _ _ _ _ H Hv) as [G|G]; [discriminate|].
        exact (bracketed_suffix _ _ G (suffix_cons c _ _ Hsuf)). }
      destruct (N.eqb c 91) eqn:Ec.
      { apply N.eqb_eq in Ec. subst c.
        destruct (skip_ws s') as [|c' r'] eqn:E; [discriminate|].
        assert (Hsuf : suffix (c' :: r') s')
          by (rewrite <- E; apply skip_ws_suffix).
        exists [], s'. split; [reflexivity|].
        apply (suffix_in _ _ _ Hsuf).
        destruct (N.eqb c' 93) eqn:Ec'.
        - apply N.eqb_eq in Ec'. left. exact Ec'.
        - exact (IHa _ _ _ _ H). }
      repeat (first [ discriminate
                    | match type of H with
                      | Done _ _ = Done _ _ => injection H as <- <-; discriminate
                      end
                    | match goal with
                      | E : match_number _ = Some _ |- _ =>
                          injection H as <- <-;
                          rewrite (match_number_no_list _ _ _ E) in Hv; discriminate
                      end
                    | break_in H ]).
    + intros acc s v r H Hv. cbn [object_items] in H.
      destruct s as [|c r0]; [discriminate|].
      destruct (N.eqb c 34); [|discriminate].
      destruct (scanstring [] r0) as [[key r1]|] eqn:E1; [|discriminate].
      destruct (skip_ws r1) as [|c1 r2] eqn:E2; [discriminate|].
      destruct (N.eqb c1 58); [|discriminate].
      destruct (scan_once f (skip_ws r2)) as [v0 r3| |] eqn:E3; try discriminate.
      destruct (skip_ws r3) as [|c3 r4] eqn:E4; [discriminate|].
      assert (S0 : suffix (skip_ws r2) (c :: r0)).
      { apply scanstring_suffix in E1. apply skip_ws_eq_suffix in E2.
        apply suffix_cons.
        exact (suffix_trans _ _ _ (skip_ws_suffix r2) (suffix_trans _ _ _ E2 E1)). }
      assert (Hval : is_list v0 = true -> bracketed (c :: r0)).
      { intros Hl. apply (bracketed_suffix (skip_ws r2)); [|exact S0].
        apply (IHs _ _ _ E3). destruct v0; try discriminate. reflexivity. }
      assert (S4 : suffix (skip_ws r4) (c :: r0)).
      { apply Ss in E3. apply skip_ws_eq_suffix in E4.
        exact (suffix_trans _ _ _ (skip_ws_suffix r4)
                 (suffix_trans _ _ _ E4 (suffix_trans _ _ _ E3 S0))). }
      destruct (N.eqb c3 125).
      * injection H as <- <-. cbn [lists_inside] in Hv.
        destruct (dict_set_holds _ _ _ Hv) as [G|G]; [right; exact (Hval G)|left; exact G].
      * destruct (N.eqb c3 44); [|discriminate].
        destruct (IHo _ _ _ _ H Hv) as [G|G].
        -- destruct (dict_set_holds _ _ _ G) as [G'|G'];
             [right; exact (Hval G')|left; exact G'].
        -- right. exact (bracketed_suffix _ _ G S4).
    + intros acc s v r H. cbn [array_items] in H.
      destruct (scan_once f s) as [v0 r1| |] eqn:E1; try discriminate.
      destruct (skip_ws r1) as [|c r2] eqn:E2; [discriminate|].
      apply Ss in E1.
      assert (S1 : suffix (c :: r2) s).
      { apply (suffix_trans _ r1); [|exact E1]. rewrite <- E2. apply skip_ws_suffix. }
      destruct (N.eqb c 93) eqn:Ec.
      * apply N.eqb_eq in Ec. apply (suffix_in _ _ _ S1). left. exact Ec.
      * destruct (N.eqb c 44); [|discriminate].
        apply IHa in H. apply (suffix_in _ (skip_ws r2)); [|exact H].
        exact (suffix_trans _ _ _ (skip_ws_suffix r2) (suffix_tail _ _ _ S1)).
Qed.

Lemma loads_lists s v :
  loads s = Some v -> lists_inside v = true -> bracketed s.
Proof.
  unfold loads. intros H Hv.
  destruct (scan_once (budget s) (skip_ws s)) as [v0 r| |] eqn:E; try discriminate.
  destruct (skip_ws r); [|discriminate]. injection H as ->.
  apply (bracketed_suffix (skip_ws s)); [|apply skip_ws_suffix].
  exact (proj1 (scan_lists (budget s)) _ _ _ E Hv).
Qed.

End JsonLists.

Lemma no_match_not_bracketed (s : str) :
  Re.search (ch "[") (ch "]") s = None -> ~ bracketed s.
Proof.
  intros H (pre & post & E & Hin).
  exact (ReFacts.search_none _ _ _ H pre post E Hin).
Qed.

Lemma dict_get_holds k d x :
  dict_get k d = Some x -> is_list x = true -> holds_list d = true.
Proof.
  unfold holds_list. induction d as [|[k' v] d IH]; cbn; [discriminate|].
  destruct (str_eqb k k').
  - intros [= ->] H. rewrite H. reflexivity.
  - intros H1 H2. rewrite (IH H1 H2). apply orb_true_r.
Qed.

(** On the whole-text path the parser of questions never returns a list. *)
Lemma whole_text_gives_no_list (env : Env) (response : str) (w : World) v w' :
  Re.search (ch "[") (ch "]") response = None ->
  parse_quiz_response env response w = (Returned v, w') ->
  is_list v = false.
Proof.
  intros Hs H. unfold parse_quiz_response in H. rewrite Hs in H.
  destruct (loads response) as [data|] eqn:El.
  2:{ rewrite quiz_decode_error_run in H. discriminate. }
  destruct data; try discriminate. unfold py_get, ret in H.
  destruct (dict_get (py "questions") items) as [x|] eqn:Eg;
    injection H as <- _; [|reflexivity].
  destruct (is_list x) eqn:Ev; [|reflexivity]. exfalso.
  apply (no_match_not_bracketed response Hs).
  apply (JsonLists.loads_lists _ _ El).
  exact (dict_get_holds _ _ _ Eg Ev).
Qed.

(* ================================================================= *)
(** * The shape of a creation *)

Section CreationShape.

Variable env : Env.
Variable request : Request.

Lemma quiz_create_run (doc : PDFDocument) (subject difficulty : str) (v : World) :
  Quiz_create (request_user request) doc subject difficulty
    (POST_num_questions request) v
  = (Returned (new_quiz request doc subject difficulty v),
     set_quizzes (set_next_pk v (next_pk v + 1))
       (quizzes v ++ [new_quiz request doc subject difficulty v])).
Proof. reflexivity. Qed.

Lemma quiz_create_attempt (doc : PDFDocument) (subject difficulty : str) (v : World) :
  attempt (next_pk v) (next_pk v + 1) (pdf_documents v) (quizzes v)
    (questions v) (user_answers v) (results v)
    (new_quiz request doc subject difficulty v) []
    (set_quizzes (set_next_pk v (next_pk v + 1))
       (quizzes v ++ [new_quiz request doc subject difficulty v])).
Proof.
  split;
    [ reflexivity | reflexivity | cbn; rewrite app_nil_r; reflexivity
    | reflexivity | reflexivity | reflexivity | cbn; lia | constructor
    | constructor ].
Qed.

Lemma creation_shape
  (doc : PDFDocument) (subject difficulty text : str) (v : World) :
  keys_below v ->
  exists out w',
    (quiz <- Quiz_create (request_user request) doc subject difficulty
               (POST_num_questions request) ;;
     early <- try_except
                (generate_and_save env quiz text subject difficulty
                   (POST_num_questions request) ;;; ret None)
                (fun e => r <- generation_failed quiz e ;; ret (Some r)) ;;
     match early with
     | Some r => ret r
     | None => ret (Redirect (py "take_quiz") (Some (quiz_id quiz)))
     end)%monad v = (Returned out, w') /\
    creation_result (new_quiz request doc subject difficulty v) out v w'.
Proof.
  intros [K1 K2 K3 K4].
  set (quiz := new_quiz request doc subject difficulty v).
  pose proof (quiz_create_attempt doc subject difficulty v) as Hs.
  fold quiz in Hs.
  destruct (creation_attempt env quiz (next_pk v + 1) (pdf_documents v)
              (quizzes v) (questions v) (user_answers v) (results v))
    with (text := text) (subject := subject) (difficulty := difficulty)
         (n := POST_num_questions request)
         (w := set_quizzes (set_next_pk v (next_pk v + 1)) (quizzes v ++ [quiz]))
    as (early & w' & Hrun & Hcases).
  - eapply Forall_impl; [|exact K1]. unfold quiz. cbn. intros r. lia.
  - eapply Forall_impl; [|exact K2]. unfold quiz. cbn. intros r. lia.
  - eapply Forall_impl; [|exact K3]. unfold quiz. cbn. intros r. lia.
  - eapply Forall_impl; [|exact K4]. unfold quiz. cbn. intros r. lia.
  - exact Hs.
  - unfold bind at 1. rewrite quiz_create_run. fold quiz.
    unfold bind at 1. rewrite Hrun.
    destruct Hcases as [(-> & rows & data & items & Hst & _)
                       |(-> & H1 & H2 & H3 & H4 & H5 & H6)].
    + do 2 eexists. split; [reflexivity|].
      destruct Hst as [A1 A2 A3 A4 A5 A6 A7 A8 A9].
      split; [exact A1|]. split; [exact A4|]. split; [exact A5|].
      split; [lia|]. right. split; [reflexivity|].
      exists rows. split; [exact A2|]. split; [exact A3|]. split; [|exact A9].
      eapply Forall_impl; [|exact A8]. unfold quiz. cbn. intros r. lia.
    + do 2 eexists. split; [reflexivity|].
      split; [exact H1|]. split; [exact H4|]. split; [exact H5|].
      split; [lia|]. left. repeat split; assumption.
Qed.

End CreationShape.

(* ================================================================= *)
(** * Answers without brackets *)

Section NoBrackets.

Variable env : Env.
Hypothesis no_brackets : never_bracketed env.

Lemma generated_is_no_list text subject difficulty n w data w' :
  generate_quiz_questions env text subject difficulty n w = (Returned data, w') ->
  is_list data = false.
Proof.
  unfold generate_quiz_questions, QuizGenerator_init.
  destruct (key_rejected (api_key env)); [discriminate|].
  cbv beta iota zeta delta [bind ret modify invoke generate_questions model raise].
  destruct (llm_invoke env (py "gemini-2.5-flash")
              (generate_quiz_prompt text subject difficulty n)) as [reply|cause] eqn:El;
    [|discriminate].
  intros H. exact (whole_text_gives_no_list env reply _ _ _ (no_brackets _ _ _ El) H).
Qed.

Lemma save_questions_no_list quiz data w :
  is_list data = false ->
  save_questions env quiz data w = (Returned tt, w) \/
  exists e, save_questions env quiz data w = (Raised e, w).
Proof.
  intros Hl. destruct data as [| | | |s|l|d]; try discriminate;
    try (right; eexists; reflexivity).
  - destruct s as [|c s]; [left; reflexivity|right; eexists; reflexivity].
  - destruct d as [|[k x] d]; [left; reflexivity|right; eexists; reflexivity].
Qed.

Variable quiz : Quiz.
Variables (pk0 : Z) (PD : list PDFDocument) (Q : list Quiz)
          (QS : list Question) (UA : list UserAnswer) (RS : list Result).

Hypothesis other_quizzes : Forall (fun r => quiz_id r <> quiz_id quiz) Q.
Hypothesis other_questions : Forall (fun r => question_quiz r <> quiz_id quiz) QS.
Hypothesis other_answers :
  Forall (fun r => answer_quiz r <> quiz_id quiz /\ answer_question r < pk0) UA.
Hypothesis other_results : Forall (fun r => result_quiz r <> quiz_id quiz) RS.

Lemma attempt_without_brackets text subject difficulty n w :
  attempt (quiz_id quiz) pk0 PD Q QS UA RS quiz [] w ->
  questions
    (snd (try_except
            (generate_and_save env quiz text subject difficulty n ;;; ret None)%monad
            (fun e => r <- generation_failed quiz e ;; ret (Some r))%monad w))
  = QS.
Proof.
  intros Hs.
  assert (Hfail : forall qz rows e w0,
            attempt (quiz_id quiz) pk0 PD Q QS UA RS qz rows w0 ->
            questions (snd ((r <- generation_failed quiz e ;; ret (Some r))%monad w0))
            = QS).
  { intros qz rows e w0 Hs0.
    destruct (generation_failed_restores quiz pk0 PD Q QS UA RS other_quizzes
                other_questions other_answers other_results qz rows e w0 Hs0)
      as (w' & Hrun & _ & _ & H3 & _).
    unfold bind. rewrite Hrun. exact H3. }
  cbv beta iota zeta delta [try_except generate_and_save bind].
  pose proof (generate_quiz_questions_tables env text subject difficulty n w) as Hg.
  destruct (generate_quiz_questions env text subject difficulty n w)
    as [[data|e] w1] eqn:Eg; cbn [snd] in Hg.
  2:{ apply (Hfail quiz []). exact (attempt_same_tables _ _ _ _ _ _ _ _ _ _ _ Hs Hg). }
  pose proof (attempt_same_tables _ _ _ _ _ _ _ _ _ _ _ Hs Hg) as Hs1.
  destruct (save_questions_no_list quiz data w1 (generated_is_no_list _ _ _ _ _ _ _ Eg))
    as [Hsave|(e & Hsave)]; rewrite Hsave.
  2:{ exact (Hfail quiz [] e w1 Hs1). }
  pose proof (quiz_save_attempt quiz pk0 PD Q QS UA RS other_quizzes [] w1 Hs1) as Hs3.
  change {| quiz_id := quiz_id quiz; quiz_user := quiz_user quiz;
            quiz_pdf := quiz_pdf quiz; quiz_subject := quiz_subject quiz;
            quiz_difficulty := quiz_difficulty quiz;
            number_of_questions := number_of_questions quiz;
            is_completed := true |} with (completed quiz).
  assert (Hrun3 : Quiz_save (completed quiz) w1
                  = (Returned tt, snd (Quiz_save (completed quiz) w1)))
    by reflexivity.
  rewrite Hrun3.
  set (w3 := snd (Quiz_save (completed quiz) w1)) in *.
  destruct (py_len data w3) as [[k|e] w4] eqn:El.
  - assert (w4 = w3) as ->
      by (destruct data; cbv [py_len ret raise] in El; congruence).
    cbv beta iota delta [messages_success modify ret]. world_simpl.
    destruct Hs3 as [_ _ A3 _ _ _ _ _ _]. rewrite A3. apply app_nil_r.
  - assert (w4 = w3) as ->
      by (destruct data; cbv [py_len ret raise] in El; congruence).
    exact (Hfail (completed quiz) [] e w3 Hs3).
Qed.

End NoBrackets.

Lemma composite_without_brackets (env : Env) (request : Request)
  (doc : PDFDocument) (subject difficulty text : str) (v : World) :
  never_bracketed env -> keys_below v ->
  questions
    (snd ((quiz <- Quiz_create (request_user request) doc subject difficulty
                     (POST_num_questions request) ;;
           early <- try_except
                      (generate_and_save env quiz text subject difficulty
                         (POST_num_questions request) ;;; ret None)
                      (fun e => r <- generation_failed quiz e ;; ret (Some r)) ;;
           match early with
           | Some r => ret r
           | None => ret (Redirect (py "take_quiz") (Some (quiz_id quiz)))
           end)%monad v))
  = questions v.
Proof.
  intros Hnb [K1 K2 K3 K4].
  set (quiz := new_quiz request doc subject difficulty v).
  pose proof (quiz_create_attempt request doc subject difficulty v) as Hs.
  fold quiz in Hs.
  unfold bind at 1. rewrite quiz_create_run. fold quiz.
  unfold bind at 1.
  match goal with |- context [try_except ?b ?h ?w] =>
    pose proof (attempt_without_brackets env Hnb quiz (next_pk v + 1)
                  (pdf_documents v) (quizzes v) (questions v) (user_answers v)
                  (results v)) as H;
    destruct (try_except b h w) as [[early|e] w'] eqn:Erun
  end.
  - assert (Hq : questions w' = questions v).
    { specialize (H ltac:(eapply Forall_impl; [|exact K1]; unfold quiz; cbn; intros r; lia)
                    ltac:(eapply Forall_impl; [|exact K2]; unfold quiz; cbn; intros r; lia)
                    ltac:(eapply Forall_impl; [|exact K3]; unfold quiz; cbn; intros r; lia)
                    ltac:(eapply Forall_impl; [|exact K4]; unfold quiz; cbn; intros r; lia)
                    text subject difficulty (POST_num_questions request) _ Hs).
      rewrite Erun in H. exact H. }
    destruct early; exact Hq.
  - specialize (H ltac:(eapply Forall_impl; [|exact K1]; unfold quiz; cbn; intros r; lia)
                  ltac:(eapply Forall_impl; [|exact K2]; unfold quiz; cbn; intros r; lia)
                  ltac:(eapply Forall_impl; [|exact K3]; unfold quiz; cbn; intros r; lia)
                  ltac:(eapply Forall_impl; [|exact K4]; unfold quiz; cbn; intros r; lia)
                  text subject difficulty (POST_num_questions request) _ Hs).
    rewrite Erun in H. exact H.
Qed.

(** X3: the fallback of [parse_quiz_response] that decodes the whole
    answer never leads to a stored question.  When no answer of the
    model holds an opening bracket with a closing bracket after it, both
    creation views leave the table of questions as it was. *)
Theorem no_brackets_no_questions (env : Env) (request : Request) (w : World) :
  never_bracketed env -> keys_below w ->
  questions (snd (create_quiz_from_topic env request w)) = questions w /\
  forall pdf, questions (snd (create_quiz env request pdf w)) = questions w.
Proof.
  intros Hnb Hk. split.
  - unfold create_quiz_from_topic.
    destruct (is_post request); [|reflexivity].
    destruct (negb (truthy (POST_topic request))); [reflexivity|].
    destruct (bad_difficulty (POST_difficulty request)); [reflexivity|].
    destruct ((POST_num_questions request <? 1) || (POST_num_questions request >? 50));
      [reflexivity|].
    unfold bind at 1.
    set (title := py "Topic: " ++ text_of (POST_topic request)).
    set (doc := {| pdf_id := next_pk w; pdf_user := request_user request;
                   pdf_title := title; pdf_file := None;
                   pdf_text_content := Some title |}).
    set (v := set_documents (set_next_pk w (next_pk w + 1))
                (pdf_documents (set_next_pk w (next_pk w + 1)) ++ [doc])).
    assert (Hdoc : PDFDocument_create (request_user request) title None
                     (Some title) w = (Returned doc, v)) by reflexivity.
    rewrite Hdoc.
    assert (Hkv : keys_below v).
    { destruct Hk as [K1 K2 K3 K4]. split; cbn.
      - eapply Forall_impl; [|exact K1]. cbn. intros r. lia.
      - eapply Forall_impl; [|exact K2]. cbn. intros r. lia.
      - eapply Forall_impl; [|exact K3]. cbn. intros r. lia.
      - eapply Forall_impl; [|exact K4]. cbn. intros r. lia. }
    exact (composite_without_brackets env request doc _ _ _ v Hnb Hkv).
  - intros pdf. unfold create_quiz.
    pose proof (get_document_run pdf (request_user request) w) as Hget.
    destruct (find _ (pdf_documents w)) as [doc|].
    2:{ rewrite (bind_raised _ _ w _ w Hget). reflexivity. }
    rewrite (bind_returned _ _ w doc w Hget).
    destruct (is_post request); [|reflexivity].
    destruct (negb (truthy (POST_subject request))); [reflexivity|].
    destruct (bad_difficulty (POST_difficulty request)); [reflexivity|].
    destruct ((POST_num_questions request <? 1) || (POST_num_questions request >? 50));
      [reflexivity|].
    destruct (negb (truthy (pdf_text_content doc))); [reflexivity|].
    exact (composite_without_brackets env request doc _ _ _ w Hnb Hk).
Qed.

Lemma no_brackets_no_questions_witness :
  questions (snd (create_quiz_from_topic
                    (simple_env (Some (py "key")) (Reply (js "{'questions': {'question': 'q'}}")))
                    (topic_request 1) empty_world)) = [].
Proof.
  refine (proj1 (no_brackets_no_questions
                   (simple_env (Some (py "key")) (Reply (js "{'questions': {'question': 'q'}}")))
                   (topic_request 1) empty_world _ empty_world_keys)).
  intros model prompt text [= <-]. vm_compute. reflexivity.
Defined.

(* ================================================================= *)
(** * The length of the prompts *)

Lemma fold_join_length (ls : list str) :
  forall l,
    length (fold_left (fun acc x => acc ++ 10%N :: x) ls l)
    = (length l + fold_right (fun x a => S (length x) + a) 0 ls)%nat.
Proof.
  induction ls as [|x ls IH]; intros l; cbn [fold_left fold_right];
    [apply plus_n_O|].
  rewrite IH, length_app. cbn [length]. symmetry. apply Nat.add_assoc.
Qed.

(** X4: the quiz prompt depends on the first 5000 characters of the text
    only, and it is as long as the prompt for the empty text plus the
    length of the text, 5000 at most. *)
Theorem quiz_prompt_holds_5000_characters
  (pdf_text subject difficulty : str) (n : Z) :
  (forall other, firstn 5000 other = firstn 5000 pdf_text ->
     generate_quiz_prompt other subject difficulty n
     = generate_quiz_prompt pdf_text subject difficulty n) /\
  length (generate_quiz_prompt pdf_text subject difficulty n)
  = (length (generate_quiz_prompt [] subject difficulty n)
     + Nat.min 5000 (length pdf_text))%nat /\
  (length (generate_quiz_prompt pdf_text subject difficulty n)
   <= length (generate_quiz_prompt [] subject difficulty n) + 5000)%nat.
Proof.
  assert (L : length (generate_quiz_prompt pdf_text subject difficulty n)
              = (length (generate_quiz_prompt [] subject difficulty n)
                 + Nat.min 5000 (length pdf_text))%nat).
  { unfold generate_quiz_prompt, join_lines, prefix.
    rewrite !fold_join_length. cbn [fold_right].
    rewrite firstn_nil, length_firstn. cbn [length]. lia. }
  split; [|split; [exact L|lia]].
  intros other H. unfold generate_quiz_prompt, prefix. rewrite H. reflexivity.
Qed.

Lemma index_text_short (i : Z) : 1 <= i <= 10 -> (length (str_of_int i) <= 2)%nat.
Proof.
  intros H.
  assert (C : i = 1 \/ i = 2 \/ i = 3 \/ i = 4 \/ i = 5 \/ i = 6 \/ i = 7 \/
              i = 8 \/ i = 9 \/ i = 10) by lia.
  repeat (destruct C as [->|C]; [vm_compute; lia|]). subst i. vm_compute. lia.
Qed.

Lemma summary_lines_length (items : list AnswerSummary) :
  forall start acc,
    1 <= start -> start + Z.of_nat (length items) <= 11 ->
    (length
       (fold_left
          (fun acc ia =>
             let status :=
               if summary_is_correct (snd ia)
               then 10003%N :: py " Correct"
               else 10007%N :: py " Wrong" in
             acc ++ str_of_int (fst ia) ++ py ". "
                 ++ prefix 100 (summary_question (snd ia))
                 ++ py "... - " ++ status ++ [10%N])
          (enumerate items start) acc)
     <= length acc + 120 * length items)%nat.
Proof.
  induction items as [|x items IH]; intros start acc H1 H2;
    cbn [enumerate fold_left length]; [lia|].
  cbn [length] in H2.
  etransitivity; [apply IH; lia|].
  cbn [fst snd]. rewrite !length_app. unfold prefix.
  pose proof (index_text_short start ltac:(lia)).
  pose proof (firstn_le_length 100 (summary_question x)).
  destruct (summary_is_correct x); cbn [length py map String.list_ascii_of_string];
    cbn [length]; lia.
Qed.

(** X5: the feedback prompt lists the first ten answers only: the
    summary of the answers is the summary of the first ten, it has at
    most 1200 characters, and the prompt is the one for the first ten
    answers. *)
Theorem answers_summary_is_bounded (env : Env) (user_answers : list AnswerSummary) :
  answers_summary user_answers = answers_summary (firstn 10 user_answers) /\
  (length (answers_summary user_answers) <= 1200)%nat /\
  forall subject total right wrong difficulty,
    generate_feedback_prompt env subject total right wrong user_answers difficulty
    = generate_feedback_prompt env subject total right wrong
        (firstn 10 user_answers) difficulty.
Proof.
  assert (E : answers_summary user_answers = answers_summary (firstn 10 user_answers)).
  { unfold answers_summary. rewrite firstn_firstn. reflexivity. }
  split; [exact E|]. split.
  - unfold answers_summary.
    pose proof (firstn_le_length 10 user_answers) as L.
    etransitivity; [apply summary_lines_length; lia|]. cbn [length]. lia.
  - intros. unfold generate_feedback_prompt. rewrite E. reflexivity.
Qed.

(* ================================================================= *)
(** * The range of the stored percentage *)






(* ================================================================= *)
(** * Reading a PDF *)

Lemma read_pages_texts (texts : list str) :
  forall acc,
    read_pages (map PageText texts) acc = inl (acc ++ filter has_text texts).
Proof.
  induction texts as [|t texts IH]; intros acc; cbn [map read_pages filter].
  - rewrite app_nil_r. reflexivity.
  - rewrite IH. destruct t; cbn [has_text]; [reflexivity|].
    rewrite <- app_assoc. reflexivity.
Qed.

Lemma read_pages_error (texts : list str) (cause : str) (rest : list page) :
  forall acc,
    read_pages (map PageText texts ++ PageError cause :: rest) acc = inr cause.
Proof.
  induction texts as [|t texts IH]; intros acc; cbn [map app read_pages].
  - reflexivity.
  - apply IH.
Qed.

(** X7: [extract_text_from_pdf] joins the texts of the pages that have
    text with newlines, so that pages without text leave no trace; when
    a page or the reader raises, it prints the cause and raises
    [ValueError] with the cause after a fixed prefix. *)
Theorem extract_text_skips_empty_pages (w : World) :
  (forall texts,
     extract_text_from_pdf (Pages (map PageText texts)) w
     = (Returned (join_lines (filter has_text texts)), w)) /\
  (forall texts,
     extract_text_from_pdf (Pages (map PageText texts)) w
     = extract_text_from_pdf (Pages (map PageText (filter has_text texts))) w) /\
  (forall texts cause rest,
     extract_text_from_pdf
       (Pages (map PageText texts ++ PageError cause :: rest)) w
     = (Raised (Exn ValueError (py "Failed to extract text from PDF: " ++ cause)),
        set_stdout w (stdout w ++ [py "Error extracting PDF text: " ++ cause]))) /\
  (forall cause,
     extract_text_from_pdf (Unreadable cause) w
     = (Raised (Exn ValueError (py "Failed to extract text from PDF: " ++ cause)),
        set_stdout w (stdout w ++ [py "Error extracting PDF text: " ++ cause]))).
Proof.
  assert (H : forall texts,
            extract_text_from_pdf (Pages (map PageText texts)) w
            = (Returned (join_lines (filter has_text texts)), w)).
  { intros texts. unfold extract_text_from_pdf, page_texts.
    rewrite read_pages_texts. reflexivity. }
  split; [exact H|]. split; [|split].
  - intros texts. rewrite !H. f_equal. f_equal. f_equal.
    induction texts as [|t texts IH]; cbn [filter]; [reflexivity|].
    destruct (has_text t) eqn:E; cbn [filter]; [rewrite E, <- IH|]; auto.
  - intros texts cause rest. unfold extract_text_from_pdf, page_texts.
    rewrite read_pages_error. reflexivity.
  - reflexivity.
Qed.

(** X8: every exception of [extract_text_from_pdf_file] is a
    [ValueError] whose message starts with the prefix of this function;
    the text of a file that can be read is returned as
    [extract_text_from_pdf] gives it, and a failure of the extraction is
    wrapped twice and printed twice. *)
Theorem extract_text_from_pdf_file_wraps_failures
  (file_path : opened_file) (w : World) :
  (forall e w', extract_text_from_pdf_file file_path w = (Raised e, w') ->
     kind e = ValueError /\
     exists cause, message e = py "Failed to read PDF file: " ++ cause) /\
  (forall reading text w',
     file_path = Opened reading ->
     extract_text_from_pdf reading w = (Returned text, w') ->
     extract_text_from_pdf_file file_path w = (Returned text, w')) /\
  (forall reading cause,
     file_path = Opened reading ->
     page_texts reading = inr cause ->
     extract_text_from_pdf_file file_path w
     = (Raised (Exn ValueError
                  (py "Failed to read PDF file: "
                   ++ py "Failed to extract text from PDF: " ++ cause)),
        set_stdout w
          (stdout w ++ [py "Error extracting PDF text: " ++ cause;
                        py "Error reading PDF file: "
                        ++ py "Failed to extract text from PDF: " ++ cause]))).
Proof.
  split; [|split].
  - intros e w' H. destruct file_path as [cause|reading].
    + injection H as <- _. split; [reflexivity|]. exists cause. reflexivity.
    + unfold extract_text_from_pdf_file, try_except, extract_text_from_pdf in H.
      destruct (page_texts reading) as [texts|cause].
      * discriminate.
      * injection H as <- _. split; [reflexivity|]. eexists. reflexivity.
  - intros reading text w' -> H. unfold extract_text_from_pdf_file, try_except.
    rewrite H. reflexivity.
  - intros reading cause -> H.
    unfold extract_text_from_pdf_file, try_except, extract_text_from_pdf.
    rewrite H. cbv beta iota delta [bind print modify raise message].
    unfold set_stdout. cbn. rewrite <- app_assoc. reflexivity.
Qed.

Lemma extract_text_from_pdf_file_wraps_failures_witness :
  extract_text_from_pdf_file
    (Opened (Pages [PageText (py "one"); PageError (py "broken xref")]))
    empty_world
  = (Raised (Exn ValueError
               (py "Failed to read PDF file: Failed to extract text from PDF: broken xref")),
     set_stdout empty_world
       [py "Error extracting PDF text: broken xref";
        py "Error reading PDF file: Failed to extract text from PDF: broken xref"]).
Proof.
  exact (proj2 (proj2 (extract_text_from_pdf_file_wraps_failures
                         (Opened (Pages [PageText (py "one"); PageError (py "broken xref")]))
                         empty_world))
           _ (py "broken xref") eq_refl eq_refl).
Defined.

(* ================================================================= *)
(** * Uploads *)

Lemma upload_pdf_accepted (request : Request) (upload : UploadedFile)
  (POST_title : option str) (w : World) :
  is_post request = true -> is_pdf_name (file_name upload) = true ->
  documents_below w ->
  exists warning w',
    upload_pdf request (Some upload) POST_title w
      = (Returned (Redirect (py "dashboard") None, warning), w') /\
    pdf_documents w'
      = pdf_documents w ++ [uploaded_document request upload POST_title w] /\
    quizzes w' = quizzes w /\ questions w' = questions w /\
    user_answers w' = user_answers w /\ results w' = results w /\
    next_pk w' = next_pk w + 1 /\ llm_calls w' = llm_calls w /\
    last_result_id w' = last_result_id w /\
    (warning = None <->
     exists text_content, page_texts (file_reading upload) = inl text_content).
Proof.
  intros Hpost Hname Hbelow. unfold upload_pdf. rewrite Hpost, Hname. cbn [negb].
  unfold uploaded_document.
  cbv beta iota zeta delta [bind PDFDocument_create fresh_pk modify ret
                            try_except extract_text_from_pdf].
  destruct (page_texts (file_reading upload)) as [texts|cause].
  - cbv beta iota zeta delta [bind PDFDocument_save messages_success modify ret].
    world_simpl. cbn [pdf_id pdf_user pdf_title pdf_file].
    rewrite existsb_app. cbn [existsb pdf_id]. rewrite Z.eqb_refl, orb_true_r.
    do 2 eexists. split; [reflexivity|]. world_simpl.
    split.
    { rewrite map_app. cbn [map pdf_id]. rewrite Z.eqb_refl. f_equal.
      apply map_id_on. intros r Hr. unfold documents_below in Hbelow.
      rewrite Forall_forall in Hbelow. specialize (Hbelow r Hr).
      destruct (pdf_id r =? next_pk w) eqn:E; [|reflexivity].
      apply Z.eqb_eq in E. lia. }
    repeat (split; [reflexivity|]).
    split; [intros _; eexists; reflexivity|reflexivity].
  - cbv beta iota zeta delta [bind print logger_error modify ret raise].
    do 2 eexists. split; [reflexivity|]. world_simpl.
    repeat (split; [reflexivity|]).
    split; [discriminate|intros (t & [=])].
Qed.

Lemma upload_pdf_refused (request : Request) (files : option UploadedFile)
  (POST_title : option str) (w : World) :
  is_post request = false \/ files = None \/
  (exists upload, files = Some upload /\ is_pdf_name (file_name upload) = false) ->
  exists w',
    upload_pdf request files POST_title w
      = (Returned (Redirect (py "dashboard") None, None), w') /\
    same_tables w w' /\ llm_calls w' = llm_calls w /\
    last_result_id w' = last_result_id w.
Proof.
  intros H. unfold upload_pdf.
  destruct (is_post request).
  - destruct H as [H|[->|(upload & -> & Hn)]]; [discriminate| |].
    + eexists. split; [reflexivity|]. repeat split.
    + rewrite Hn. eexists. split; [reflexivity|]. repeat split.
  - eexists. split; [reflexivity|]. repeat split.
Qed.

(* ================================================================= *)
(** * Deleting a quiz *)

Lemma Forall_filter_keep {A} (P : A -> Prop) (f : A -> bool) (l : list A) :
  Forall P l -> Forall P (filter f l).
Proof.
  intros H. apply Forall_forall. intros x Hx. apply filter_In in Hx.
  rewrite Forall_forall in H. apply H. tauto.
Qed.

Lemma NoDup_map_filter {A B} (g : A -> B) (f : A -> bool) (l : list A) :
  NoDup (map g l) -> NoDup (map g (filter f l)).
Proof.
  induction l as [|x l IH]; cbn; intros H; [constructor|].
  inversion H as [|? ? Hn Hd]; subst.
  destruct (f x); cbn; [|exact (IH Hd)].
  constructor; [|exact (IH Hd)].
  intros Hin. apply Hn. apply in_map_iff in Hin. destruct Hin as (y & E & Hy).
  apply filter_In in Hy. apply in_map_iff. exists y. tauto.
Qed.

Lemma rows_for_filter u q (f : UserAnswer -> bool) rows :
  (length (rows_for u q (filter f rows)) <= length (rows_for u q rows))%nat.
Proof.
  unfold rows_for. induction rows as [|r rows IH]; cbn; [lia|].
  destruct (f r); cbn; destruct (key_match u q r); cbn; lia.
Qed.

(** Removing rows keeps the answer table in order. *)
Lemma answers_ok_filter (w w' : World) (f : Question -> bool) (g : UserAnswer -> bool) :
  questions w' = filter f (questions w) ->
  user_answers w' = filter g (user_answers w) ->
  answers_ok w -> answers_ok w'.
Proof.
  intros Eq Ea [O1 O2 O3]. split.
  - rewrite Eq. apply NoDup_map_filter. exact O1.
  - intros u q. rewrite Ea. etransitivity; [apply rows_for_filter|apply O2].
  - rewrite Eq, Ea. intros r q Hr Hq. apply filter_In in Hr, Hq.
    apply O3; tauto.
Qed.

Lemma keys_below_filter (w w' : World)
  (f1 : Quiz -> bool) (f2 : Question -> bool) (f3 : UserAnswer -> bool)
  (f4 : Result -> bool) :
  quizzes w' = filter f1 (quizzes w) ->
  questions w' = filter f2 (questions w) ->
  user_answers w' = filter f3 (user_answers w) ->
  results w' = filter f4 (results w) ->
  next_pk w' = next_pk w ->
  keys_below w -> keys_below w'.
Proof.
  intros E1 E2 E3 E4 E5 [K1 K2 K3 K4].
  split; rewrite ?E1, ?E2, ?E3, ?E4, E5; apply Forall_filter_keep; assumption.
Qed.

Lemma find_none_all {A} (f : A -> bool) (l : list A) :
  (forall x, In x l -> f x = false) -> find f l = None.
Proof.
  induction l as [|x l IH]; cbn; intros H; [reflexivity|].
  rewrite (H x (or_introl eq_refl)). apply IH. intros y Hy. apply H. right. exact Hy.
Qed.

Lemma get_quiz_run (quiz user : Z) (w : World) :
  get_quiz_or_404 quiz user w
  = match find (fun r => (quiz_id r =? quiz) && (quiz_user r =? user))
               (quizzes w) with
    | Some r => (Returned r, w)
    | None => (Raised not_found, w)
    end.
Proof.
  unfold get_quiz_or_404, bind, get_world.
  destruct (find _ (quizzes w)); reflexivity.
Qed.

(** In a database in order, the answers that go with a quiz are those
    that name it. *)
Lemma quiz_delete_answers (quiz : Quiz) (w : World) :
  answers_ok w ->
  user_answers (snd (Quiz_delete quiz w))
  = filter (fun r => negb (answer_quiz r =? quiz_id quiz)) (user_answers w).
Proof.
  intros [_ _ O3]. unfold Quiz_delete, modify. world_simpl.
  apply filter_ext_in. intros r Hr. f_equal.
  destruct (answer_quiz r =? quiz_id quiz) eqn:E; [reflexivity|]. cbn [orb].
  apply not_true_is_false. intros H. apply existsb_exists in H.
  destruct H as (x & Hx & Hc). apply andb_true_iff in Hc.
  destruct Hc as (H1 & H2). apply Z.eqb_eq in H1, H2. apply Z.eqb_neq in E.
  apply E. rewrite <- H2. apply O3; auto.
Qed.

(** X9: [delete_quiz] answers 404 and changes nothing for a key that is
    no quiz of the learner; otherwise it removes the quiz and exactly
    the questions, answers and results of this quiz, leaves the
    documents and the key counter alone and the database in order, and
    whoever asks for the deletion again gets 404. *)
Theorem delete_quiz_removes_the_quiz_and_its_rows
  (request : Request) (key : Z) (w : World) :
  answers_ok w ->
  (find (fun r => (quiz_id r =? key) && (quiz_user r =? request_user request))
        (quizzes w) = None ->
   delete_quiz request key w = (Raised not_found, w)) /\
  (forall quiz,
     find (fun r => (quiz_id r =? key) && (quiz_user r =? request_user request))
          (quizzes w) = Some quiz ->
     exists w',
       delete_quiz request key w = (Returned (Redirect (py "dashboard") None), w') /\
       pdf_documents w' = pdf_documents w /\
       quizzes w' = filter (fun r => negb (quiz_id r =? key)) (quizzes w) /\
       questions w' = filter (fun r => negb (question_quiz r =? key)) (questions w) /\
       user_answers w'
         = filter (fun r => negb (answer_quiz r =? key)) (user_answers w) /\
       results w' = filter (fun r => negb (result_quiz r =? key)) (results w) /\
       next_pk w' = next_pk w /\
       answers_ok w' /\ (keys_below w -> keys_below w') /\
       forall again, delete_quiz again key w' = (Raised not_found, w')).
Proof.
  intros Hok. split.
  - intros Hfind. unfold delete_quiz.
    pose proof (get_quiz_run key (request_user request) w) as Hget.
    rewrite Hfind in Hget. exact (bind_raised _ _ w _ w Hget).
  - intros quiz Hfind. unfold delete_quiz.
    pose proof (get_quiz_run key (request_user request) w) as Hget.
    rewrite Hfind in Hget. rewrite (bind_returned _ _ w quiz w Hget).
    assert (Hkey : quiz_id quiz = key).
    { apply find_some in Hfind. destruct Hfind as (_ & Hc).
      apply andb_true_iff in Hc. destruct Hc as (Hc & _).
      apply Z.eqb_eq in Hc. exact Hc. }
    subst key. pose proof (quiz_delete_answers quiz w Hok) as Hans.
    cbv beta iota delta [bind messages_success modify ret].
    change (Quiz_delete quiz w) with (@Returned unit tt, snd (Quiz_delete quiz w)).
    cbv beta iota. eexists. split; [reflexivity|].
    world_simpl. unfold Quiz_delete, modify in *. world_simpl.
    split; [reflexivity|]. split; [reflexivity|]. split; [reflexivity|].
    split; [exact Hans|]. split; [reflexivity|]. split; [reflexivity|].
    split; [|split].
    + eapply (answers_ok_filter w); [| |exact Hok]; world_simpl;
        [reflexivity|exact Hans].
    + intros Hk. eapply (keys_below_filter w); [| | | | |exact Hk]; world_simpl;
        [reflexivity|reflexivity|exact Hans|reflexivity|reflexivity].
    + intros again. rewrite get_quiz_run. world_simpl.
      match goal with |- context [find ?f ?l] =>
        assert (Hnone : find f l = None)
      end.
      { apply find_none_all. intros x Hx. apply filter_In in Hx.
        destruct Hx as (_ & Hx). apply negb_true_iff in Hx. rewrite Hx.
        reflexivity. }
      rewrite Hnone. reflexivity.
Qed.

(* ================================================================= *)
(** * Creation and deletion *)

Lemma find_app_last {A} (f : A -> bool) (l : list A) (y : A) :
  (forall x, In x l -> f x = false) -> f y = true -> find f (l ++ [y]) = Some y.
Proof.
  induction l as [|x l IH]; cbn; intros H Hy; [rewrite Hy; reflexivity|].
  rewrite (H x (or_introl eq_refl)). apply IH; [|exact Hy].
  intros z Hz. apply H. right. exact Hz.
Qed.

Lemma quiz_pdf_below (w : World) :
  integrity w -> Forall (fun r => quiz_pdf r < next_pk w) (quizzes w).
Proof.
  intros [_ I2 _ I4 _ _ _ _]. eapply Forall_impl; [|exact I4]. cbn beta.
  intros q (d & Hd & E & _). rewrite Forall_forall in I2.
  specialize (I2 d Hd). lia.
Qed.

(** X10: deleting the quiz that [create_quiz] has just created gives the
    five tables back as they were before the creation. *)
Theorem delete_quiz_undoes_create_quiz
  (env : Env) (request : Request) (pdf k : Z) (w w1 : World) :
  keys_below w ->
  create_quiz env request pdf w
    = (Returned (Redirect (py "take_quiz") (Some k)), w1) ->
  exists w2,
    delete_quiz request k w1 = (Returned (Redirect (py "dashboard") None), w2) /\
    same_rows w w2.
Proof.
  intros Hk Hrun. unfold create_quiz in Hrun.
  pose proof (get_document_run pdf (request_user request) w) as Hget.
  destruct (find _ (pdf_documents w)) as [doc|].
  2:{ rewrite (bind_raised _ _ w _ w Hget) in Hrun. discriminate. }
  rewrite (bind_returned _ _ w doc w Hget) in Hrun.
  destruct (is_post request); [|discriminate].
  destruct (negb (truthy (POST_subject request))); [discriminate|].
  destruct (bad_difficulty (POST_difficulty request)); [discriminate|].
  destruct ((POST_num_questions request <? 1) || (POST_num_questions request >? 50));
    [discriminate|].
  destruct (negb (truthy (pdf_text_content doc))); [discriminate|].
  destruct (creation_shape env request doc
              (text_of (POST_subject request)) (text_of (POST_difficulty request))
              (text_of (pdf_text_content doc)) w Hk)
    as (out & w' & Hrun' & R1 & R2 & R3 & R4 & Hcases).
  rewrite Hrun' in Hrun. injection Hrun as -> ->.
  destruct Hcases as [(Hout & _)|(Hout & rows & Q1 & Q2 & Q3 & Q4)];
    [discriminate|].
  injection Hout as Ek. subst k.
  set (quiz := new_quiz request doc (text_of (POST_subject request))
                 (text_of (POST_difficulty request)) w) in *.
  destruct Hk as [K1 K2 K3 K4].
  assert (Hfind : find (fun r => (quiz_id r =? quiz_id quiz)
                                 && (quiz_user r =? request_user request))
                       (quizzes w1) = Some (completed quiz)).
  { rewrite Q1. apply find_app_last.
    - intros x Hx. rewrite Forall_forall in K1. specialize (K1 x Hx).
      destruct (quiz_id x =? quiz_id quiz) eqn:E; [|reflexivity].
      apply Z.eqb_eq in E. unfold quiz in E. cbn in E. lia.
    - cbn. rewrite !Z.eqb_refl. reflexivity. }
  unfold delete_quiz.
  pose proof (get_quiz_run (quiz_id quiz) (request_user request) w1) as Hget2.
  rewrite Hfind in Hget2. rewrite (bind_returned _ _ _ _ _ Hget2).
  cbv beta iota delta [bind messages_success modify ret].
  change (Quiz_delete (completed quiz) w1)
    with (@Returned unit tt, snd (Quiz_delete quiz w1)).
  cbv beta iota. eexists. split; [reflexivity|]. unfold same_rows. world_simpl.
  assert (Hst : attempt (quiz_id quiz) (next_pk w + 1) (pdf_documents w)
                  (quizzes w) (questions w) (user_answers w) (results w)
                  (completed quiz) rows w1).
  { split; try assumption; try reflexivity.
    - unfold quiz in R4. cbn in R4. lia.
    - eapply Forall_impl; [|exact Q3]. unfold quiz. cbn. intros r. lia. }
  destruct (quiz_delete_attempt quiz (next_pk w + 1) (pdf_documents w)
              (quizzes w) (questions w) (user_answers w) (results w))
    with (qz := completed quiz) (rows := rows) (w := w1)
    as (D1 & D2 & D3 & D4 & D5 & _).
  - eapply Forall_impl; [|exact K1]. unfold quiz. cbn. intros r. lia.
  - eapply Forall_impl; [|exact K2]. unfold quiz. cbn. intros r. lia.
  - eapply Forall_impl; [|exact K3]. unfold quiz. cbn. intros r. lia.
  - eapply Forall_impl; [|exact K4]. unfold quiz. cbn. intros r. lia.
  - exact Hst.
  - repeat split; assumption.
Qed.

(* ================================================================= *)
(** * Deleting a document *)

Lemma existsb_false_all {A} (f : A -> bool) (l : list A) :
  (forall x, In x l -> f x = false) -> existsb f l = false.
Proof.
  intros H. apply not_true_is_false. intros E. apply existsb_exists in E.
  destruct E as (x & Hx & Hf). rewrite (H x Hx) in Hf. discriminate.
Qed.

Lemma filter_keep_all {A} (f : A -> bool) (l : list A) :
  (forall x, In x l -> f x = true) -> filter f l = l.
Proof. intros H. apply filter_keep. apply Forall_forall. exact H. Qed.

Lemma filter_drop_all {A} (f : A -> bool) (l : list A) :
  (forall x, In x l -> f x = false) -> filter f l = [].
Proof. intros H. apply filter_drop. apply Forall_forall. exact H. Qed.

(** Deleting a document that came after everything else in [w], with
    the quizzes and questions that came with it, gives back the tables
    of [w]. *)
Lemma pdf_delete_undoes (doc : PDFDocument) (w w1 : World)
  (new_quizzes : list Quiz) (rows : list Question) :
  keys_below w ->
  Forall (fun r => pdf_id r < next_pk w) (pdf_documents w) ->
  Forall (fun r => quiz_pdf r < next_pk w) (quizzes w) ->
  pdf_id doc = next_pk w ->
  pdf_documents w1 = pdf_documents w ++ [doc] ->
  quizzes w1 = quizzes w ++ new_quizzes ->
  questions w1 = questions w ++ rows ->
  user_answers w1 = user_answers w ->
  results w1 = results w ->
  Forall (fun q => quiz_pdf q = pdf_id doc /\ next_pk w <= quiz_id q) new_quizzes ->
  Forall (fun r => In (question_quiz r) (map quiz_id new_quizzes) /\
                   next_pk w <= question_id r) rows ->
  same_rows w (snd (PDFDocument_delete doc w1)).
Proof.
  intros [K1 K2 K3 K4] Hdocs Hpdfs Hid E1 E2 E3 E4 E5 Hnew Hrows.
  rewrite Forall_forall in K1, K2, K3, K4, Hdocs, Hpdfs, Hnew, Hrows.
  assert (Hgone : forall k, k < next_pk w ->
            existsb (fun r => (quiz_id r =? k) && (quiz_pdf r =? pdf_id doc))
                    (quizzes w1) = false).
  { intros k Hk. rewrite E2, existsb_app. apply orb_false_iff. split.
    - apply existsb_false_all. intros x Hx. specialize (Hpdfs x Hx).
      apply andb_false_iff. right. apply Z.eqb_neq. lia.
    - apply existsb_false_all. intros x Hx. destruct (Hnew x Hx) as (_ & Hx').
      apply andb_false_iff. left. apply Z.eqb_neq. lia. }
  assert (Hnewgone : forall q, In q new_quizzes ->
            existsb (fun r => (quiz_id r =? quiz_id q) && (quiz_pdf r =? pdf_id doc))
                    (quizzes w1) = true).
  { intros q Hq. rewrite E2, existsb_app. apply orb_true_iff. right.
    apply existsb_exists. exists q. split; [exact Hq|].
    destruct (Hnew q Hq) as (Hp & _). rewrite Hp, !Z.eqb_refl. reflexivity. }
  unfold same_rows, PDFDocument_delete, modify. world_simpl.
  split; [|split; [|split; [|split]]].
  - rewrite E1, filter_app. cbn [filter]. rewrite Z.eqb_refl. cbn.
    rewrite app_nil_r. apply filter_keep_all. intros x Hx.
    specialize (Hdocs x Hx). apply negb_true_iff, Z.eqb_neq. lia.
  - rewrite E2, filter_app.
    rewrite (filter_drop_all _ new_quizzes), app_nil_r.
    + apply filter_keep_all. intros x Hx. specialize (Hpdfs x Hx).
      apply negb_true_iff, Z.eqb_neq. lia.
    + intros x Hx. destruct (Hnew x Hx) as (Hp & _).
      apply negb_false_iff, Z.eqb_eq. exact Hp.
  - rewrite E3, filter_app. rewrite (filter_drop_all _ rows), app_nil_r.
    + apply filter_keep_all. intros x Hx. destruct (K2 x Hx) as (_ & Hq).
      rewrite (Hgone _ Hq). reflexivity.
    + intros x Hx. destruct (Hrows x Hx) as (Hq & _).
      apply in_map_iff in Hq. destruct Hq as (q & <- & Hq).
      rewrite (Hnewgone q Hq). reflexivity.
  - rewrite E4. apply filter_keep_all. intros a Ha. destruct (K3 a Ha) as (Hq & Hx).
    rewrite (Hgone _ Hq). cbn [orb]. apply negb_true_iff.
    rewrite E3, existsb_app. apply orb_false_iff. split.
    + apply existsb_false_all. intros x Hx'. destruct (K2 x Hx') as (_ & Hq').
      rewrite (Hgone _ Hq'). apply andb_false_r.
    + apply existsb_false_all. intros x Hx'. destruct (Hrows x Hx') as (_ & Hge).
      apply andb_false_iff. left. apply Z.eqb_neq. lia.
  - rewrite E5. apply filter_keep_all. intros r Hr. specialize (K4 r Hr).
    rewrite (Hgone _ K4). reflexivity.
Qed.

(** X11: a valid request for a quiz on a topic stores a placeholder
    document under the next key, and deleting this document takes the
    quiz and the questions made for it along: the five tables are as
    they were before the request, whether the generation succeeded or
    failed. *)
Theorem delete_pdf_undoes_topic_quiz (env : Env) (request : Request) (w : World) :
  keys_below w -> integrity w ->
  is_post request = true -> truthy (POST_topic request) = true ->
  bad_difficulty (POST_difficulty request) = false ->
  1 <= POST_num_questions request <= 50 ->
  exists out w1 doc w2,
    create_quiz_from_topic env request w = (Returned out, w1) /\
    pdf_documents w1 = pdf_documents w ++ [doc] /\ pdf_id doc = next_pk w /\
    delete_pdf request (next_pk w) w1
      = (Returned (Redirect (py "dashboard") None), w2) /\
    same_rows w w2.
Proof.
  intros Hk Hi Hpost Htopic Hdiff Hn.
  pose proof (quiz_pdf_below w Hi) as Hpdfs.
  pose proof (document_ids_below w Hi) as Hdocs.
  unfold create_quiz_from_topic. rewrite Hpost, Htopic, Hdiff. cbn [negb].
  assert (Hr : (POST_num_questions request <? 1) || (POST_num_questions request >? 50)
               = false).
  { apply orb_false_iff. split; [apply Z.ltb_ge; lia|].
    rewrite Z.gtb_ltb. apply Z.ltb_ge. lia. }
  rewrite Hr. unfold bind at 1.
  set (title := py "Topic: " ++ text_of (POST_topic request)).
  set (doc := {| pdf_id := next_pk w; pdf_user := request_user request;
                 pdf_title := title; pdf_file := None;
                 pdf_text_content := Some title |}).
  set (v := set_documents (set_next_pk w (next_pk w + 1))
              (pdf_documents (set_next_pk w (next_pk w + 1)) ++ [doc])).
  assert (Hdoc : PDFDocument_create (request_user request) title None
                   (Some title) w = (Returned doc, v)) by reflexivity.
  rewrite Hdoc.
  assert (Hkv : keys_below v).
  { destruct Hk as [K1 K2 K3 K4]. split; cbn.
    - eapply Forall_impl; [|exact K1]. cbn. intros r. lia.
    - eapply Forall_impl; [|exact K2]. cbn. intros r. lia.
    - eapply Forall_impl; [|exact K3]. cbn. intros r. lia.
    - eapply Forall_impl; [|exact K4]. cbn. intros r. lia. }
  destruct (creation_shape env request doc
              (text_of (POST_topic request)) (text_of (POST_difficulty request))
              (py "Generate questions about: " ++ text_of (POST_topic request))
              v Hkv)
    as (out & w1 & Hrun & R1 & R2 & R3 & R4 & Hcases).
  rewrite Hrun. exists out, w1, doc.
  assert (Hfind : find (fun r => (pdf_id r =? next_pk w)
                                 && (pdf_user r =? request_user request))
                       (pdf_documents w1) = Some doc).
  { rewrite R1. apply find_app_last.
    - intros x Hx. rewrite Forall_forall in Hdocs. specialize (Hdocs x Hx).
      apply andb_false_iff. left. apply Z.eqb_neq. lia.
    - cbn. rewrite !Z.eqb_refl. reflexivity. }
  unfold delete_pdf.
  pose proof (get_document_run (next_pk w) (request_user request) w1) as Hget.
  rewrite Hfind in Hget. rewrite (bind_returned _ _ _ _ _ Hget).
  cbv beta iota delta [bind messages_success modify ret].
  change (PDFDocument_delete doc w1)
    with (@Returned unit tt, snd (PDFDocument_delete doc w1)).
  cbv beta iota. eexists. split; [reflexivity|]. split; [exact R1|].
  split; [reflexivity|]. split; [reflexivity|].
  unfold same_rows. world_simpl.
  set (quiz := new_quiz request doc (text_of (POST_topic request))
                 (text_of (POST_difficulty request)) v) in *.
  destruct Hcases as [(_ & Q1 & Q2)|(_ & rows & Q1 & Q2 & Q3 & Q4)].
  - apply (pdf_delete_undoes doc w w1 [] []); try assumption;
      try reflexivity; try (rewrite app_nil_r; assumption); constructor.
  - apply (pdf_delete_undoes doc w w1 [completed quiz] rows); try assumption;
      try reflexivity.
    + constructor; [|constructor]. cbn. split; [reflexivity|lia].
    + eapply Forall_impl; [|exact Q3]. cbn. intros r (Hq & Hid & _).
      split; [left; symmetry; exact Hq|lia].
Qed.

(* ================================================================= *)
(** * A submission, table by table *)

Lemma answer_source_old old user quiz qs :
  Forall (answer_source old user quiz qs) old.
Proof.
  apply Forall_forall. intros r Hr. left. exists r. repeat split. exact Hr.
Qed.

Lemma answer_source_step old mid user quiz q qs r :
  Forall (answer_source old user quiz [q]) mid ->
  answer_source mid user quiz qs r -> answer_source old user quiz (q :: qs) r.
Proof.
  intros Hmid [(r0 & Hr0 & E1 & E2 & E3)|(E1 & E2 & q' & Hq' & E3)].
  - rewrite Forall_forall in Hmid.
    destruct (Hmid r0 Hr0) as [(r1 & Hr1 & F1 & F2 & F3)|(F1 & F2 & q' & [<-|[]] & F3)].
    + left. exists r1. split; [exact Hr1|]. repeat split; congruence.
    + right. split; [congruence|]. split; [congruence|].
      exists q. split; [left; reflexivity|congruence].
  - right. split; [exact E1|]. split; [exact E2|].
    exists q'. split; [right; exact Hq'|exact E3].
Qed.

Lemma update_or_create_source user quiz question selected correct w :
  Forall (answer_source (user_answers w) user quiz [question])
         (user_answers
            (snd (UserAnswer_update_or_create user quiz question selected correct w))).
Proof.
  unfold UserAnswer_update_or_create, bind, get_world.
  destruct (filter _ (user_answers w)) as [|r0 [|r1 rest]].
  - destruct (existsb _ (user_answers w)); [apply answer_source_old|].
    cbv beta iota delta [fresh_pk modify]. world_simpl.
    apply Forall_app. split; [apply answer_source_old|].
    constructor; [|constructor]. right. cbn. split; [reflexivity|].
    split; [reflexivity|]. exists question. split; [left|]; reflexivity.
  - unfold modify. world_simpl. apply Forall_forall. intros r Hr.
    apply in_map_iff in Hr. destruct Hr as (r' & <- & Hr').
    left. exists r'. split; [exact Hr'|].
    destruct (_ && _); repeat split.
  - apply answer_source_old.
Qed.

Lemma grade_question_source request quiz q t w :
  Forall (answer_source (user_answers w) (request_user request) quiz [q])
         (user_answers (snd (grade_question request quiz q t w))).
Proof.
  unfold grade_question.
  destruct (truthy (posted_answer (question_id q) (POST_answers request)));
    [|apply answer_source_old].
  unfold bind.
  match goal with |- context [UserAnswer_update_or_create ?u ?qz ?qq ?s ?c w] =>
    pose proof (update_or_create_source u qz qq s c w) as H;
    destruct (UserAnswer_update_or_create u qz qq s c w) as [[[]|e] w1]
  end; exact H.
Qed.

Lemma grade_questions_source request quiz qs :
  forall t w,
    Forall (answer_source (user_answers w) (request_user request) quiz qs)
           (user_answers (snd (grade_questions request quiz qs t w))).
Proof.
  induction qs as [|q qs IH]; intros t w; cbn [grade_questions].
  - apply answer_source_old.
  - unfold bind.
    pose proof (grade_question_source request quiz q t w) as H1.
    destruct (grade_question request quiz q t w) as [[t'|e] w1]; cbn [snd] in *.
    + eapply Forall_impl; [|apply IH]. intros r.
      apply answer_source_step. exact H1.
    + eapply Forall_impl; [|exact H1]. intros r
        [(r0 & Hr0 & E)|(E1 & E2 & q' & [<-|[]] & E3)].
      * left. exists r0. tauto.
      * right. split; [exact E1|]. split; [exact E2|].
        exists q. split; [left; reflexivity|exact E3].
Qed.

(** A submission from end to end, with the key of the stored result. *)
Lemma submit_quiz_full (env : Env) (request : Request) (key : Z) (quiz : Quiz)
  (w : World) :
  find (fun r => (quiz_id r =? key) && (quiz_user r =? request_user request))
       (quizzes w) = Some quiz ->
  is_post request = true ->
  answers_ok w ->
  let qs := quiz_questions w quiz in
  exists w' row,
    submit_quiz env request key w
      = (Returned (Redirect (py "quiz_result") (Some (quiz_id quiz))), w') /\
    results w' = results w ++ [row] /\
    last_result_id w' = Some (result_id row) /\
    next_pk w <= result_id row /\ next_pk w' = result_id row + 1 /\
    result_user row = request_user request /\ result_quiz row = quiz_id quiz /\
    correct_answers row = count (answered_right request) qs /\
    total_questions row = Z.of_nat (length qs) /\
    pdf_documents w' = pdf_documents w /\ quizzes w' = quizzes w /\
    questions w' = questions w /\ answers_ok w' /\
    (forall q, In q qs -> answered request q = true ->
       exists r, rows_for (request_user request) (question_id q) (user_answers w') = [r] /\
                 selected_answer r = text_of (selection request q) /\
                 is_correct r
                 = str_eqb (text_of (selection request q)) (correct_answer q)) /\
    (forall q, In q qs -> answered request q = false ->
       rows_for (request_user request) (question_id q) (user_answers w')
       = rows_for (request_user request) (question_id q) (user_answers w)) /\
    Forall (answer_source (user_answers w) (request_user request) quiz qs)
           (user_answers w') /\
    user_answers w'
      = user_answers (snd (grade_questions request quiz qs empty_tally w)).
Proof.
  intros Hfind Hpost Hok qs.
  set (t := tally_of request qs empty_tally).
  set (total := Z.of_nat (length qs)).
  destruct (quiz_questions_facts w quiz) as (_ & Hmem & _).
  destruct (grade_questions_spec request quiz qs empty_tally w Hok)
    as (w1 & Hrun & Hsame & Hok1 & Hrows & Hframe & _).
  { intros q Hq. apply Hmem. exact Hq. }
  pose proof (grade_questions_source request quiz qs empty_tally w) as Hsrc.
  rewrite Hrun in Hsrc. cbn [snd] in Hsrc.
  destruct (feedback_step env (quiz_subject quiz) total (tally_correct t)
              (tally_wrong t) (tally_answers t) (quiz_difficulty quiz) w1)
    as (fb & w2 & Hfb & Htab & Hlast & _).
  destruct (tally_of_counts request qs empty_tally) as (Hc & _).
  do 2 eexists. split.
  - unfold submit_quiz, get_quiz_or_404. unfold bind at 1. unfold bind at 1.
    unfold get_world at 1. cbv beta iota. rewrite Hfind. cbn [ret].
    rewrite Hpost. unfold bind at 1. unfold get_world at 1. cbv beta iota.
    fold qs. unfold bind at 1. rewrite Hrun. fold t. fold total.
    unfold bind at 1. rewrite Hfb.
    unfold Result_create, bind, fresh_pk, modify, ret. cbv beta iota.
    reflexivity.
  - unfold same_but_answers in Hsame.
    destruct Hsame as (s1 & s2 & s3 & s4 & s5 & s6 & s7 & s8 & s9 & s10).
    destruct Htab as (t1 & t2 & t3 & t4 & t5 & t6).
    world_simpl.
    cbv beta iota delta [result_id result_user result_quiz correct_answers total_questions].
    split; [rewrite t5, s4; reflexivity|]. split; [reflexivity|].
    split; [lia|]. split; [reflexivity|]. split; [reflexivity|].
    split; [reflexivity|]. split; [cbn in Hc; exact Hc|]. split; [reflexivity|].
    split; [congruence|]. split; [congruence|]. split; [congruence|].
    split; [|split; [|split; [|split]]].
    + destruct Hok1 as [K1 K2 K3]. split; world_simpl.
      * rewrite t3. exact K1.
      * rewrite t4. exact K2.
      * rewrite t4, t3. exact K3.
    + intros q Hq Ha. rewrite t4.
      destruct (Hrows q Hq Ha) as (r & H1 & H2 & H3 & _). exists r. auto.
    + intros q Hq Ha. rewrite t4. apply Hframe.
      rewrite (untouched_when_unanswered request qs w q); auto.
      * apply andb_false_r.
      * apply Hok.
      * intros q' Hq'. apply Hmem. exact Hq'.
    + rewrite t4. exact Hsrc.
    + rewrite Hrun. exact t4.
Qed.

(* ================================================================= *)
(** * The result page *)








(* ================================================================= *)
(** * References between the tables *)

Lemma empty_world_integrity : integrity empty_world.
Proof. split; cbn; try constructor. Qed.

(** The references stay resolved when the tables are the same and the
    counter has not fallen. *)
Lemma integrity_same_rows (w w' : World) :
  same_rows w w' -> next_pk w <= next_pk w' -> integrity w -> integrity w'.
Proof.
  intros (E1 & E2 & E3 & E4 & E5) Hpk [I1 I2 I3 I4 I5 I6 I7 I8].
  split; rewrite ?E1, ?E2, ?E3, ?E4, ?E5; try assumption.
  - lia.
  - eapply Forall_impl; [|exact I2]. cbn beta. intros r. lia.
  - eapply Forall_impl; [|exact I3]. cbn beta. intros r. lia.
Qed.

Lemma integrity_add_document (w w' : World) (doc : PDFDocument) :
  pdf_documents w' = pdf_documents w ++ [doc] ->
  quizzes w' = quizzes w -> questions w' = questions w ->
  user_answers w' = user_answers w -> results w' = results w ->
  pdf_id doc < next_pk w' -> next_pk w <= next_pk w' ->
  integrity w -> integrity w'.
Proof.
  intros E1 E2 E3 E4 E5 Hid Hpk [I1 I2 I3 I4 I5 I6 I7 I8].
  split; rewrite ?E1, ?E2, ?E3, ?E4, ?E5; try assumption.
  - lia.
  - apply Forall_app. split; [|constructor; [exact Hid|constructor]].
    eapply Forall_impl; [|exact I2]. cbn beta. intros r. lia.
  - eapply Forall_impl; [|exact I3]. cbn beta. intros r. lia.
  - eapply Forall_impl; [|exact I4]. cbn beta. intros q (d & Hd & E).
    exists d. split; [apply in_or_app; left; exact Hd|exact E].
Qed.

Lemma integrity_creation (request : Request) (doc : PDFDocument)
  (subject difficulty : str) (out : response) (v w' : World) :
  integrity v -> In doc (pdf_documents v) ->
  pdf_user doc = request_user request ->
  bad_difficulty (Some difficulty) = false ->
  1 <= POST_num_questions request <= 50 ->
  creation_result (new_quiz request doc subject difficulty v) out v w' ->
  integrity w'.
Proof.
  intros Hi Hdoc Huser Hdiff Hn (R1 & R2 & R3 & R4 & Hcases).
  destruct Hcases as [(_ & Q1 & Q2)|(_ & rows & Q1 & Q2 & Q3 & Q4)].
  - apply (integrity_same_rows v); [repeat split; assumption|lia|exact Hi].
  - destruct Hi as [I1 I2 I3 I4 I5 I6 I7 I8].
    set (quiz := new_quiz request doc subject difficulty v) in *.
    assert (Hold : forall q, In q (quizzes v) -> In q (quizzes w')).
    { intros q Hq. rewrite Q1. apply in_or_app. left. exact Hq. }
    assert (Hnew : In (completed quiz) (quizzes w')).
    { rewrite Q1. apply in_or_app. right. left. reflexivity. }
    split; rewrite ?R1, ?R2, ?R3.
    + lia.
    + eapply Forall_impl; [|exact I2]. cbn beta. intros r. lia.
    + eapply Forall_impl; [|exact I3]. cbn beta. intros r. lia.
    + rewrite Q1. apply Forall_app. split; [exact I4|].
      constructor; [|constructor]. exists doc. cbn. auto.
    + rewrite Q2. apply Forall_app. split.
      * eapply Forall_impl; [|exact I5]. cbn beta. intros x (q & Hq & E).
        exists q. split; [exact (Hold q Hq)|exact E].
      * eapply Forall_impl; [|exact Q3]. cbn beta. intros x (E & _).
        exists (completed quiz). split; [exact Hnew|]. cbn. symmetry. exact E.
    + eapply Forall_impl; [|exact I6]. cbn beta.
      intros a ((x & Hx & E1) & (q & Hq & E2)). split.
      * exists x. split; [rewrite Q2; apply in_or_app; left; exact Hx|exact E1].
      * exists q. split; [exact (Hold q Hq)|exact E2].
    + eapply Forall_impl; [|exact I7]. cbn beta. intros r (q & Hq & E).
      exists q. split; [exact (Hold q Hq)|exact E].
    + rewrite Q1. apply Forall_app. split; [exact I8|].
      constructor; [|constructor]. cbn. auto.
Qed.

Lemma good_difficulty_text (difficulty : option str) :
  bad_difficulty difficulty = false ->
  bad_difficulty (Some (text_of difficulty)) = false.
Proof. destruct difficulty; [auto|discriminate]. Qed.

Lemma count_in_range (n : Z) :
  (n <? 1) || (n >? 50) = false -> 1 <= n <= 50.
Proof.
  intros H. apply orb_false_iff in H. destruct H as (H1 & H2).
  apply Z.ltb_ge in H1. rewrite Z.gtb_ltb in H2. apply Z.ltb_ge in H2. lia.
Qed.

Lemma topic_view_integrity (env : Env) (request : Request) (w : World) :
  keys_below w -> integrity w ->
  integrity (snd (create_quiz_from_topic env request w)).
Proof.
  intros Hk Hi. unfold create_quiz_from_topic.
  destruct (is_post request); [|exact Hi].
  destruct (negb (truthy (POST_topic request)));
    [apply (integrity_same_rows w); [repeat split|cbn; lia|exact Hi]|].
  destruct (bad_difficulty (POST_difficulty request)) eqn:Hdiff;
    [apply (integrity_same_rows w); [repeat split|cbn; lia|exact Hi]|].
  destruct ((POST_num_questions request <? 1) || (POST_num_questions request >? 50))
    eqn:Hn; [apply (integrity_same_rows w); [repeat split|cbn; lia|exact Hi]|].
  unfold bind at 1.
  set (title := py "Topic: " ++ text_of (POST_topic request)).
  set (doc := {| pdf_id := next_pk w; pdf_user := request_user request;
                 pdf_title := title; pdf_file := None;
                 pdf_text_content := Some title |}).
  set (v := set_documents (set_next_pk w (next_pk w + 1))
              (pdf_documents (set_next_pk w (next_pk w + 1)) ++ [doc])).
  assert (Hdoc : PDFDocument_create (request_user request) title None
                   (Some title) w = (Returned doc, v)) by reflexivity.
  rewrite Hdoc.
  assert (Hkv : keys_below v).
  { destruct Hk as [K1 K2 K3 K4]. split; cbn.
    - eapply Forall_impl; [|exact K1]. cbn. intros r. lia.
    - eapply Forall_impl; [|exact K2]. cbn. intros r. lia.
    - eapply Forall_impl; [|exact K3]. cbn. intros r. lia.
    - eapply Forall_impl; [|exact K4]. cbn. intros r. lia. }
  assert (Hiv : integrity v).
  { apply (integrity_add_document w v doc); try reflexivity; [cbn; lia|cbn; lia|exact Hi]. }
  destruct (creation_shape env request doc
              (text_of (POST_topic request)) (text_of (POST_difficulty request))
              (py "Generate questions about: " ++ text_of (POST_topic request))
              v Hkv) as (out & w' & Hrun & Hres).
  rewrite Hrun. cbn [snd].
  apply (integrity_creation request doc (text_of (POST_topic request))
           (text_of (POST_difficulty request)) out v w'); try assumption.
  - cbn. apply in_or_app. right. left. reflexivity.
  - reflexivity.
  - apply good_difficulty_text. exact Hdiff.
  - apply count_in_range. exact Hn.
Qed.

Lemma pdf_view_integrity (env : Env) (request : Request) (pdf : Z) (w : World) :
  keys_below w -> integrity w ->
  integrity (snd (create_quiz env request pdf w)).
Proof.
  intros Hk Hi. unfold create_quiz.
  pose proof (get_document_run pdf (request_user request) w) as Hget.
  destruct (find _ (pdf_documents w)) as [doc|] eqn:Hfind.
  2:{ rewrite (bind_raised _ _ w _ w Hget). exact Hi. }
  rewrite (bind_returned _ _ w doc w Hget).
  destruct (is_post request); [|exact Hi].
  destruct (negb (truthy (POST_subject request)));
    [apply (integrity_same_rows w); [repeat split|cbn; lia|exact Hi]|].
  destruct (bad_difficulty (POST_difficulty request)) eqn:Hdiff;
    [apply (integrity_same_rows w); [repeat split|cbn; lia|exact Hi]|].
  destruct ((POST_num_questions request <? 1) || (POST_num_questions request >? 50))
    eqn:Hn; [apply (integrity_same_rows w); [repeat split|cbn; lia|exact Hi]|].
  destruct (negb (truthy (pdf_text_content doc)));
    [apply (integrity_same_rows w); [repeat split|cbn; lia|exact Hi]|].
  destruct (creation_shape env request doc
              (text_of (POST_subject request)) (text_of (POST_difficulty request))
              (text_of (pdf_text_content doc)) w Hk) as (out & w' & Hrun & Hres).
  rewrite Hrun. cbn [snd]. apply find_some in Hfind. destruct Hfind as (Hin & Hc).
  apply andb_true_iff in Hc. destruct Hc as (_ & Hu). apply Z.eqb_eq in Hu.
  apply (integrity_creation request doc (text_of (POST_subject request))
           (text_of (POST_difficulty request)) out w w'); try assumption.
  - apply good_difficulty_text. exact Hdiff.
  - apply count_in_range. exact Hn.
Qed.

(* ================================================================= *)
(** * The views keep the references *)

Lemma answers_ok_rows (w w' : World) :
  questions w' = questions w -> user_answers w' = user_answers w ->
  answers_ok w -> answers_ok w'.
Proof. intros E1 E2 [O1 O2 O3]. split; rewrite ?E1, ?E2; assumption. Qed.

Lemma keys_below_grow (w w' : World) :
  quizzes w' = quizzes w -> questions w' = questions w ->
  user_answers w' = user_answers w -> results w' = results w ->
  next_pk w <= next_pk w' -> keys_below w -> keys_below w'.
Proof.
  intros E1 E2 E3 E4 Hpk [K1 K2 K3 K4].
  split; rewrite ?E1, ?E2, ?E3, ?E4.
  - eapply Forall_impl; [|exact K1]. cbn beta. intros r. lia.
  - eapply Forall_impl; [|exact K2]. cbn beta. intros r. lia.
  - eapply Forall_impl; [|exact K3]. cbn beta. intros r. lia.
  - eapply Forall_impl; [|exact K4]. cbn beta. intros r. lia.
Qed.

Lemma submit_view_integrity (env : Env) (request : Request) (key : Z) (w : World) :
  answers_ok w -> integrity w ->
  integrity (snd (submit_quiz env request key w)).
Proof.
  intros Hok Hi.
  destruct (find (fun r => (quiz_id r =? key)
                           && (quiz_user r =? request_user request))
                 (quizzes w)) as [quiz|] eqn:Hfind.
  2:{ unfold submit_quiz, get_quiz_or_404.
      cbv beta iota delta [bind get_world]. rewrite Hfind. exact Hi. }
  destruct (is_post request) eqn:Hpost.
  2:{ unfold submit_quiz, get_quiz_or_404.
      cbv beta iota delta [bind get_world]. rewrite Hfind.
      cbv beta iota delta [ret]. rewrite Hpost. exact Hi. }
  destruct (submit_quiz_full env request key quiz w Hfind Hpost Hok)
    as (w' & row & Hrun & Hres & Hlast & Hge & Hnext & Hu & Hq & _ & _
        & Hdocs & Hqz & Hqs & _ & _ & _ & Hsrc & _).
  rewrite Hrun. cbn [snd].
  destruct (quiz_questions_facts w quiz) as (_ & Hmem & _).
  apply find_some in Hfind. destruct Hfind as (Hin & Hc).
  apply andb_true_iff in Hc. destruct Hc as (_ & Hown). apply Z.eqb_eq in Hown.
  destruct Hi as [I1 I2 I3 I4 I5 I6 I7 I8].
  split; rewrite ?Hdocs, ?Hqz, ?Hqs; try assumption.
  - lia.
  - eapply Forall_impl; [|exact I2]. cbn beta. intros r. lia.
  - rewrite Hres. apply Forall_app. split.
    + eapply Forall_impl; [|exact I3]. cbn beta. intros r. lia.
    + constructor; [lia|constructor].
  - eapply Forall_impl; [|exact Hsrc]. cbn beta.
    intros a [(r0 & Hr0 & E1 & E2 & E3)|(E1 & E2 & q & Hq' & E3)].
    + rewrite Forall_forall in I6. rewrite E1, E2, E3. exact (I6 r0 Hr0).
    + apply Hmem in Hq'. destruct Hq' as (Hq1 & Hq2). split.
      * exists q. split; [exact Hq1|]. split; congruence.
      * exists quiz. split; [exact Hin|]. split; congruence.
  - rewrite Hres. apply Forall_app. split; [exact I7|].
    constructor; [|constructor]. exists quiz. split; [exact Hin|].
    split; congruence.
Qed.

Lemma upload_view_in_order (request : Request) (files : option UploadedFile)
  (POST_title : option str) (w : World) :
  answers_ok w -> keys_below w -> integrity w ->
  answers_ok (snd (upload_pdf request files POST_title w)) /\
  keys_below (snd (upload_pdf request files POST_title w)) /\
  integrity (snd (upload_pdf request files POST_title w)).
Proof.
  intros Hok Hk Hi.
  assert (Hrefused : forall w',
            upload_pdf request files POST_title w
              = (Returned (Redirect (py "dashboard") None, None), w') ->
            same_tables w w' ->
            answers_ok (snd (upload_pdf request files POST_title w)) /\
            keys_below (snd (upload_pdf request files POST_title w)) /\
            integrity (snd (upload_pdf request files POST_title w))).
  { intros w' Hrun Ht. rewrite Hrun. cbn [snd].
    split; [exact (answers_ok_same_tables w w' Ht Hok)|].
    split; [exact (keys_below_same_tables w w' Ht Hk)|].
    destruct Ht as (T1 & T2 & T3 & T4 & T5 & T6).
    apply (integrity_same_rows w); [repeat split; assumption|lia|exact Hi]. }
  destruct (is_post request) eqn:Hpost.
  2:{ destruct (upload_pdf_refused request files POST_title w (or_introl Hpost))
        as (w' & Hrun & Ht & _). exact (Hrefused w' Hrun Ht). }
  destruct files as [upload|].
  2:{ destruct (upload_pdf_refused request None POST_title w
                  (or_intror (or_introl eq_refl))) as (w' & Hrun & Ht & _).
      exact (Hrefused w' Hrun Ht). }
  destruct (is_pdf_name (file_name upload)) eqn:Hname.
  2:{ destruct (upload_pdf_refused request (Some upload) POST_title w)
        as (w' & Hrun & Ht & _).
      - right. right. exists upload. split; [reflexivity|exact Hname].
      - exact (Hrefused w' Hrun Ht). }
  destruct (upload_pdf_accepted request upload POST_title w Hpost Hname
              (document_ids_below w Hi))
    as (warning & w' & Hrun & E1 & E2 & E3 & E4 & E5 & E6 & _).
  rewrite Hrun. cbn [snd].
  split; [exact (answers_ok_rows w w' E3 E4 Hok)|].
  split; [apply (keys_below_grow w w'); try assumption; lia|].
  apply (integrity_add_document w w' _ E1); try assumption; [cbn; lia|lia].
Qed.

(** What is left when a quiz and the rows that go with it are removed. *)
Lemma quiz_delete_in_order (quiz : Quiz) (w : World) :
  answers_ok w -> keys_below w -> integrity w ->
  answers_ok (snd (Quiz_delete quiz w)) /\
  keys_below (snd (Quiz_delete quiz w)) /\
  integrity (snd (Quiz_delete quiz w)).
Proof.
  intros Hok Hk Hi.
  pose proof (quiz_delete_answers quiz w Hok) as Hans.
  set (w' := snd (Quiz_delete quiz w)) in *.
  assert (E1 : pdf_documents w' = pdf_documents w) by reflexivity.
  assert (E2 : quizzes w'
               = filter (fun r => negb (quiz_id r =? quiz_id quiz)) (quizzes w))
    by reflexivity.
  assert (E3 : questions w'
               = filter (fun r => negb (question_quiz r =? quiz_id quiz)) (questions w))
    by reflexivity.
  assert (E5 : results w'
               = filter (fun r => negb (result_quiz r =? quiz_id quiz)) (results w))
    by reflexivity.
  assert (E6 : next_pk w' = next_pk w) by reflexivity.
  split; [exact (answers_ok_filter w w' _ _ E3 Hans Hok)|].
  split; [exact (keys_below_filter w w' _ _ _ _ E2 E3 Hans E5 E6 Hk)|].
  destruct Hi as [I1 I2 I3 I4 I5 I6 I7 I8].
  rewrite Forall_forall in I4, I5, I6, I7.
  assert (Hkeep : forall q k, In q (quizzes w) -> quiz_id q = k ->
                              k <> quiz_id quiz -> In q (quizzes w')).
  { intros q k Hq E Hne. rewrite E2. apply filter_In. split; [exact Hq|].
    apply negb_true_iff, Z.eqb_neq. congruence. }
  split; rewrite ?E1, ?E6; try assumption.
  - rewrite E5. apply Forall_filter_keep. exact I3.
  - rewrite E2. apply Forall_filter_keep. apply Forall_forall. exact I4.
  - rewrite E3. apply Forall_forall. intros x Hx. apply filter_In in Hx.
    destruct Hx as (Hx & Hne). apply negb_true_iff, Z.eqb_neq in Hne.
    destruct (I5 x Hx) as (q & Hq & E). exists q.
    split; [exact (Hkeep q _ Hq E Hne)|exact E].
  - rewrite Hans. apply Forall_forall. intros a Ha. apply filter_In in Ha.
    destruct Ha as (Ha & Hne). apply negb_true_iff, Z.eqb_neq in Hne.
    destruct (I6 a Ha) as ((x & Hx & Ex1 & Ex2) & (q & Hq & Eq1 & Eq2)). split.
    + exists x. split; [|split; assumption]. rewrite E3. apply filter_In.
      split; [exact Hx|]. apply negb_true_iff, Z.eqb_neq. congruence.
    + exists q. split; [exact (Hkeep q _ Hq Eq1 Hne)|]. split; assumption.
  - rewrite E5. apply Forall_forall. intros r Hr. apply filter_In in Hr.
    destruct Hr as (Hr & Hne). apply negb_true_iff, Z.eqb_neq in Hne.
    destruct (I7 r Hr) as (q & Hq & Eq1 & Eq2). exists q.
    split; [exact (Hkeep q _ Hq Eq1 Hne)|]. split; assumption.
  - rewrite E2. apply Forall_filter_keep. exact I8.
Qed.

(** What is left when a document and the rows that go with it are
    removed. *)
Lemma pdf_delete_in_order (doc : PDFDocument) (w : World) :
  answers_ok w -> keys_below w -> integrity w ->
  answers_ok (snd (PDFDocument_delete doc w)) /\
  keys_below (snd (PDFDocument_delete doc w)) /\
  integrity (snd (PDFDocument_delete doc w)).
Proof.
  intros Hok Hk Hi.
  set (gone := fun k : Z =>
         existsb (fun r => (quiz_id r =? k) && (quiz_pdf r =? pdf_id doc))
                 (quizzes w)).
  set (w' := snd (PDFDocument_delete doc w)) in *.
  assert (E1 : pdf_documents w'
               = filter (fun r => negb (pdf_id r =? pdf_id doc)) (pdf_documents w))
    by reflexivity.
  assert (E2 : quizzes w'
               = filter (fun r => negb (quiz_pdf r =? pdf_id doc)) (quizzes w))
    by reflexivity.
  assert (E3 : questions w'
               = filter (fun r => negb (gone (question_quiz r))) (questions w))
    by reflexivity.
  assert (E4 : user_answers w'
               = filter (fun r => negb (gone (answer_quiz r)
                                        || existsb (fun x => (question_id x =? answer_question r)
                                                             && gone (question_quiz x))
                                                   (questions w)))
                        (user_answers w))
    by reflexivity.
  assert (E5 : results w'
               = filter (fun r => negb (gone (result_quiz r))) (results w))
    by reflexivity.
  assert (E6 : next_pk w' = next_pk w) by reflexivity.
  split; [exact (answers_ok_filter w w' _ _ E3 E4 Hok)|].
  split; [exact (keys_below_filter w w' _ _ _ _ E2 E3 E4 E5 E6 Hk)|].
  destruct Hi as [I1 I2 I3 I4 I5 I6 I7 I8].
  rewrite Forall_forall in I4, I5, I6, I7.
  assert (Hkeep : forall q k, In q (quizzes w) -> quiz_id q = k ->
                              gone k = false -> In q (quizzes w')).
  { intros q k Hq E Hg. rewrite E2. apply filter_In. split; [exact Hq|].
    apply negb_true_iff. destruct (quiz_pdf q =? pdf_id doc) eqn:Ep; [|reflexivity].
    exfalso. assert (gone k = true); [|congruence].
    apply existsb_exists. exists q. split; [exact Hq|].
    rewrite Ep, E, Z.eqb_refl. reflexivity. }
  split; rewrite ?E6; try assumption.
  - rewrite E1. apply Forall_filter_keep. exact I2.
  - rewrite E5. apply Forall_filter_keep. exact I3.
  - rewrite E2. apply Forall_forall. intros q Hq. apply filter_In in Hq.
    destruct Hq as (Hq & Hne). apply negb_true_iff, Z.eqb_neq in Hne.
    destruct (I4 q Hq) as (d & Hd & Ed1 & Ed2). exists d.
    split; [|split; assumption]. rewrite E1. apply filter_In.
    split; [exact Hd|]. apply negb_true_iff, Z.eqb_neq. congruence.
  - rewrite E3. apply Forall_forall. intros x Hx. apply filter_In in Hx.
    destruct Hx as (Hx & Hg). apply negb_true_iff in Hg.
    destruct (I5 x Hx) as (q & Hq & E). exists q.
    split; [exact (Hkeep q _ Hq E Hg)|exact E].
  - rewrite E4. apply Forall_forall. intros a Ha. apply filter_In in Ha.
    destruct Ha as (Ha & Hg). apply negb_true_iff, orb_false_iff in Hg.
    destruct Hg as (Hg & _).
    destruct (I6 a Ha) as ((x & Hx & Ex1 & Ex2) & (q & Hq & Eq1 & Eq2)). split.
    + exists x. split; [|split; assumption]. rewrite E3. apply filter_In.
      split; [exact Hx|]. rewrite Ex2, Hg. reflexivity.
    + exists q. split; [exact (Hkeep q _ Hq Eq1 Hg)|]. split; assumption.
  - rewrite E5. apply Forall_forall. intros r Hr. apply filter_In in Hr.
    destruct Hr as (Hr & Hg). apply negb_true_iff in Hg.
    destruct (I7 r Hr) as (q & Hq & Eq1 & Eq2). exists q.
    split; [exact (Hkeep q _ Hq Eq1 Hg)|]. split; assumption.
  - rewrite E2. apply Forall_filter_keep. exact I8.
Qed.

(* ================================================================= *)
(** * The databases the site can reach *)

Lemma in_order_same_tables (w w' : World) :
  same_tables w w' -> in_order w -> in_order w'.
Proof.
  intros Ht (Hok & Hk & Hi).
  split; [exact (answers_ok_same_tables w w' Ht Hok)|].
  split; [exact (keys_below_same_tables w w' Ht Hk)|].
  destruct Ht as (T1 & T2 & T3 & T4 & T5 & T6).
  apply (integrity_same_rows w); [repeat split; assumption|lia|exact Hi].
Qed.

Lemma delete_quiz_in_order (request : Request) (key : Z) (w : World) :
  in_order w -> in_order (snd (delete_quiz request key w)).
Proof.
  intros Ho. unfold delete_quiz.
  pose proof (get_quiz_run key (request_user request) w) as Hget.
  destruct (find _ (quizzes w)) as [quiz|].
  2:{ rewrite (bind_raised _ _ w _ w Hget). exact Ho. }
  rewrite (bind_returned _ _ w quiz w Hget).
  cbv beta iota delta [bind messages_success modify ret].
  change (Quiz_delete quiz w) with (@Returned unit tt, snd (Quiz_delete quiz w)).
  cbv beta iota. cbn [snd]. destruct Ho as (Hok & Hk & Hi).
  apply (in_order_same_tables (snd (Quiz_delete quiz w))); [repeat split|].
  exact (quiz_delete_in_order quiz w Hok Hk Hi).
Qed.

Lemma delete_pdf_in_order (request : Request) (pdf : Z) (w : World) :
  in_order w -> in_order (snd (delete_pdf request pdf w)).
Proof.
  intros Ho. unfold delete_pdf.
  pose proof (get_document_run pdf (request_user request) w) as Hget.
  destruct (find _ (pdf_documents w)) as [doc|].
  2:{ rewrite (bind_raised _ _ w _ w Hget). exact Ho. }
  rewrite (bind_returned _ _ w doc w Hget).
  cbv beta iota delta [bind messages_success modify ret].
  change (PDFDocument_delete doc w)
    with (@Returned unit tt, snd (PDFDocument_delete doc w)).
  cbv beta iota. cbn [snd]. destruct Ho as (Hok & Hk & Hi).
  apply (in_order_same_tables (snd (PDFDocument_delete doc w))); [repeat split|].
  exact (pdf_delete_in_order doc w Hok Hk Hi).
Qed.

(** The result page changes no table. *)
Lemma quiz_result_tables (request : Request) (key : Z) (w : World) :
  same_tables w (snd (quiz_result request key w)) /\
  llm_calls (snd (quiz_result request key w)) = llm_calls w.
Proof.
  unfold quiz_result.
  pose proof (get_quiz_run key (request_user request) w) as Hget.
  destruct (find _ (quizzes w)) as [quiz|].
  2:{ rewrite (bind_raised _ _ w _ w Hget). split; [apply same_tables_refl|reflexivity]. }
  rewrite (bind_returned _ _ w quiz w Hget).
  cbv beta iota zeta delta [bind ret modify get_world messages_error].
  destruct (last_result_id w) as [k|]; [destruct (k =? 0)|];
    destruct (most_recent _); split; try reflexivity; repeat split.
Qed.

Lemma empty_world_in_order : in_order empty_world.
Proof.
  split; [exact empty_world_ok|]. split; [exact empty_world_keys|].
  exact empty_world_integrity.
Qed.

(** Every view leaves the database in order. *)
Lemma site_in_order (w : World) : site_reachable w -> in_order w.
Proof.
  induction 1 as [|env request w _ (Hok & Hk & Hi)
                  |env request pdf w _ (Hok & Hk & Hi)
                  |env request key w _ (Hok & Hk & Hi)
                  |request files title w _ (Hok & Hk & Hi)
                  |request key w _ IH
                  |request key w _ IH
                  |request pdf w _ IH].
  - exact empty_world_in_order.
  - destruct (proj1 (views_keep_database_in_order env request w Hok Hk)) as (A & B).
    split; [exact A|]. split; [exact B|].
    exact (topic_view_integrity env request w Hk Hi).
  - destruct (proj1 (proj2 (views_keep_database_in_order env request w Hok Hk)) pdf)
      as (A & B).
    split; [exact A|]. split; [exact B|].
    exact (pdf_view_integrity env request pdf w Hk Hi).
  - destruct (proj2 (proj2 (views_keep_database_in_order env request w Hok Hk)) key)
      as (A & B).
    split; [exact A|]. split; [exact B|].
    exact (submit_view_integrity env request key w Hok Hi).
  - exact (upload_view_in_order request files title w Hok Hk Hi).
  - exact (in_order_same_tables _ _ (proj1 (quiz_result_tables request key w)) IH).
  - exact (delete_quiz_in_order request key w IH).
  - exact (delete_pdf_in_order request pdf w IH).
Qed.

(** X14: in every database the views can produce from the empty one
    (creation by topic and from a document, submission, upload, result
    page and the two deletions, with any requests and model answers)
    every quiz refers to a stored document of its owner, every question
    to a stored quiz, every answer to a stored question of its quiz and
    to a quiz of its learner, and every result to a quiz of its learner.
    *)
Theorem references_resolve (w : World) :
  site_reachable w ->
  (forall quiz, In quiz (quizzes w) ->
     exists doc, In doc (pdf_documents w) /\ pdf_id doc = quiz_pdf quiz /\
                 pdf_user doc = quiz_user quiz) /\
  (forall question, In question (questions w) ->
     exists quiz, In quiz (quizzes w) /\ quiz_id quiz = question_quiz question) /\
  (forall answer, In answer (user_answers w) ->
     (exists question, In question (questions w) /\
                       question_id question = answer_question answer /\
                       question_quiz question = answer_quiz answer) /\
     (exists quiz, In quiz (quizzes w) /\ quiz_id quiz = answer_quiz answer /\
                   quiz_user quiz = answer_user answer)) /\
  (forall result, In result (results w) ->
     exists quiz, In quiz (quizzes w) /\ quiz_id quiz = result_quiz result /\
                  quiz_user quiz = result_user result).
Proof.
  intros Hr. destruct (site_in_order w Hr) as (_ & _ & [_ _ _ I4 I5 I6 I7 _]).
  rewrite Forall_forall in I4, I5, I6, I7. auto.
Qed.

(** X15: in every database the views can produce from the empty one
    every stored quiz is marked completed, has one of the difficulties
    Easy, Medium and Hard and was asked for with 1 to 50 questions: a
    quiz whose generation failed is nowhere left behind. *)
Theorem stored_quizzes_are_complete (w : World) :
  site_reachable w ->
  forall quiz, In quiz (quizzes w) ->
    is_completed quiz = true /\
    (quiz_difficulty quiz = py "Easy" \/ quiz_difficulty quiz = py "Medium" \/
     quiz_difficulty quiz = py "Hard") /\
    1 <= number_of_questions quiz <= 50.
Proof.
  intros Hr quiz Hq. destruct (site_in_order w Hr) as (_ & _ & [_ _ _ _ _ _ _ I8]).
  rewrite Forall_forall in I8. destruct (I8 quiz Hq) as (H1 & H2 & H3).
  split; [exact H1|]. split; [|exact H3].
  unfold bad_difficulty in H2. apply negb_false_iff in H2.
  apply orb_true_iff in H2. destruct H2 as [H2|H2].
  - apply orb_true_iff in H2. destruct H2 as [H2|H2]; apply str_eqb_eq in H2; auto.
  - apply str_eqb_eq in H2. auto.
Qed.

(* ================================================================= *)
(** * Documents without text *)

(** X16: an uploaded PDF that gives no text is stored all the same,
    under the next key and for the learner who sent it, and a later
    request of this learner for a quiz from it is refused with one error
    message: no table changes and the model is not called. *)
Theorem upload_without_text_cannot_be_quizzed
  (env : Env) (request later : Request) (upload : UploadedFile)
  (POST_title : option str) (w : World) :
  is_post request = true -> is_pdf_name (file_name upload) = true ->
  documents_below w ->
  (forall text_content,
     page_texts (file_reading upload) = inl text_content ->
     join_lines text_content = []) ->
  request_user later = request_user request -> is_post later = true ->
  exists warning w1 doc w2,
    upload_pdf request (Some upload) POST_title w
      = (Returned (Redirect (py "dashboard") None, warning), w1) /\
    pdf_documents w1 = pdf_documents w ++ [doc] /\
    pdf_id doc = next_pk w /\ pdf_user doc = request_user request /\
    truthy (pdf_text_content doc) = false /\
    create_quiz env later (next_pk w) w1
      = (Returned (Redirect (py "dashboard") None), w2) /\
    same_tables w1 w2 /\ llm_calls w2 = llm_calls w1 /\
    exists text, flash w2 = flash w1 ++ [(Error, text)].
Proof.
  intros Hpost Hname Hbelow Hnotext Huser Hlater.
  destruct (upload_pdf_accepted request upload POST_title w Hpost Hname Hbelow)
    as (warning & w1 & Hrun & E1 & _).
  set (doc := uploaded_document request upload POST_title w) in *.
  assert (Htext : truthy (pdf_text_content doc) = false).
  { unfold doc, uploaded_document. cbn [pdf_text_content].
    destruct (page_texts (file_reading upload)) as [texts|cause] eqn:E;
      [|reflexivity].
    rewrite (Hnotext texts eq_refl). reflexivity. }
  assert (Hfind : find (fun r => (pdf_id r =? next_pk w)
                                 && (pdf_user r =? request_user later))
                       (pdf_documents w1) = Some doc).
  { rewrite E1. apply find_app_last.
    - intros x Hx. unfold documents_below in Hbelow.
      rewrite Forall_forall in Hbelow. specialize (Hbelow x Hx).
      apply andb_false_iff. left. apply Z.eqb_neq. lia.
    - rewrite Huser. cbn. rewrite !Z.eqb_refl. reflexivity. }
  exists warning, w1, doc.
  unfold create_quiz.
  pose proof (get_document_run (next_pk w) (request_user later) w1) as Hget.
  rewrite Hfind in Hget. rewrite (bind_returned _ _ _ _ _ Hget), Hlater, Htext.
  cbn [negb].
  destruct (negb (truthy (POST_subject later)));
    [|destruct (bad_difficulty (POST_difficulty later));
      [|destruct ((POST_num_questions later <? 1) || (POST_num_questions later >? 50))]];
    (eexists; split; [exact Hrun|]; split; [exact E1|]; split; [reflexivity|];
     split; [reflexivity|]; split; [reflexivity|]; split; [reflexivity|];
     split; [repeat split|]; split; [reflexivity|]; eexists; reflexivity).
Qed.

(* ================================================================= *)
(** * Prompts sent to the model *)

Section Sending.

Variable allowed : str * str -> Prop.

Lemma sends_nothing w w' : llm_calls w' = llm_calls w -> sends_upto 0 allowed w w'.
Proof. intros E. exists []. rewrite app_nil_r. repeat split; auto. Qed.

Lemma sends_more n m w w' :
  (n <= m)%nat -> sends_upto n allowed w w' -> sends_upto m allowed w w'.
Proof. intros L (calls & E & Hl & Ha). exists calls. repeat split; auto. lia. Qed.

Lemma sends_then n m w1 w2 w3 :
  sends_upto n allowed w1 w2 -> sends_upto m allowed w2 w3 ->
  sends_upto (n + m) allowed w1 w3.
Proof.
  intros (c1 & E1 & L1 & A1) (c2 & E2 & L2 & A2). exists (c1 ++ c2).
  rewrite E2, E1, <- app_assoc, length_app. repeat split; [lia|].
  apply Forall_app. auto.
Qed.

Lemma sends_ret {A} (a : A) : sends 0 allowed (ret a).
Proof. intros w. apply sends_nothing. reflexivity. Qed.

Lemma sends_raise {A} (e : exn) : sends 0 allowed (@raise A e).
Proof. intros w. apply sends_nothing. reflexivity. Qed.

Lemma sends_bind {A B} n m (c : M A) (k : A -> M B) :
  sends n allowed c -> (forall a, sends m allowed (k a)) ->
  sends (n + m) allowed (bind c k).
Proof.
  intros Hc Hk w. unfold bind. specialize (Hc w).
  destruct (c w) as [[a|e] w1]; cbn [snd] in *.
  - exact (sends_then _ _ _ _ _ Hc (Hk a w1)).
  - apply (sends_more n); [lia|exact Hc].
Qed.

Lemma sends_try {A} n m (body : M A) (handler : exn -> M A) :
  sends n allowed body -> (forall e, sends m allowed (handler e)) ->
  sends (n + m) allowed (try_except body handler).
Proof.
  intros Hb Hh w. unfold try_except. specialize (Hb w).
  destruct (body w) as [[a|e] w1]; cbn [snd] in *.
  - apply (sends_more n); [lia|exact Hb].
  - exact (sends_then _ _ _ _ _ Hb (Hh e w1)).
Qed.

Lemma sends_quiet {A} (c : M A) :
  (forall w, llm_calls (snd (c w)) = llm_calls w) -> sends 0 allowed c.
Proof. intros H w. apply sends_nothing. apply H. Qed.

Lemma sends_for_each {A} (xs : list A) (body : A -> M unit) :
  (forall x, sends 0 allowed (body x)) -> sends 0 allowed (for_each xs body).
Proof.
  intros Hb. induction xs as [|x xs IH]; cbn [for_each].
  - apply sends_ret.
  - apply (sends_bind 0 0); [apply Hb|intros _; exact IH].
Qed.

Lemma sends_py_get v k d : sends 0 allowed (py_get v k d).
Proof. apply sends_quiet. intros w. destruct v; reflexivity. Qed.

Lemma sends_not_null column v : sends 0 allowed (not_null column v).
Proof. apply sends_quiet. intros w. destruct v; reflexivity. Qed.

Lemma sends_save_questions env quiz data :
  sends 0 allowed (save_questions env quiz data).
Proof.
  unfold save_questions. apply (sends_bind 0 0).
  - apply sends_quiet. intros w. destruct data; reflexivity.
  - intros items. apply sends_for_each. intros iq.
    repeat (apply (sends_bind 0 0); [apply sends_py_get|intros ?]).
    apply (sends_bind 0 0); [|intros ?; apply sends_ret].
    unfold Question_create.
    repeat (apply (sends_bind 0 0); [apply sends_not_null|intros ?]).
    apply sends_quiet. intros w. reflexivity.
Qed.

Lemma sends_generation_failed quiz e : sends 0 allowed (generation_failed quiz e).
Proof. apply sends_quiet. intros w. unfold generation_failed. destruct (kind e); reflexivity. Qed.

Lemma sends_parse_quiz env response :
  sends 0 allowed (parse_quiz_response env response).
Proof.
  apply sends_quiet. intros w.
  exact (proj1 (proj2 (parse_quiz_response_effects env response w))).
Qed.

End Sending.

Lemma sends_generate env text subject difficulty n :
  sends 1 (fun call => call = (py "gemini-2.5-flash",
                               generate_quiz_prompt text subject difficulty n))
        (generate_quiz_questions env text subject difficulty n) /\
  (key_rejected (api_key env) = true ->
   sends 0 (fun _ => False)
         (generate_quiz_questions env text subject difficulty n)).
Proof.
  unfold generate_quiz_questions, QuizGenerator_init.
  destruct (key_rejected (api_key env)).
  - split; [|intros _]; intros w; [apply (sends_more _ 0 1); [lia|]|];
      apply sends_nothing; reflexivity.
  - split; [|discriminate]. intros w.
    cbv beta iota zeta delta [bind ret modify invoke generate_questions model raise].
    exists [(py "gemini-2.5-flash", generate_quiz_prompt text subject difficulty n)].
    split; [|split; [cbn; lia|constructor; [reflexivity|constructor]]].
    destruct (llm_invoke env (py "gemini-2.5-flash")
                (generate_quiz_prompt text subject difficulty n)) as [reply|cause].
    + match goal with |- context [parse_quiz_response env reply ?w0] =>
        rewrite (proj1 (proj2 (parse_quiz_response_effects env reply w0)))
      end.
      reflexivity.
    + reflexivity.
Qed.

Lemma sends_weaken {A} n (P Q : str * str -> Prop) (c : M A) :
  (forall call, P call -> Q call) -> sends n P c -> sends n Q c.
Proof.
  intros H Hc w. destruct (Hc w) as (calls & E & L & F).
  exists calls. repeat split; auto. eapply Forall_impl; [|exact F]. exact H.
Qed.

(** The part of a creation view that starts with the creation of the
    quiz row: one prompt at most, none without a credential. *)
Lemma sends_creation env request doc subject difficulty text :
  let composite :=
    (quiz <- Quiz_create (request_user request) doc subject difficulty
               (POST_num_questions request) ;;
     early <- try_except
                (generate_and_save env quiz text subject difficulty
                   (POST_num_questions request) ;;; ret None)
                (fun e => r <- generation_failed quiz e ;; ret (Some r)) ;;
     match early with
     | Some r => ret r
     | None => ret (Redirect (py "take_quiz") (Some (quiz_id quiz)))
     end)%monad in
  sends 1 (fun call => call = (py "gemini-2.5-flash",
                               generate_quiz_prompt text subject difficulty
                                 (POST_num_questions request)))
        composite /\
  (key_rejected (api_key env) = true -> sends 0 (fun _ => False) composite).
Proof.
  destruct (sends_generate env text subject difficulty (POST_num_questions request))
    as (Hg1 & Hg0).
  assert (G : forall k allowed,
            sends k allowed
              (generate_quiz_questions env text subject difficulty
                 (POST_num_questions request)) ->
            sends k allowed
              (quiz <- Quiz_create (request_user request) doc subject difficulty
                         (POST_num_questions request) ;;
               early <- try_except
                          (generate_and_save env quiz text subject difficulty
                             (POST_num_questions request) ;;; ret None)
                          (fun e => r <- generation_failed quiz e ;; ret (Some r)) ;;
               match early with
               | Some r => ret r
               | None => ret (Redirect (py "take_quiz") (Some (quiz_id quiz)))
               end)%monad).
  { intros k allowed Hgen.
    apply (sends_bind allowed 0 k); [apply sends_quiet; reflexivity|intros quiz].
    replace k with (k + 0)%nat by lia.
    apply (sends_bind allowed k 0).
    2:{ intros [r|]; apply sends_ret. }
    replace k with (k + 0)%nat by lia.
    apply (sends_try allowed k 0).
    2:{ intros e. apply (sends_bind allowed 0 0);
          [apply sends_generation_failed|intros r; apply sends_ret]. }
    replace k with (k + 0)%nat by lia.
    apply (sends_bind allowed k 0); [|intros _; apply sends_ret].
    unfold generate_and_save.
    replace k with (k + 0)%nat by lia.
    apply (sends_bind allowed k 0); [exact Hgen|intros data].
    apply (sends_bind allowed 0 0); [apply sends_save_questions|intros _].
    apply (sends_bind allowed 0 0); [apply sends_quiet; intros w; unfold Quiz_save, modify; cbn [snd]; destruct (existsb _ _); reflexivity|intros _].
    apply (sends_bind allowed 0 0);
      [apply sends_quiet; intros w; destruct data; reflexivity|intros len].
    apply sends_quiet. reflexivity. }
  split; [exact (G 1%nat _ Hg1)|].
  intros Hrej. exact (G 0%nat _ (Hg0 Hrej)).
Qed.

(* ================================================================= *)
(** * One prompt for each request *)

Lemma sends_update_or_create allowed user quiz question selected correct :
  sends 0 allowed (UserAnswer_update_or_create user quiz question selected correct).
Proof.
  apply sends_quiet. intros w. unfold UserAnswer_update_or_create, bind, get_world.
  destruct (filter _ (user_answers w)) as [|r0 [|r1 rest]]; [|reflexivity|reflexivity].
  destruct (existsb _ (user_answers w)); reflexivity.
Qed.

Lemma sends_grade_questions allowed request quiz qs :
  forall t, sends 0 allowed (grade_questions request quiz qs t).
Proof.
  induction qs as [|q qs IH]; intros t; cbn [grade_questions].
  - apply sends_ret.
  - apply (sends_bind allowed 0 0); [|intros t'; apply IH].
    unfold grade_question.
    destruct (truthy (posted_answer (question_id q) (POST_answers request)));
      [|apply sends_ret].
    apply (sends_bind allowed 0 0);
      [apply sends_update_or_create|intros _; apply sends_ret].
Qed.

Lemma sends_feedback env subject total right wrong answers difficulty :
  sends 1 (feedback_call env)
        (try_except
           (generate_performance_feedback env subject total right wrong answers
              difficulty)
           feedback_failed) /\
  (key_rejected (api_key env) = true ->
   sends 0 (fun _ => False)
         (try_except
            (generate_performance_feedback env subject total right wrong answers
               difficulty)
            feedback_failed)).
Proof.
  unfold try_except, generate_performance_feedback, PerformanceAnalyzer_init.
  destruct (key_rejected (api_key env)).
  - split; [|intros _]; intros w; [apply (sends_more _ 0 1); [lia|]|];
      apply sends_nothing; reflexivity.
  - split; [|discriminate]. intros w.
    cbv beta iota zeta delta [bind ret modify invoke generate_feedback model raise].
    exists [(py "gemini-1.5-flash",
             generate_feedback_prompt env subject total right wrong answers difficulty)].
    split; [|split; [cbn; lia|constructor; [|constructor]]].
    + destruct (llm_invoke env (py "gemini-1.5-flash")
                  (generate_feedback_prompt env subject total right wrong answers
                     difficulty)) as [reply|cause].
      * match goal with |- context [parse_feedback_response env reply ?w0] =>
          destruct (parse_feedback_response_returns env reply w0)
            as (a & b & c & w' & Hp & _ & Hc & _)
        end.
        rewrite Hp. cbn [snd]. rewrite Hc. reflexivity.
      * reflexivity.
    + split; [reflexivity|]. do 6 eexists. reflexivity.
Qed.

Lemma sends_submit env request key :
  sends 1 (feedback_call env) (submit_quiz env request key) /\
  (key_rejected (api_key env) = true ->
   sends 0 (fun _ => False) (submit_quiz env request key)).
Proof.
  assert (G : forall k allowed,
            (forall subject total right wrong answers difficulty,
               sends k allowed
                 (try_except
                    (generate_performance_feedback env subject total right wrong
                       answers difficulty)
                    feedback_failed)) ->
            sends k allowed (submit_quiz env request key)).
  { intros k allowed Hfb. unfold submit_quiz.
    apply (sends_bind allowed 0 k).
    { apply sends_quiet. intros w. rewrite get_quiz_run.
      destruct (find _ (quizzes w)); reflexivity. }
    intros quiz. destruct (is_post request).
    2:{ apply (fun H => H : sends k allowed _). intros w.
        apply (sends_more _ 0 k); [lia|]. apply sends_nothing. reflexivity. }
    apply (sends_bind allowed 0 k); [apply sends_quiet; reflexivity|intros w0].
    apply (sends_bind allowed 0 k); [apply sends_grade_questions|intros t].
    replace k with (k + 0)%nat by lia.
    apply (sends_bind allowed k 0); [apply Hfb|intros fb].
    apply (sends_bind allowed 0 0); [apply sends_quiet; reflexivity|intros row].
    apply (sends_bind allowed 0 0); [apply sends_quiet; reflexivity|intros _].
    apply sends_ret. }
  split.
  - apply G. intros. apply sends_feedback.
  - intros Hrej. apply G. intros. apply sends_feedback. exact Hrej.
Qed.

(** X17: a request sends at most one prompt to the model: a creation
    view one to gemini-2.5-flash, built by [generate_quiz_prompt] from
    the fields of the request (and the text of the document), a
    submission one to gemini-1.5-flash, built by
    [generate_feedback_prompt]; and with a credential that is rejected
    none of the three views sends anything. *)
Theorem one_prompt_per_request (env : Env) (request : Request) (w : World) :
  sends_upto 1
    (fun call =>
       call = (py "gemini-2.5-flash",
               generate_quiz_prompt
                 (py "Generate questions about: " ++ text_of (POST_topic request))
                 (text_of (POST_topic request))
                 (text_of (POST_difficulty request))
                 (POST_num_questions request)))
    w (snd (create_quiz_from_topic env request w)) /\
  (forall pdf,
     sends_upto 1
       (fun call =>
          exists doc,
            In doc (pdf_documents w) /\ pdf_id doc = pdf /\
            pdf_user doc = request_user request /\
            call = (py "gemini-2.5-flash",
                    generate_quiz_prompt (text_of (pdf_text_content doc))
                      (text_of (POST_subject request))
                      (text_of (POST_difficulty request))
                      (POST_num_questions request)))
       w (snd (create_quiz env request pdf w))) /\
  (forall key,
     sends_upto 1 (feedback_call env) w (snd (submit_quiz env request key w))) /\
  (key_rejected (api_key env) = true ->
   llm_calls (snd (create_quiz_from_topic env request w)) = llm_calls w /\
   (forall pdf, llm_calls (snd (create_quiz env request pdf w)) = llm_calls w) /\
   (forall key, llm_calls (snd (submit_quiz env request key w)) = llm_calls w)).
Proof.
  assert (Hquiet : forall w', sends_upto 0 (fun _ => False) w w' ->
                              llm_calls w' = llm_calls w).
  { intros w' (calls & E & L & _). destruct calls; [|cbn in L; lia].
    rewrite E. apply app_nil_r. }
  assert (Htopic : forall k allowed,
            (forall doc,
               sends k allowed
                 (quiz <- Quiz_create (request_user request) doc
                            (text_of (POST_topic request))
                            (text_of (POST_difficulty request))
                            (POST_num_questions request) ;;
                  early <- try_except
                             (generate_and_save env quiz
                                (py "Generate questions about: "
                                 ++ text_of (POST_topic request))
                                (text_of (POST_topic request))
                                (text_of (POST_difficulty request))
                                (POST_num_questions request) ;;; ret None)
                             (fun e => r <- generation_failed quiz e ;; ret (Some r)) ;;
                  match early with
                  | Some r => ret r
                  | None => ret (Redirect (py "take_quiz") (Some (quiz_id quiz)))
                  end)%monad) ->
            sends_upto k allowed w (snd (create_quiz_from_topic env request w))).
  { intros k allowed H. unfold create_quiz_from_topic.
    destruct (is_post request);
      [|apply (sends_more _ 0 k); [lia|apply sends_nothing; reflexivity]].
    destruct (negb (truthy (POST_topic request)));
      [apply (sends_more _ 0 k); [lia|apply sends_nothing; reflexivity]|].
    destruct (bad_difficulty (POST_difficulty request));
      [apply (sends_more _ 0 k); [lia|apply sends_nothing; reflexivity]|].
    destruct ((POST_num_questions request <? 1) || (POST_num_questions request >? 50));
      [apply (sends_more _ 0 k); [lia|apply sends_nothing; reflexivity]|].
    refine (sends_bind allowed 0 k _ _ _ _ w);
      [apply sends_quiet; reflexivity|intros doc; apply H]. }
  assert (Hpdf : forall pdf k (allowed : PDFDocument -> str * str -> Prop),
            (forall doc,
               sends k (allowed doc)
                 (quiz <- Quiz_create (request_user request) doc
                            (text_of (POST_subject request))
                            (text_of (POST_difficulty request))
                            (POST_num_questions request) ;;
                  early <- try_except
                             (generate_and_save env quiz
                                (text_of (pdf_text_content doc))
                                (text_of (POST_subject request))
                                (text_of (POST_difficulty request))
                                (POST_num_questions request) ;;; ret None)
                             (fun e => r <- generation_failed quiz e ;; ret (Some r)) ;;
                  match early with
                  | Some r => ret r
                  | None => ret (Redirect (py "take_quiz") (Some (quiz_id quiz)))
                  end)%monad) ->
            sends_upto k
              (fun call => exists doc,
                 In doc (pdf_documents w) /\ pdf_id doc = pdf /\
                 pdf_user doc = request_user request /\ allowed doc call)
              w (snd (create_quiz env request pdf w))).
  { intros pdf k allowed H. unfold create_quiz.
    pose proof (get_document_run pdf (request_user request) w) as Hget.
    destruct (find _ (pdf_documents w)) as [doc|] eqn:Hfind.
    2:{ rewrite (bind_raised _ _ w _ w Hget).
        apply (sends_more _ 0 k); [lia|apply sends_nothing; reflexivity]. }
    rewrite (bind_returned _ _ w doc w Hget).
    destruct (is_post request);
      [|apply (sends_more _ 0 k); [lia|apply sends_nothing; reflexivity]].
    destruct (negb (truthy (POST_subject request)));
      [apply (sends_more _ 0 k); [lia|apply sends_nothing; reflexivity]|].
    destruct (bad_difficulty (POST_difficulty request));
      [apply (sends_more _ 0 k); [lia|apply sends_nothing; reflexivity]|].
    destruct ((POST_num_questions request <? 1) || (POST_num_questions request >? 50));
      [apply (sends_more _ 0 k); [lia|apply sends_nothing; reflexivity]|].
    destruct (negb (truthy (pdf_text_content doc)));
      [apply (sends_more _ 0 k); [lia|apply sends_nothing; reflexivity]|].
    apply find_some in Hfind. destruct Hfind as (Hin & Hc).
    apply andb_true_iff in Hc. destruct Hc as (Hid & Hu).
    apply Z.eqb_eq in Hid, Hu.
    destruct (H doc w) as (calls & E & L & F). exists calls.
    split; [exact E|]. split; [exact L|].
    eapply Forall_impl; [|exact F]. cbn beta. intros call Hcall.
    exists doc. auto. }
  split; [|split; [|split]].
  - apply Htopic. intros doc. apply sends_creation.
  - intros pdf.
    destruct (Hpdf pdf 1%nat
                (fun doc call =>
                   call = (py "gemini-2.5-flash",
                           generate_quiz_prompt (text_of (pdf_text_content doc))
                             (text_of (POST_subject request))
                             (text_of (POST_difficulty request))
                             (POST_num_questions request))))
      as (calls & E & L & F).
    + intros doc. apply sends_creation.
    + exists calls. auto.
  - intros key. apply sends_submit.
  - intros Hrej. split; [|split].
    + apply Hquiet. apply Htopic. intros doc. apply sends_creation. exact Hrej.
    + intros pdf. apply Hquiet.
      destruct (Hpdf pdf 0%nat (fun _ _ => False)) as (calls & E & L & F).
      * intros doc. apply sends_creation. exact Hrej.
      * exists calls. split; [exact E|]. split; [exact L|].
        destruct calls; [constructor|cbn in L; lia].
    + intros key. apply Hquiet. apply sends_submit. exact Hrej.
Qed.

(* ================================================================= *)
(** * The rows of other learners *)





(* ================================================================= *)
(** * A session key that is out of date *)


(* ================================================================= *)
(** * Who may see a quiz *)

Lemma not_the_owner (key user : Z) (quiz : Quiz) (w : World) :
  NoDup (map quiz_id (quizzes w)) ->
  find (fun r => quiz_id r =? key) (quizzes w) = Some quiz ->
  quiz_user quiz <> user ->
  find (fun r => (quiz_id r =? key) && (quiz_user r =? user)) (quizzes w) = None.
Proof.
  intros Hnd Hfind Hother.
  apply find_some in Hfind. destruct Hfind as [Hin Hkey]. apply Z.eqb_eq in Hkey.
  apply find_none_all. intros x Hx.
  destruct (quiz_id x =? key) eqn:Ex; [|reflexivity].
  destruct (quiz_user x =? user) eqn:Eu; [|reflexivity].
  apply Z.eqb_eq in Ex, Eu. exfalso. apply Hother.
  assert (x = quiz) by (eapply NoDup_map_inj; eauto; congruence).
  subst x. exact Eu.
Qed.

Lemma rev_Forall {A} (P : A -> Prop) (l : list A) :
  Forall P l -> Forall P (rev l).
Proof.
  intros H. apply Forall_forall. intros x Hx. apply in_rev in Hx.
  revert x Hx. apply Forall_forall. exact H.
Qed.

(** X20: a learner gets 404 from the views that take, grade, show the
    result of and delete a quiz of somebody else, and nothing changes;
    the detail page shows this quiz with all its questions, and of the
    answers and results it shows the learner's own only. *)
Theorem quiz_detail_is_open_to_every_learner
  (env : Env) (request : Request) (key : Z) (quiz : Quiz) (w : World) :
  NoDup (map quiz_id (quizzes w)) ->
  find (fun r => quiz_id r =? key) (quizzes w) = Some quiz ->
  quiz_user quiz <> request_user request ->
  take_quiz request key w = (Raised not_found, w) /\
  submit_quiz env request key w = (Raised not_found, w) /\
  quiz_result request key w = (Raised not_found, w) /\
  delete_quiz request key w = (Raised not_found, w) /\
  exists context,
    quiz_detail request false key w = (Returned context, w) /\
    shown_quiz context = quiz /\
    shown_questions context = quiz_questions w quiz /\
    Forall (fun r => answer_user r = request_user request)
           (shown_answers context) /\
    forall row, shown_result context = inr (Some row) ->
                result_user row = request_user request.
Proof.
  intros Hnd Hfind Hother.
  pose proof (not_the_owner key (request_user request) quiz w Hnd Hfind Hother)
    as Hnone.
  pose proof (get_quiz_run key (request_user request) w) as Hget.
  rewrite Hnone in Hget.
  split; [|split; [|split; [|split]]].
  - unfold take_quiz. apply bind_raised. exact Hget.
  - unfold submit_quiz. apply bind_raised. exact Hget.
  - unfold quiz_result. apply bind_raised. exact Hget.
  - unfold delete_quiz. apply bind_raised. exact Hget.
  - eexists. split.
    + unfold quiz_detail, get_any_quiz_or_404, bind, get_world, ret.
      rewrite Hfind. reflexivity.
    + cbn [shown_quiz shown_questions shown_answers shown_result].
      split; [reflexivity|]. split; [reflexivity|]. split.
      * apply rev_Forall. apply Forall_forall. intros r Hr.
        apply filter_In in Hr. destruct Hr as [_ Hr].
        apply andb_true_iff in Hr. destruct Hr as [Hu _].
        apply Z.eqb_eq. exact Hu.
      * intros row [= Hrow]. unfold most_recent in Hrow.
        destruct (rev _) as [|r l] eqn:Erev; [discriminate|].
        injection Hrow as ->.
        assert (Hin : In row (rev (filter (fun r => (result_user r =? request_user request)
                                      && (result_quiz r =? quiz_id quiz)) (results w))))
          by (rewrite Erev; left; reflexivity).
        apply in_rev in Hin. apply filter_In in Hin. destruct Hin as [_ Hr].
        apply andb_true_iff in Hr. destruct Hr as [Hu _].
        apply Z.eqb_eq. exact Hu.
Qed.

(* ================================================================= *)
(** * Facts about the staff views *)

Lemma users_save_user_profile (instance : User) (s : Accounts) :
  users (save_user_profile instance s) = users s.
Proof.
  unfold save_user_profile. destruct (profile_of s instance); reflexivity.
Qed.

Lemma users_User_save (user : User) (s : Accounts) :
  users (User_save user s)
  = map (fun r => if user_id r =? user_id user then user else r) (users s).
Proof. unfold User_save. rewrite users_save_user_profile. reflexivity. Qed.

Lemma find_user_saved (user : User) (rows : list User) (found : User) :
  find (fun r => user_id r =? user_id user) rows = Some found ->
  find (fun r => user_id r =? user_id user)
       (map (fun r => if user_id r =? user_id user then user else r) rows)
  = Some user.
Proof.
  induction rows as [|r rows IH]; simpl; [discriminate|].
  destruct (user_id r =? user_id user) eqn:E.
  - intros _. simpl. rewrite Z.eqb_refl. reflexivity.
  - intros H. simpl. rewrite E. apply IH, H.
Qed.

Lemma find_user_key (k : Z) (rows : list User) (found : User) :
  find (fun r => user_id r =? k) rows = Some found ->
  user_id found = k /\ In found rows.
Proof.
  intros H. apply find_some in H. destruct H as [Hin Hk].
  apply Z.eqb_eq in Hk. split; assumption.
Qed.

Lemma find_profile_saved (k : Z) (profile : UserProfile) (status : str)
  (rows : list UserProfile) :
  find (fun p => profile_user p =? k) rows = Some profile ->
  find (fun p => profile_user p =? k)
       (map (fun r => if profile_id r =? profile_id profile
                      then with_status profile status else r) rows)
  = Some (with_status profile status).
Proof.
  intros Hfind.
  assert (Hk : profile_user profile = k).
  { apply find_some in Hfind. destruct Hfind as [_ H]. apply Z.eqb_eq, H. }
  revert Hfind.
  induction rows as [|r rows IH]; simpl; [discriminate|].
  destruct (profile_user r =? k) eqn:E.
  - intros H. injection H as ->. rewrite Z.eqb_refl. simpl.
    rewrite Hk, Z.eqb_refl. reflexivity.
  - intros H. destruct (profile_id r =? profile_id profile).
    + simpl. rewrite Hk, Z.eqb_refl. reflexivity.
    + simpl. rewrite E. apply IH, H.
Qed.

Lemma find_profile_created (k : Z) (row : UserProfile)
  (rows : list UserProfile) :
  find (fun p => profile_user p =? k) rows = None ->
  profile_user row = k ->
  find (fun p => profile_user p =? k) (rows ++ [row]) = Some row.
Proof.
  intros Hnone Hk.
  induction rows as [|r rows IH]; simpl in *.
  - rewrite Hk, Z.eqb_refl. reflexivity.
  - destruct (profile_user r =? k); [discriminate|]. apply IH, Hnone.
Qed.

(** Saving a profile that is the user's own a second time leaves the
    user's profile as it is. *)
Lemma find_profile_resaved (k : Z) (profile : UserProfile)
  (rows : list UserProfile) :
  find (fun p => profile_user p =? k) rows = Some profile ->
  find (fun p => profile_user p =? k)
       (map (fun r => if profile_id r =? profile_id profile
                      then profile else r) rows)
  = Some profile.
Proof.
  intros Hfind.
  assert (Hk : profile_user profile = k).
  { apply find_some in Hfind. destruct Hfind as [_ H]. apply Z.eqb_eq, H. }
  revert Hfind.
  induction rows as [|r rows IH]; simpl; [discriminate|].
  destruct (profile_user r =? k) eqn:E.
  - intros H. injection H as ->. rewrite Z.eqb_refl. simpl.
    rewrite Hk, Z.eqb_refl. reflexivity.
  - intros H. destruct (profile_id r =? profile_id profile).
    + simpl. rewrite Hk, Z.eqb_refl. reflexivity.
    + simpl. rewrite E. apply IH, H.
Qed.

Lemma profile_after_User_save (user : User) (s : Accounts) (p : UserProfile) :
  profile_of s user = Some p ->
  profile_of (User_save user s) user = Some p.
Proof.
  intros H. unfold User_save, save_user_profile.
  unfold profile_of in *. simpl. rewrite H. simpl.
  apply find_profile_resaved, H.
Qed.

Lemma approve_user_shape (request_user : User) (target : Z) (s : Accounts) :
  approve_user request_user target s
  = set_status request_user target (py "Approved") NoticeSuccess
      (py " has been approved.") s.
Proof. reflexivity. Qed.

Lemma reject_user_shape (request_user : User) (target : Z) (s : Accounts) :
  reject_user request_user target s
  = set_status request_user target (py "Rejected") NoticeWarning
      (py " has been rejected.") s.
Proof. reflexivity. Qed.

(** What [approve_user] and [reject_user] do to an account of somebody
    else. *)
Lemma set_status_run (request_user : User) (target : Z) (status : str)
  (level : notice) (text : str) (s : Accounts) (target_user : User) :
  is_staff request_user = true ->
  find (fun r => user_id r =? target) (users s) = Some target_user ->
  target <> user_id request_user ->
  exists s',
    set_status request_user target status level text s
    = (Returned (Redirect (py "admin_dashboard") None), s') /\
    users s'
    = map (fun r => if user_id r =? target
                    then with_active target_user true else r) (users s) /\
    find (fun r => user_id r =? target) (users s')
    = Some (with_active target_user true) /\
    (exists p, profile_of s' target_user = Some p /\ profile_status p = status) /\
    notices s'
    = notices s ++ [(level, py "User " ++ username target_user ++ text)].
Proof.
  intros Hstaff Hfind Hself.
  destruct (find_user_key _ _ _ Hfind) as [Hk _].
  unfold set_status. rewrite Hstaff, Hfind. simpl negb. cbv iota.
  rewrite Hk. destruct (target =? user_id request_user) eqn:E;
    [apply Z.eqb_eq in E; contradiction|].
  eexists. split; [reflexivity|].
  assert (Hid : user_id (with_active target_user true) = target)
    by (simpl; exact Hk).
  split; [|split; [|split]].
  - simpl users. rewrite users_User_save. rewrite Hid.
    destruct (profile_of s target_user); reflexivity.
  - simpl users. rewrite users_User_save.
    assert (Hu : forall s1, users s1 = users s ->
      find (fun r => user_id r =? target)
        (map (fun r => if user_id r =? user_id (with_active target_user true)
                       then with_active target_user true else r) (users s1))
      = Some (with_active target_user true)).
    { intros s1 E1. rewrite E1.
      pose proof (find_user_saved (with_active target_user true) (users s)
                    target_user) as Hs.
      rewrite Hid in Hs |- *. apply Hs, Hfind. }
    apply Hu. destruct (profile_of s target_user); reflexivity.
  - assert (Hp : forall s1 p, profile_of s1 target_user = Some p ->
        profile_of (add_notice (User_save (with_active target_user true) s1)
                      level (py "User " ++ username target_user ++ text))
          target_user
        = Some p).
    { intros s1 p H1.
      pose proof (profile_after_User_save (with_active target_user true) s1 p)
        as Hs.
      unfold profile_of in *. simpl in Hs |- *. apply Hs, H1. }
    destruct (profile_of s target_user) as [profile|] eqn:Ep.
    + exists (with_status profile status). split; [|reflexivity].
      apply Hp. unfold profile_of, UserProfile_save. simpl.
      apply find_profile_saved. exact Ep.
    + eexists. split.
      * apply Hp. unfold profile_of, UserProfile_create. simpl.
        apply find_profile_created; [exact Ep | reflexivity].
      * reflexivity.
  - simpl notices. unfold User_save, save_user_profile.
    destruct (profile_of s target_user);
      match goal with |- context [profile_of ?S ?U] =>
        destruct (profile_of S U) end; reflexivity.
Qed.

Lemma user_row_unique (rows : list User) (a b : User) :
  NoDup (map user_id rows) -> In a rows -> In b rows ->
  user_id a = user_id b -> a = b.
Proof.
  induction rows as [|r rows IH]; simpl; [contradiction|].
  intros Hnd Ha Hb E. inversion Hnd as [|? ? Hnot Hnd']; subst.
  destruct Ha as [->|Ha], Hb as [->|Hb].
  - reflexivity.
  - exfalso. apply Hnot. rewrite E. apply in_map, Hb.
  - exfalso. apply Hnot. rewrite <- E. apply in_map, Ha.
  - apply IH; assumption.
Qed.

Lemma saved_twice_restores (rows : list User) (user : User) (active : bool) :
  NoDup (map user_id rows) -> In user rows ->
  map (fun r => if user_id r =? user_id user then user else r)
      (map (fun r => if user_id r =? user_id user
                     then with_active user active else r) rows)
  = rows.
Proof.
  intros Hnd Hin. rewrite map_map.
  rewrite <- (map_id rows) at 2. apply map_ext_in. intros r Hr.
  destruct (user_id r =? user_id user) eqn:E.
  - simpl. rewrite Z.eqb_refl. symmetry.
    apply Z.eqb_eq in E. eapply user_row_unique; eassumption.
  - rewrite E. reflexivity.
Qed.

Lemma toggle_run (request_user : User) (target : Z) (s : Accounts)
  (target_user : User) :
  is_staff request_user = true ->
  find (fun r => user_id r =? target) (users s) = Some target_user ->
  target <> user_id request_user ->
  exists s',
    toggle_user_status request_user target s
    = (Returned (Redirect (py "admin_dashboard") None), s') /\
    users s'
    = map (fun r => if user_id r =? target
                    then with_active target_user (negb (is_active target_user))
                    else r) (users s) /\
    find (fun r => user_id r =? target) (users s')
    = Some (with_active target_user (negb (is_active target_user))) /\
    notices s'
    = notices s ++ [(NoticeSuccess,
                     py "User " ++ username target_user ++ py " has been "
                     ++ (if negb (is_active target_user)
                         then py "activated" else py "deactivated")
                     ++ py ".")].
Proof.
  intros Hstaff Hfind Hself.
  destruct (find_user_key _ _ _ Hfind) as [Hk _].
  unfold toggle_user_status. rewrite Hstaff, Hfind. simpl negb. cbv iota.
  rewrite Hk. destruct (target =? user_id request_user) eqn:E;
    [apply Z.eqb_eq in E; contradiction|].
  eexists. split; [reflexivity|].
  set (saved := with_active target_user (negb (is_active target_user))).
  assert (Hid : user_id saved = target) by (simpl; exact Hk).
  split; [|split].
  - cbv zeta. simpl users. rewrite users_User_save. fold saved.
    rewrite Hid. reflexivity.
  - cbv zeta. simpl users. rewrite users_User_save. fold saved.
    pose proof (find_user_saved saved (users s) target_user) as Hs.
    rewrite Hid in Hs |- *. apply Hs, Hfind.
  - cbv zeta. simpl notices. unfold User_save, save_user_profile.
    match goal with |- context [profile_of ?S ?U] =>
      destruct (profile_of S U) end; reflexivity.
Qed.

(** X21: a staff member who rejects the account of somebody else sets
    the status of the profile to Rejected and issues a warning, and the
    account is saved as active: the table of users is the one approving
    the account would give. *)
Theorem rejected_account_stays_active
  (request_user : User) (target : Z) (s : Accounts) (target_user : User) :
  is_staff request_user = true ->
  find (fun r => user_id r =? target) (users s) = Some target_user ->
  target <> user_id request_user ->
  let s' := snd (reject_user request_user target s) in
  fst (reject_user request_user target s)
  = Returned (Redirect (py "admin_dashboard") None) /\
  (exists row, find (fun r => user_id r =? target) (users s') = Some row /\
               is_active row = true) /\
  (exists p, profile_of s' target_user = Some p /\
             profile_status p = py "Rejected") /\
  users s' = users (snd (approve_user request_user target s)) /\
  notices s'
  = notices s ++ [(NoticeWarning, py "User " ++ username target_user
                                  ++ py " has been rejected.")].
Proof.
  intros Hstaff Hfind Hself s'.
  destruct (set_status_run request_user target (py "Rejected") NoticeWarning
              (py " has been rejected.") s target_user Hstaff Hfind Hself)
    as (r1 & Hrun & Husers & Hrow & Hprofile & Hnotes).
  destruct (set_status_run request_user target (py "Approved") NoticeSuccess
              (py " has been approved.") s target_user Hstaff Hfind Hself)
    as (r2 & Hrun2 & Husers2 & _).
  subst s'. rewrite reject_user_shape, approve_user_shape, Hrun, Hrun2. simpl.
  split; [reflexivity|]. split; [|split; [|split]].
  - eexists. split; [exact Hrow | reflexivity].
  - exact Hprofile.
  - rewrite Husers, Husers2. reflexivity.
  - exact Hnotes.
Qed.

(** X22: the three staff views change no user and no profile when the
    visitor is not staff, when the account is the visitor's own, or when
    no user has the id: a visitor who is not staff is sent to the
    dashboard, and an id that no user has gives 404 to a staff member.
    *)
Theorem staff_views_guard_accounts
  (request_user : User) (target : Z) (s : Accounts) :
  is_staff request_user = false \/ target = user_id request_user \/
  find (fun r => user_id r =? target) (users s) = None ->
  forall view, In view [approve_user; reject_user; toggle_user_status] ->
    users (snd (view request_user target s)) = users s /\
    profiles (snd (view request_user target s)) = profiles s /\
    (is_staff request_user = false ->
       fst (view request_user target s)
       = Returned (Redirect (py "dashboard") None)) /\
    (is_staff request_user = true ->
     find (fun r => user_id r =? target) (users s) = None ->
       view request_user target s = (Raised not_found, s)).
Proof.
  intros Hguard view Hview.
  assert (Hv : view = approve_user \/ view = reject_user
               \/ view = toggle_user_status).
  { simpl in Hview. intuition. }
  clear Hview.
  assert (Hfound : forall row,
            find (fun r => user_id r =? target) (users s) = Some row ->
            is_staff request_user = true ->
            (user_id row =? user_id request_user) = true).
  { intros row Hrow Hstaff. destruct Hguard as [H|[H|H]].
    - congruence.
    - destruct (find_user_key _ _ _ Hrow) as [Hk _]. apply Z.eqb_eq. congruence.
    - congruence. }
  destruct Hv as [ -> | [ -> | -> ] ];
    rewrite ?approve_user_shape, ?reject_user_shape;
    unfold set_status, toggle_user_status;
    (destruct (is_staff request_user) eqn:Hstaff; simpl negb; cbv iota;
     [ destruct (find (fun r => user_id r =? target) (users s)) as [row|] eqn:Hf;
       [ rewrite (Hfound row eq_refl eq_refl); simpl;
         repeat split; intros; discriminate
       | simpl; repeat split; intros; discriminate ]
     | simpl; repeat split; intros; discriminate ]).
Qed.

(** X23: toggling the account of somebody else flips its activation, and
    toggling it twice gives the table of users back, the ids of the
    users being unique. *)
Theorem toggle_twice_restores_the_users
  (request_user : User) (target : Z) (s : Accounts) (target_user : User) :
  is_staff request_user = true ->
  find (fun r => user_id r =? target) (users s) = Some target_user ->
  target <> user_id request_user ->
  NoDup (map user_id (users s)) ->
  let s1 := snd (toggle_user_status request_user target s) in
  let s2 := snd (toggle_user_status request_user target s1) in
  (exists row, find (fun r => user_id r =? target) (users s1) = Some row /\
               is_active row = negb (is_active target_user)) /\
  users s2 = users s.
Proof.
  intros Hstaff Hfind Hself Hnd s1 s2.
  destruct (toggle_run request_user target s target_user Hstaff Hfind Hself)
    as (r1 & Hrun1 & Husers1 & Hrow1 & _).
  assert (E1 : s1 = r1) by (subst s1; rewrite Hrun1; reflexivity).
  destruct (toggle_run request_user target r1 _ Hstaff Hrow1 Hself)
    as (r2 & Hrun2 & Husers2 & _).
  assert (E2 : s2 = r2) by (subst s2; rewrite E1, Hrun2; reflexivity).
  rewrite E1, E2. split.
  - eexists. split; [exact Hrow1 | reflexivity].
  - rewrite Husers2, Husers1.
    destruct (find_user_key _ _ _ Hfind) as [Hk Hin].
    assert (Eback : with_active
                      (with_active target_user (negb (is_active target_user)))
                      (negb (is_active (with_active target_user
                                          (negb (is_active target_user)))))
                    = target_user).
    { destruct target_user as [i n f st su a]. simpl.
      rewrite negb_involutive. reflexivity. }
    rewrite Eback.
    rewrite <- Hk.
    apply (saved_twice_restores (users s) target_user
             (negb (is_active target_user)) Hnd Hin).
Qed.

(** X24: whatever the authentication backend answers, the login page of
    the learners logs in nobody who is staff or superuser and the page
    of the administrators nobody who is neither; a login happens only
    for a visitor who is not logged in, with a name and a password that
    are not empty and that the backend accepts, and if an account of
    that name exists it is active and of the kind of the page; a login
    issues no message. *)
Theorem login_pages_admit_only_their_own_kind
  (authenticate : list User -> str -> str -> option User)
  (request : LoginRequest) (s : Accounts) :
  (forall user,
     snd (fst (user_login authenticate request s)) = Some user ->
     is_staff user = false /\ is_superuser user = false /\
     login_user request = None /\
     truthy (POST_username request) = true /\
     truthy (POST_password request) = true /\
     authenticate (users s) (text_of (POST_username request))
                  (text_of (POST_password request)) = Some user /\
     (forall known, user_named s (text_of (POST_username request)) = Some known ->
        is_active known = true /\ is_staff known = false /\
        is_superuser known = false) /\
     snd (user_login authenticate request s) = s) /\
  (forall user,
     snd (fst (admin_login authenticate request s)) = Some user ->
     (is_staff user = true \/ is_superuser user = true) /\
     login_user request = None /\
     truthy (POST_username request) = true /\
     truthy (POST_password request) = true /\
     authenticate (users s) (text_of (POST_username request))
                  (text_of (POST_password request)) = Some user /\
     (forall known, user_named s (text_of (POST_username request)) = Some known ->
        is_active known = true /\
        (is_staff known = true \/ is_superuser known = true)) /\
     fst (fst (admin_login authenticate request s))
     = Redirect (py "admin_dashboard") None /\
     snd (admin_login authenticate request s) = s).
Proof.
  split; intros user; unfold user_login, admin_login, refuse.
  - destruct (login_user request) as [current|].
    { destruct (is_staff current || is_superuser current); discriminate. }
    destruct (str_eqb (login_method request) (py "POST")); [|discriminate].
    destruct (truthy (POST_username request)); [|discriminate].
    destruct (truthy (POST_password request)); [|discriminate].
    cbn [negb orb].
    destruct (user_named s (text_of (POST_username request))) as [known|].
    + destruct (is_staff known) eqn:Ks; [discriminate|].
      destruct (is_superuser known) eqn:Ku; [discriminate|].
      destruct (is_active known) eqn:Ka; [|discriminate].
      cbn [negb orb].
      destruct (authenticate _ _ _) as [found|]; [|discriminate].
      destruct (is_staff found) eqn:Fs; [discriminate|].
      destruct (is_superuser found) eqn:Fu; [discriminate|].
      cbn. intros [= <-]. repeat match goal with |- _ /\ _ => split end; try assumption; try reflexivity.
      all: intros k [= <-]; repeat split; assumption.
    + destruct (authenticate _ _ _) as [found|]; [|discriminate].
      destruct (is_staff found) eqn:Fs; [discriminate|].
      destruct (is_superuser found) eqn:Fu; [discriminate|].
      cbn. intros [= <-]. repeat match goal with |- _ /\ _ => split end; try assumption; try reflexivity.
      all: intros k; discriminate.
  - destruct (login_user request) as [current|].
    { destruct (is_staff current || is_superuser current); discriminate. }
    destruct (str_eqb (login_method request) (py "POST")); [|discriminate].
    destruct (truthy (POST_username request)); [|discriminate].
    destruct (truthy (POST_password request)); [|discriminate].
    cbn [negb orb].
    destruct (user_named s (text_of (POST_username request))) as [known|].
    + destruct (is_active known) eqn:Ka; [|discriminate].
      cbn [negb].
      destruct (negb (is_staff known) && negb (is_superuser known)) eqn:Kk;
        [discriminate|].
      destruct (authenticate _ _ _) as [found|]; [|discriminate].
      destruct (negb (is_staff found) && negb (is_superuser found)) eqn:Fk;
        [discriminate|].
      cbn. intros [= <-].
      assert (Hk : is_staff known = true \/ is_superuser known = true).
      { destruct (is_staff known), (is_superuser known); auto; discriminate. }
      assert (Hf : is_staff found = true \/ is_superuser found = true).
      { destruct (is_staff found), (is_superuser found); auto; discriminate. }
      repeat match goal with |- _ /\ _ => split end; try assumption; try reflexivity.
      all: intros k [= <-]; repeat split; assumption.
    + destruct (authenticate _ _ _) as [found|]; [|discriminate].
      destruct (negb (is_staff found) && negb (is_superuser found)) eqn:Fk;
        [discriminate|].
      cbn. intros [= <-].
      assert (Hf : is_staff found = true \/ is_superuser found = true).
      { destruct (is_staff found), (is_superuser found); auto; discriminate. }
      repeat match goal with |- _ /\ _ => split end; try assumption; try reflexivity.
      all: intros k; discriminate.
Qed.

(* ================================================================= *)
(** * Instances of the properties *)

Lemma library_world_keys : keys_below library_world.
Proof. split; constructor. Qed.

Lemma object_in_prose_is_extracted_witness :
  parse_feedback_response (simple_env None (Reply []))
    (py "Feedback: " ++ ch "{" :: js "'suggestions': 'Revise.'" ++ ch "}" :: py " Good luck!")
    empty_world
  = (Returned (feedback_dict (PyStr []) (PyStr []) (PyStr (py "Revise."))),
     empty_world).
Proof.
  destruct (object_in_prose_is_extracted (simple_env None (Reply []))
              (py "Feedback: ") (js "'suggestions': 'Revise.'") (py " Good luck!")
              (PyDict [(py "suggestions", PyStr (py "Revise."))]) empty_world)
    as (d & Ed & Hrun).
  - vm_compute. intuition discriminate.
  - vm_compute. intuition discriminate.
  - vm_compute. reflexivity.
  - injection Ed as <-. exact Hrun.
Defined.

Lemma upload_without_text_cannot_be_quizzed_witness :
  exists warning w1 w2,
    upload_pdf (topic_request 1) (Some scanned_upload) None empty_world
      = (Returned (Redirect (py "dashboard") None, warning), w1) /\
    create_quiz one_question_env subject_request 1 w1
      = (Returned (Redirect (py "dashboard") None), w2) /\
    quizzes w2 = quizzes w1 /\ llm_calls w2 = llm_calls w1.
Proof.
  destruct (upload_without_text_cannot_be_quizzed one_question_env
              (topic_request 1) subject_request scanned_upload None empty_world
              eq_refl eq_refl (Forall_nil _)
              ltac:(intros t H; vm_compute in H; injection H as <-; reflexivity)
              eq_refl eq_refl)
    as (warning & w1 & doc & w2 & Hup & Hdocs & Hid & Huser & Htext & Hrun
        & Hsame & Hcalls & Hflash).
  exists warning, w1, w2. split; [exact Hup|]. split; [exact Hrun|].
  split; [apply Hsame | exact Hcalls].
Defined.

Lemma delete_quiz_removes_the_quiz_and_its_rows_witness :
  exists w',
    delete_quiz (example_submission 0 []) 1 (example_world 2)
      = (Returned (Redirect (py "dashboard") None), w') /\
    quizzes w' = [] /\ questions w' = [] /\
    delete_quiz (example_submission 0 []) 1 w' = (Raised not_found, w').
Proof.
  destruct (proj2 (delete_quiz_removes_the_quiz_and_its_rows
                     (example_submission 0 []) 1 (example_world 2)
                     (example_world_ok 2)) _ eq_refl)
    as (w' & Hrun & _ & Hquizzes & Hquestions & _ & _ & _ & _ & _ & Hagain).
  exists w'. split; [exact Hrun|]. split; [exact Hquizzes|].
  split; [exact Hquestions | apply Hagain].
Defined.

Lemma delete_quiz_undoes_create_quiz_witness :
  exists w2,
    delete_quiz subject_request 2
      (snd (create_quiz one_question_env subject_request 1 library_world))
    = (Returned (Redirect (py "dashboard") None), w2) /\
    same_rows library_world w2.
Proof.
  apply (delete_quiz_undoes_create_quiz one_question_env subject_request 1 2
           library_world _ library_world_keys).
  vm_compute. reflexivity.
Defined.

Lemma delete_pdf_undoes_topic_quiz_witness :
  exists out w1 doc w2,
    create_quiz_from_topic one_question_env (topic_request 1) empty_world
      = (Returned out, w1) /\
    pdf_documents w1 = pdf_documents empty_world ++ [doc] /\
    pdf_id doc = next_pk empty_world /\
    delete_pdf (topic_request 1) (next_pk empty_world) w1
      = (Returned (Redirect (py "dashboard") None), w2) /\
    same_rows empty_world w2.
Proof.
  apply (delete_pdf_undoes_topic_quiz one_question_env (topic_request 1)
           empty_world empty_world_keys empty_world_integrity
           eq_refl eq_refl eq_refl).
  cbn. lia.
Defined.



Lemma references_resolve_witness :
  exists quiz,
    In quiz (quizzes (snd (create_quiz_from_topic one_question_env
                             (topic_request 1) empty_world))) /\
    quiz_id quiz = 2.
Proof.
  refine (proj1 (proj2 (references_resolve _
                          (site_topic one_question_env (topic_request 1)
                             empty_world site_empty)))
            {| question_id := 3; question_quiz := 2; question_text := py "q";
               option_a := py "a"; option_b := py "b"; option_c := py "c";
               option_d := py "d"; correct_answer := py "A";
               explanation := Some []; order := 1 |} _).
  vm_compute. left. reflexivity.
Defined.

Lemma stored_quizzes_are_complete_witness :
  is_completed (completed (new_quiz (topic_request 1)
                             {| pdf_id := 1; pdf_user := 1;
                                pdf_title := py "Topic: Cells"; pdf_file := None;
                                pdf_text_content := Some (py "Topic: Cells") |}
                             (py "Cells") (py "Easy")
                             (set_next_pk empty_world 2)))
  = true.
Proof.
  refine (proj1 (stored_quizzes_are_complete _
                   (site_submit (simple_env None (Reply []))
                      (example_submission 0 []) 2 _
                      (site_topic one_question_env (topic_request 1)
                         empty_world site_empty))
                   _ _)).
  vm_compute. left. reflexivity.
Defined.



Lemma rejected_account_stays_active_witness :
  exists row,
    find (fun r => user_id r =? 2)
         (users (snd (reject_user example_staff 2 example_accounts)))
    = Some row /\
    is_active row = true.
Proof.
  exact (proj1 (proj2 (rejected_account_stays_active example_staff 2
                         example_accounts example_learner eq_refl eq_refl
                         ltac:(cbn; lia)))).
Defined.

Lemma staff_views_guard_accounts_witness :
  users (snd (reject_user example_learner 1 example_accounts))
  = users example_accounts.
Proof.
  exact (proj1 (staff_views_guard_accounts example_learner 1 example_accounts
                  (or_introl eq_refl) reject_user
                  (or_intror (or_introl eq_refl)))).
Defined.

Lemma toggle_twice_restores_the_users_witness :
  users (snd (toggle_user_status example_staff 2
                (snd (toggle_user_status example_staff 2 example_accounts))))
  = users example_accounts.
Proof.
  refine (proj2 (toggle_twice_restores_the_users example_staff 2
                   example_accounts example_learner eq_refl eq_refl _ _)).
  - cbn. lia.
  - repeat constructor; cbn; intuition lia.
Defined.

Lemma login_pages_admit_only_their_own_kind_witness :
  is_staff example_learner = false /\ is_superuser example_learner = false.
Proof.
  destruct (proj1 (login_pages_admit_only_their_own_kind
                     (fun _ _ _ => Some example_learner)
                     {| login_user := None; login_method := py "POST";
                        POST_username := Some (py "ravi");
                        POST_password := Some (py "secret");
                        GET_next := None |}
                     {| users := [example_staff; with_active example_learner true];
                        profiles := []; next_profile := 1; notices := [] |})
              example_learner eq_refl)
    as (Hstaff & Hsuper & _).
  split; assumption.
Defined.

Lemma quiz_detail_is_open_to_every_learner_witness :
  take_quiz visitor_request 1 (example_world 2)
  = (Raised not_found, example_world 2) /\
  exists context,
    quiz_detail visitor_request false 1 (example_world 2)
    = (Returned context, example_world 2) /\
    shown_questions context = map example_question [1%nat; 2%nat].
Proof.
  destruct (quiz_detail_is_open_to_every_learner (simple_env None (Reply []))
              visitor_request 1 _ (example_world 2)
              ltac:(repeat constructor; intros [])
              eq_refl ltac:(cbn; lia))
    as (Htake & _ & _ & _ & context & Hrun & _ & Hquestions & _).
  split; [exact Htake|]. exists context. split; [exact Hrun|].
  rewrite Hquestions. vm_compute. reflexivity.
Defined.
